(** * libserial: the [SerialPort] / [SerialPortImpl] pair of SerialPort.cpp

    A shallow embedding of [src/libserial/src/SerialPort.cpp].  The methods of
    [SerialPortImpl] are functions in a state-and-exception monad over the
    object's fields and an explicit model of the operating system: the set of
    live descriptors, the line settings of the terminal device, its input
    queue, and the log of the system calls made so far.  Which system calls
    fail, and when bytes arrive on the line, is part of the world, so that
    every behaviour of the environment is covered by quantifying over
    worlds. *)

From Stdlib Require Import String ZArith List Bool Lia.
From Stdlib Require Finite.
From ExtLib Require Import Structures.Monad.
Import ListNotations MonadNotation.
Local Open Scope Z_scope.
Local Open Scope monad_scope.

(** ** Constants of <termios.h>, <fcntl.h> and <sys/ioctl.h>

    The values are those of Linux (asm-generic/termbits.h, fcntl.h,
    ioctls.h). *)
Module Posix.

Definition CSIZE   : Z := 48.          (* 0000060 *)
Definition CS5     : Z := 0.           (* 0000000 *)
Definition CS6     : Z := 16.          (* 0000020 *)
Definition CS7     : Z := 32.          (* 0000040 *)
Definition CS8     : Z := 48.          (* 0000060 *)
Definition CSTOPB  : Z := 64.          (* 0000100 *)
Definition CREAD   : Z := 128.         (* 0000200 *)
Definition PARENB  : Z := 256.         (* 0000400 *)
Definition PARODD  : Z := 512.         (* 0001000 *)
Definition CLOCAL  : Z := 2048.        (* 0004000 *)
Definition CRTSCTS : Z := 2147483648.  (* 020000000000 *)

Definition CBAUD      : Z := 4111.     (* 0010017 *)
Definition CBAUDEX    : Z := 4096.     (* 0010000 *)
Definition B9600      : Z := 13.       (* 0000015 *)
Definition B57600     : Z := 4097.     (* 0010001 *)
Definition B115200    : Z := 4098.     (* 0010002 *)
Definition B4000000   : Z := 4111.     (* 0010017 *)
Definition __MAX_BAUD : Z := B4000000.

(* The flag glibc keeps in [c_iflag] for an input speed of zero
   (sysdeps/unix/sysv/linux/speed.c). *)
Definition IBAUD0 : Z := 2147483648.   (* 020000000000 *)

Definition VTIME : nat := 5.
Definition VMIN  : nat := 6.
Definition NCCS  : nat := 32.

Definition TCSANOW : Z := 0.

Definition O_RDWR     : Z := 2.        (* 02 *)
Definition O_NOCTTY   : Z := 256.      (* 0400 *)
Definition O_NONBLOCK : Z := 2048.     (* 04000 *)

Definition F_SETOWN : Z := 8.
Definition FIONREAD : Z := 21531.      (* 0x541B *)

End Posix.
Import Posix.

(** [tcflag_t] and [speed_t] are [unsigned int]: every store wraps to 32
    bits. *)
Definition u32 (z : Z) : Z := z mod 2 ^ 32.

(** ** [struct termios] *)
Record termios : Type := mk_termios {
  c_iflag  : Z;
  c_oflag  : Z;
  c_cflag  : Z;
  c_lflag  : Z;
  c_cc     : list Z;
  c_ispeed : Z;
  c_ospeed : Z
}.

Definition set_c_iflag (t : termios) (v : Z) : termios :=
  mk_termios v (c_oflag t) (c_cflag t) (c_lflag t) (c_cc t) (c_ispeed t) (c_ospeed t).
Definition set_c_oflag (t : termios) (v : Z) : termios :=
  mk_termios (c_iflag t) v (c_cflag t) (c_lflag t) (c_cc t) (c_ispeed t) (c_ospeed t).
Definition set_c_cflag (t : termios) (v : Z) : termios :=
  mk_termios (c_iflag t) (c_oflag t) v (c_lflag t) (c_cc t) (c_ispeed t) (c_ospeed t).
Definition set_c_lflag (t : termios) (v : Z) : termios :=
  mk_termios (c_iflag t) (c_oflag t) (c_cflag t) v (c_cc t) (c_ispeed t) (c_ospeed t).
Definition set_c_ispeed (t : termios) (v : Z) : termios :=
  mk_termios (c_iflag t) (c_oflag t) (c_cflag t) (c_lflag t) (c_cc t) v (c_ospeed t).
Definition set_c_ospeed (t : termios) (v : Z) : termios :=
  mk_termios (c_iflag t) (c_oflag t) (c_cflag t) (c_lflag t) (c_cc t) (c_ispeed t) v.

(** [a[i] = v] on an array held as a list; the indices the program uses
    ([VMIN], [VTIME]) are below [NCCS]. *)
Fixpoint array_set (a : list Z) (i : nat) (v : Z) : list Z :=
  match a, i with
  | [], _ => []
  | _ :: r, O => v :: r
  | x :: r, S j => x :: array_set r j v
  end.

Definition set_c_cc (t : termios) (i : nat) (v : Z) : termios :=
  mk_termios (c_iflag t) (c_oflag t) (c_cflag t) (c_lflag t)
             (array_set (c_cc t) i v) (c_ispeed t) (c_ospeed t).

(** [t.c_cflag |= x] and [t.c_cflag &= x]. *)
Definition or_c_cflag (t : termios) (x : Z) : termios :=
  set_c_cflag t (u32 (Z.lor (c_cflag t) (u32 x))).
Definition and_c_cflag (t : termios) (x : Z) : termios :=
  set_c_cflag t (u32 (Z.land (c_cflag t) (u32 x))).

(** [t.c_iflag |= x] and [t.c_iflag &= x]. *)
Definition or_c_iflag (t : termios) (x : Z) : termios :=
  set_c_iflag t (u32 (Z.lor (c_iflag t) (u32 x))).
Definition and_c_iflag (t : termios) (x : Z) : termios :=
  set_c_iflag t (u32 (Z.land (c_iflag t) (u32 x))).

(** Value-initialised [termios()], as in the constructor's initialiser
    list. *)
Definition termios_zero : termios :=
  mk_termios 0 0 0 0 (repeat 0 NCCS) 0 0.

(** The speed functions of the C library work on the structure only.
    They are those of glibc on Linux (sysdeps/unix/sysv/linux/speed.c), the
    platform of the constants above: the rate is kept in the [CBAUD] bits
    of [c_cflag], an input rate of zero in [IBAUD0] of [c_iflag], and the
    fields [c_ispeed] and [c_ospeed] are written but never read. *)

(** The test both setters start with:
    [(speed & ~CBAUD) != 0 && (speed < B57600 || speed > __MAX_BAUD)]
    refuses the speed. *)
Definition valid_speed (speed : Z) : bool :=
  negb (negb (Z.land speed (u32 (Z.lnot CBAUD)) =? 0)
        && ((speed <? B57600) || (__MAX_BAUD <? speed))).

(** What [cfsetispeed] and [cfsetospeed] do to the structure once the speed
    has passed the test. *)
Definition ispeed_put (speed : Z) (t : termios) : termios :=
  let t := set_c_ispeed t speed in
  if speed =? 0 then or_c_iflag t IBAUD0
  else
    let t := and_c_iflag t (Z.lnot IBAUD0) in
    let t := and_c_cflag t (Z.lnot (Z.lor CBAUD CBAUDEX)) in
    or_c_cflag t speed.
Definition ospeed_put (speed : Z) (t : termios) : termios :=
  let t := set_c_ospeed t speed in
  let t := and_c_cflag t (Z.lnot (Z.lor CBAUD CBAUDEX)) in
  or_c_cflag t speed.

Definition cfsetispeed (t : termios) (speed : Z) : Z * termios :=
  if valid_speed (u32 speed) then (0, ispeed_put (u32 speed) t) else (-1, t).
Definition cfsetospeed (t : termios) (speed : Z) : Z * termios :=
  if valid_speed (u32 speed) then (0, ospeed_put (u32 speed) t) else (-1, t).
Definition cfgetispeed (t : termios) : Z :=
  if negb (Z.land (c_iflag t) IBAUD0 =? 0) then 0
  else Z.land (c_cflag t) (Z.lor CBAUD CBAUDEX).

(** ** The operating system *)

Inductive os_call : Type :=
| call_open (path : string) (oflag : Z)
| call_tcgetattr (fd : Z)
| call_tcsetattr (fd : Z) (optional_actions : Z) (t : termios)
| call_getpid
| call_fcntl (fd cmd arg : Z)
| call_close (fd : Z)
| call_ioctl (fd request : Z)
| call_read (fd : Z) (nbyte : Z)
| call_write (fd : Z) (byte : Z).

Record world : Type := mk_world {
  w_trace  : list os_call;        (* the calls made so far, oldest first *)
  w_clock  : nat;                 (* how many calls were made so far *)
  w_fault  : nat -> bool;         (* does the call number n fail? *)
  w_live   : list Z;              (* descriptors open in the process *)
  w_tty    : termios;             (* line settings in force on the device *)
  w_driver : termios -> termios -> termios;
                                  (* what the driver adopts: old, requested *)
  w_arrive : nat -> list Z;       (* bytes arriving before call number n *)
  w_rx     : list Z;              (* input queue *)
  w_tx     : list Z;              (* bytes written *)
  w_pid    : Z;
  w_indeterminate : Z             (* content of an uninitialised byte *)
}.

Definition now (w : world) : nat := w_clock w.

(** Does the call about to be made fail by the schedule? *)
Definition faulty (w : world) : bool := w_fault w (now w).

Definition is_live (fd : Z) (w : world) : bool :=
  existsb (Z.eqb fd) (w_live w).

(** Every call is logged, and the line delivers what arrived meanwhile. *)
Definition enter (c : os_call) (w : world) : world :=
  mk_world (w_trace w ++ [c]) (S (w_clock w)) (w_fault w) (w_live w) (w_tty w) (w_driver w)
           (w_arrive w) (w_rx w ++ w_arrive w (now w)) (w_tx w) (w_pid w)
           (w_indeterminate w).

Definition with_live (w : world) (l : list Z) : world :=
  mk_world (w_trace w) (w_clock w) (w_fault w) l (w_tty w) (w_driver w)
           (w_arrive w) (w_rx w) (w_tx w) (w_pid w) (w_indeterminate w).
Definition with_tty (w : world) (t : termios) : world :=
  mk_world (w_trace w) (w_clock w) (w_fault w) (w_live w) t (w_driver w)
           (w_arrive w) (w_rx w) (w_tx w) (w_pid w) (w_indeterminate w).
Definition with_rx (w : world) (q : list Z) : world :=
  mk_world (w_trace w) (w_clock w) (w_fault w) (w_live w) (w_tty w) (w_driver w)
           (w_arrive w) q (w_tx w) (w_pid w) (w_indeterminate w).
Definition with_tx (w : world) (q : list Z) : world :=
  mk_world (w_trace w) (w_clock w) (w_fault w) (w_live w) (w_tty w) (w_driver w)
           (w_arrive w) (w_rx w) q (w_pid w) (w_indeterminate w).

(** [open] hands out the lowest descriptor not in use. *)
Fixpoint lowest_free_from (live : list Z) (cand : Z) (fuel : nat) : Z :=
  match fuel with
  | O => cand
  | S n => if existsb (Z.eqb cand) live
           then lowest_free_from live (cand + 1) n
           else cand
  end.
Definition lowest_free (live : list Z) : Z :=
  lowest_free_from live 0 (length live).

Definition OS (A : Type) : Type := world -> A * world.

Module Sys.

Definition open (path : string) (oflag : Z) : OS Z := fun w =>
  let w1 := enter (call_open path oflag) w in
  if faulty w then (-1, w1)
  else let fd := lowest_free (w_live w) in (fd, with_live w1 (fd :: w_live w)).

(** [None]: the call returned -1 and the buffer was not written. *)
Definition tcgetattr (fd : Z) : OS (option termios) := fun w =>
  let w1 := enter (call_tcgetattr fd) w in
  if faulty w || negb (is_live fd w) then (None, w1)
  else (Some (w_tty w), w1).

Definition tcsetattr (fd : Z) (optional_actions : Z) (t : termios) : OS Z :=
  fun w =>
  let w1 := enter (call_tcsetattr fd optional_actions t) w in
  if faulty w || negb (is_live fd w) then (-1, w1)
  else (0, with_tty w1 (w_driver w (w_tty w) t)).

Definition getpid : OS Z := fun w => (w_pid w, enter call_getpid w).

Definition fcntl (fd cmd arg : Z) : OS Z := fun w =>
  let w1 := enter (call_fcntl fd cmd arg) w in
  if faulty w || negb (is_live fd w) then (-1, w1) else (0, w1).

(** The descriptor is gone after [close] whatever it returns. *)
Definition close (fd : Z) : OS Z := fun w =>
  let w1 := with_live (enter (call_close fd) w)
                      (filter (fun d => negb (d =? fd)) (w_live w)) in
  if faulty w || negb (is_live fd w) then (-1, w1) else (0, w1).

(** [ioctl(fd, FIONREAD, &n)]: the result and the new content of [n]. *)
Definition ioctl_FIONREAD (fd : Z) (n : Z) : OS (Z * Z) := fun w =>
  let w1 := enter (call_ioctl fd FIONREAD) w in
  if faulty w || negb (is_live fd w) then ((-1, n), w1)
  else ((0, Z.of_nat (length (w_rx w1))), w1).

(** [read(fd, &b, 1)] on a line with VMIN = VTIME = 0: the result and the
    new content of [b]. *)
Definition read1 (fd : Z) (b : Z) : OS (Z * Z) := fun w =>
  let w1 := enter (call_read fd 1) w in
  if faulty w || negb (is_live fd w) then ((-1, b), w1)
  else match w_rx w1 with
       | [] => ((0, b), w1)
       | x :: q => ((1, x), with_rx w1 q)
       end.

Definition write1 (fd : Z) (b : Z) : OS Z := fun w =>
  let w1 := enter (call_write fd b) w in
  if faulty w || negb (is_live fd w) then (-1, w1)
  else (1, with_tx w1 (w_tx w1 ++ [b])).

End Sys.

(** ** Exceptions *)

(** The classes thrown in SerialPort.cpp: four of [SerialPort]'s own and two
    of <stdexcept>. *)
Inductive exn_class : Type :=
| AlreadyOpen
| NotOpen
| OpenFailed
| UnsupportedBaudRate
| invalid_argument
| runtime_error.

Definition exn_class_eqb (a b : exn_class) : bool :=
  match a, b with
  | AlreadyOpen, AlreadyOpen
  | NotOpen, NotOpen
  | OpenFailed, OpenFailed
  | UnsupportedBaudRate, UnsupportedBaudRate
  | invalid_argument, invalid_argument
  | runtime_error, runtime_error => true
  | _, _ => false
  end.

(** What the exception carries: one of the fixed texts, or
    [strerror(errno)]. *)
Inductive message : Type :=
| Text (s : string)
| strerror_errno.

Definition ERR_MSG_PORT_NOT_OPEN        : message := Text "Serial port not open.".
Definition ERR_MSG_PORT_ALREADY_OPEN    : message := Text "Serial port already open.".
Definition ERR_MSG_UNSUPPORTED_BAUD     : message := Text "Unsupported baud rate.".
Definition ERR_MSG_UNKNOWN_BAUD         : message := Text "Unknown baud rate.".
Definition ERR_MSG_INVALID_PARITY       : message := Text "Invalid parity setting.".
Definition ERR_MSG_INVALID_STOP_BITS    : message := Text "Invalid number of stop bits.".
Definition ERR_MSG_INVALID_FLOW_CONTROL : message := Text "Invalid flow control.".

Definition exception : Type := exn_class * message.

(** How a call ends.  [Unexpected e]: [e] left a function whose exception
    specification does not list it, so [std::unexpected()] was called and
    the program is over.  [OutOfFuel]: the loop of [ReadByte] was still
    polling when the fuel given to it ran out. *)
Inductive result (A : Type) : Type :=
| Ret (a : A)
| Throw (e : exception)
| Unexpected (e : exception)
| OutOfFuel.
Arguments Ret {A} a.
Arguments Throw {A} e.
Arguments Unexpected {A} e.
Arguments OutOfFuel {A}.

(** ** The object and its methods *)

Record SerialPortImpl : Type := mk_SerialPortImpl {
  mSerialPortName  : string;
  mIsOpen          : bool;
  mFileDescriptor  : Z;
  mOldPortSettings : termios
}.

(** A method: from the object and the world to a result, the object and
    the world.  The object and the world keep what was done to them when an
    exception leaves. *)
Definition M (A : Type) : Type :=
  SerialPortImpl -> world -> result A * SerialPortImpl * world.

#[export] Instance Monad_M : Monad M := {|
  ret := fun _ a h w => (Ret a, h, w);
  bind := fun _ _ m k h w =>
    match m h w with
    | (Ret a, h', w') => k a h' w'
    | (Throw e, h', w') => (Throw e, h', w')
    | (Unexpected e, h', w') => (Unexpected e, h', w')
    | (OutOfFuel, h', w') => (OutOfFuel, h', w')
    end
|}.

Definition throw {A : Type} (c : exn_class) (what : message) : M A :=
  fun h w => (Throw (c, what), h, w).

Definition out_of_fuel {A : Type} : M A := fun h w => (OutOfFuel, h, w).

(** A system call made from a method. *)
Definition sys {A : Type} (c : OS A) : M A :=
  fun h w => let (a, w') := c w in (Ret a, h, w').

Definition assign_mIsOpen (b : bool) : M unit := fun h w =>
  (Ret tt,
   mk_SerialPortImpl (mSerialPortName h) b (mFileDescriptor h) (mOldPortSettings h),
   w).
Definition assign_mFileDescriptor (fd : Z) : M unit := fun h w =>
  (Ret tt,
   mk_SerialPortImpl (mSerialPortName h) (mIsOpen h) fd (mOldPortSettings h),
   w).
Definition assign_mOldPortSettings (t : termios) : M unit := fun h w =>
  (Ret tt,
   mk_SerialPortImpl (mSerialPortName h) (mIsOpen h) (mFileDescriptor h) t,
   w).

(** The dynamic exception specification [throw(c1, ..., cn)] of a function:
    an exception of a class that is not listed does not leave it.  The
    classes thrown where a specification lists others are the two of
    <stdexcept>, which derive from no class of [SerialPort], so listing is
    by the class itself. *)
Definition listed (c : exn_class) (spec : list exn_class) : bool :=
  existsb (exn_class_eqb c) spec.

Definition throw_spec {A : Type} (spec : list exn_class) (body : M A) : M A :=
  fun h w =>
    match body h w with
    | (Throw e, h', w') =>
        if listed (fst e) spec then (Throw e, h', w') else (Unexpected e, h', w')
    | r => r
    end.

(** Modelled from the spec: the enumerators of [SerialPort::Parity],
    [SerialPort::StopBits] and [SerialPort::FlowControl], declared in
    SerialPort.h, which is not among the sources.  The spec gives the
    members (parity none, odd, even; one or two stop bits; flow control none
    or hardware) and not their values, so the values are left open.  A
    [switch] over them is a chain of comparisons taken in the order of its
    labels. *)
Class SerialPort_h : Type := mk_SerialPort_h {
  PARITY_EVEN       : Z;
  PARITY_ODD        : Z;
  PARITY_NONE       : Z;
  STOP_BITS_1       : Z;
  STOP_BITS_2       : Z;
  FLOW_CONTROL_HARD : Z;
  FLOW_CONTROL_NONE : Z
}.

(** Modelled from the spec: the enumerators of [SerialPort::CharacterSize]
    of SerialPort.h; each is the constant of the operating system for 5, 6,
    7 and 8 bits. *)
Definition CHAR_SIZE_5 : Z := CS5.
Definition CHAR_SIZE_6 : Z := CS6.
Definition CHAR_SIZE_7 : Z := CS7.
Definition CHAR_SIZE_8 : Z := CS8.

Definition legal_char_size (v : Z) : bool :=
  (v =? CHAR_SIZE_5) || (v =? CHAR_SIZE_6) || (v =? CHAR_SIZE_7) || (v =? CHAR_SIZE_8).

(** Reading a field of the object. *)
Definition field {A : Type} (f : SerialPortImpl -> A) : M A :=
  fun h w => (Ret (f h), h, w).

(** [unsigned char b ;]: a local declared without a value. *)
Definition uninitialised : M Z :=
  fun h w => (Ret (w_indeterminate w), h, w).

(** *** [class SerialPortImpl] *)
Module SerialPortImpl.
Section Methods.
Context {hdr : SerialPort_h}.

Definition constructor (serialPortName : string) : SerialPortImpl :=
  mk_SerialPortImpl serialPortName false (-1) termios_zero.

Definition IsOpen : M bool := field mIsOpen.

Definition Open : M unit :=
  throw_spec [OpenFailed; AlreadyOpen] (
    is_open <- IsOpen ;;
    if is_open then throw AlreadyOpen ERR_MSG_PORT_ALREADY_OPEN else
    name <- field mSerialPortName ;;
    fd <- sys (Sys.open name (Z.lor (Z.lor O_RDWR O_NOCTTY) O_NONBLOCK)) ;;
    assign_mFileDescriptor fd ;;
    fd <- field mFileDescriptor ;;
    if fd <? 0 then throw OpenFailed strerror_errno else
    got <- sys (Sys.tcgetattr fd) ;;
    match got with
    | None => throw OpenFailed strerror_errno
    | Some settings =>
        assign_mOldPortSettings settings ;;
        port_settings <- field mOldPortSettings ;;
        let port_settings := set_c_lflag port_settings 0 in
        let port_settings := set_c_oflag port_settings 0 in
        let port_settings := or_c_cflag port_settings (Z.lor CREAD CLOCAL) in
        let port_settings := set_c_cc port_settings VMIN 0 in
        let port_settings := set_c_cc port_settings VTIME 0 in
        rc <- sys (Sys.tcsetattr fd TCSANOW port_settings) ;;
        if rc <? 0 then throw OpenFailed strerror_errno else
        pid <- sys Sys.getpid ;;
        rc <- sys (Sys.fcntl fd F_SETOWN pid) ;;
        if rc <? 0 then throw OpenFailed strerror_errno else
        assign_mIsOpen true
    end).

Definition Close : M unit :=
  throw_spec [NotOpen] (
    is_open <- IsOpen ;;
    if negb is_open then throw NotOpen ERR_MSG_PORT_NOT_OPEN else
    fd <- field mFileDescriptor ;;
    saved <- field mOldPortSettings ;;
    _ <- sys (Sys.tcsetattr fd TCSANOW saved) ;;
    _ <- sys (Sys.close fd) ;;
    assign_mIsOpen false).

Definition destructor : M unit :=
  is_open <- IsOpen ;;
  if is_open then Close else ret tt.

Definition SetBaudRate (baudRate : Z) : M unit :=
  throw_spec [NotOpen; UnsupportedBaudRate; invalid_argument; runtime_error] (
    is_open <- IsOpen ;;
    if negb is_open then throw NotOpen ERR_MSG_PORT_NOT_OPEN else
    fd <- field mFileDescriptor ;;
    got <- sys (Sys.tcgetattr fd) ;;
    match got with
    | None => throw runtime_error strerror_errno
    | Some port_settings =>
        let (rc_i, port_settings) := cfsetispeed port_settings baudRate in
        if rc_i <? 0 then throw UnsupportedBaudRate ERR_MSG_UNSUPPORTED_BAUD else
        let (rc_o, port_settings) := cfsetospeed port_settings baudRate in
        if rc_o <? 0 then throw UnsupportedBaudRate ERR_MSG_UNSUPPORTED_BAUD else
        rc <- sys (Sys.tcsetattr fd TCSANOW port_settings) ;;
        if rc <? 0 then throw UnsupportedBaudRate strerror_errno else
        ret tt
    end).

Definition GetBaudRate : M Z :=
  throw_spec [NotOpen; runtime_error] (
    is_open <- IsOpen ;;
    if negb is_open then throw NotOpen ERR_MSG_PORT_NOT_OPEN else
    fd <- field mFileDescriptor ;;
    got <- sys (Sys.tcgetattr fd) ;;
    match got with
    | None => throw runtime_error strerror_errno
    | Some current_settings => ret (cfgetispeed current_settings)
    end).

Definition SetCharSize (charSize : Z) : M unit :=
  throw_spec [NotOpen; invalid_argument; runtime_error] (
    is_open <- IsOpen ;;
    if negb is_open then throw NotOpen ERR_MSG_PORT_NOT_OPEN else
    fd <- field mFileDescriptor ;;
    got <- sys (Sys.tcgetattr fd) ;;
    match got with
    | None => throw runtime_error strerror_errno
    | Some port_settings =>
        let port_settings := and_c_cflag port_settings (Z.lnot CSIZE) in
        let port_settings := or_c_cflag port_settings charSize in
        rc <- sys (Sys.tcsetattr fd TCSANOW port_settings) ;;
        if rc <? 0 then throw invalid_argument strerror_errno else
        ret tt
    end).

Definition GetCharSize : M Z :=
  throw_spec [NotOpen; runtime_error] (
    is_open <- IsOpen ;;
    if negb is_open then throw NotOpen ERR_MSG_PORT_NOT_OPEN else
    fd <- field mFileDescriptor ;;
    got <- sys (Sys.tcgetattr fd) ;;
    match got with
    | None => throw runtime_error strerror_errno
    | Some port_settings => ret (Z.land (c_cflag port_settings) CSIZE)
    end).

(** The body, before the exception specification is applied. *)
Definition SetParity_body (parityType : Z) : M unit :=
  is_open <- IsOpen ;;
  if negb is_open then throw NotOpen ERR_MSG_PORT_NOT_OPEN else
  fd <- field mFileDescriptor ;;
  got <- sys (Sys.tcgetattr fd) ;;
  match got with
  | None => throw runtime_error strerror_errno
  | Some port_settings =>
      port_settings <-
        (if parityType =? PARITY_EVEN then
           let port_settings := or_c_cflag port_settings PARENB in
           ret (and_c_cflag port_settings (Z.lnot PARODD))
         else if parityType =? PARITY_ODD then
           ret (or_c_cflag port_settings (Z.lor PARENB PARODD))
         else if parityType =? PARITY_NONE then
           ret (and_c_cflag port_settings (Z.lnot PARENB))
         else throw invalid_argument ERR_MSG_INVALID_PARITY) ;;
      rc <- sys (Sys.tcsetattr fd TCSANOW port_settings) ;;
      if rc <? 0 then throw invalid_argument strerror_errno else
      ret tt
  end.

Definition SetParity (parityType : Z) : M unit :=
  throw_spec [NotOpen; invalid_argument; runtime_error] (SetParity_body parityType).

Definition GetParity_throw : list exn_class := [NotOpen].

Definition GetParity_body : M Z :=
  is_open <- IsOpen ;;
  if negb is_open then throw NotOpen ERR_MSG_PORT_NOT_OPEN else
  fd <- field mFileDescriptor ;;
  got <- sys (Sys.tcgetattr fd) ;;
  match got with
  | None => throw runtime_error strerror_errno
  | Some port_settings =>
      if negb (Z.land (c_cflag port_settings) PARENB =? 0) then
        if negb (Z.land (c_cflag port_settings) PARODD =? 0)
        then ret PARITY_ODD
        else ret PARITY_EVEN
      else ret PARITY_NONE
  end.

Definition GetParity : M Z := throw_spec GetParity_throw GetParity_body.

Definition SetNumOfStopBits_body (numOfStopBits : Z) : M unit :=
  is_open <- IsOpen ;;
  if negb is_open then throw NotOpen ERR_MSG_PORT_NOT_OPEN else
  fd <- field mFileDescriptor ;;
  got <- sys (Sys.tcgetattr fd) ;;
  match got with
  | None => throw runtime_error strerror_errno
  | Some port_settings =>
      port_settings <-
        (if numOfStopBits =? STOP_BITS_1 then
           ret (and_c_cflag port_settings (Z.lnot CSTOPB))
         else if numOfStopBits =? STOP_BITS_2 then
           ret (or_c_cflag port_settings CSTOPB)
         else throw invalid_argument ERR_MSG_INVALID_STOP_BITS) ;;
      rc <- sys (Sys.tcsetattr fd TCSANOW port_settings) ;;
      if rc <? 0 then throw invalid_argument strerror_errno else
      ret tt
  end.

Definition SetNumOfStopBits (numOfStopBits : Z) : M unit :=
  throw_spec [NotOpen; invalid_argument] (SetNumOfStopBits_body numOfStopBits).

Definition GetNumOfStopBits_throw : list exn_class := [NotOpen].

Definition GetNumOfStopBits_body : M Z :=
  is_open <- IsOpen ;;
  if negb is_open then throw NotOpen ERR_MSG_PORT_NOT_OPEN else
  fd <- field mFileDescriptor ;;
  got <- sys (Sys.tcgetattr fd) ;;
  match got with
  | None => throw runtime_error strerror_errno
  | Some port_settings =>
      if negb (Z.land (c_cflag port_settings) CSTOPB =? 0)
      then ret STOP_BITS_2
      else ret STOP_BITS_1
  end.

Definition GetNumOfStopBits : M Z :=
  throw_spec GetNumOfStopBits_throw GetNumOfStopBits_body.

Definition SetFlowControl_body (flowControl : Z) : M unit :=
  is_open <- IsOpen ;;
  if negb is_open then throw NotOpen ERR_MSG_PORT_NOT_OPEN else
  fd <- field mFileDescriptor ;;
  got <- sys (Sys.tcgetattr fd) ;;
  match got with
  | None => throw runtime_error strerror_errno
  | Some port_settings =>
      port_settings <-
        (if flowControl =? FLOW_CONTROL_HARD then
           ret (or_c_cflag port_settings CRTSCTS)
         else if flowControl =? FLOW_CONTROL_NONE then
           ret (and_c_cflag port_settings (Z.lnot CRTSCTS))
         else throw invalid_argument ERR_MSG_INVALID_FLOW_CONTROL) ;;
      rc <- sys (Sys.tcsetattr fd TCSANOW port_settings) ;;
      if rc <? 0 then throw invalid_argument strerror_errno else
      ret tt
  end.

Definition SetFlowControl (flowControl : Z) : M unit :=
  throw_spec [NotOpen; invalid_argument] (SetFlowControl_body flowControl).

Definition GetFlowControl_throw : list exn_class := [NotOpen].

Definition GetFlowControl_body : M Z :=
  is_open <- IsOpen ;;
  if negb is_open then throw NotOpen ERR_MSG_PORT_NOT_OPEN else
  fd <- field mFileDescriptor ;;
  got <- sys (Sys.tcgetattr fd) ;;
  match got with
  | None => throw runtime_error strerror_errno
  | Some port_settings =>
      if negb (Z.land (c_cflag port_settings) CRTSCTS =? 0)
      then ret FLOW_CONTROL_HARD
      else ret FLOW_CONTROL_NONE
  end.

Definition GetFlowControl : M Z :=
  throw_spec GetFlowControl_throw GetFlowControl_body.

Definition IsDataAvailable : M bool :=
  throw_spec [NotOpen; runtime_error] (
    is_open <- IsOpen ;;
    if negb is_open then throw NotOpen ERR_MSG_PORT_NOT_OPEN else
    fd <- field mFileDescriptor ;;
    let num_of_bytes_available := 0 in
    '(rc, num_of_bytes_available) <-
        sys (Sys.ioctl_FIONREAD fd num_of_bytes_available) ;;
    if rc <? 0 then throw runtime_error strerror_errno else
    ret (if num_of_bytes_available =? 0 then false else true)).

(** [while( ! this->IsDataAvailable() ) ;] with a bound on the number of
    turns the model follows. *)
Fixpoint wait_for_data (fuel : nat) : M unit :=
  match fuel with
  | O => out_of_fuel
  | S fuel' =>
      available <- IsDataAvailable ;;
      if negb available then wait_for_data fuel' else ret tt
  end.

Definition ReadByte (fuel : nat) : M Z :=
  throw_spec [NotOpen; runtime_error] (
    is_open <- IsOpen ;;
    if negb is_open then throw NotOpen ERR_MSG_PORT_NOT_OPEN else
    wait_for_data fuel ;;
    fd <- field mFileDescriptor ;;
    data_byte <- uninitialised ;;
    '(rc, data_byte) <- sys (Sys.read1 fd data_byte) ;;
    if rc <? 0 then throw runtime_error strerror_errno else
    ret data_byte).

Definition WriteByte (dataByte : Z) : M unit :=
  throw_spec [NotOpen; runtime_error] (
    is_open <- IsOpen ;;
    if negb is_open then throw NotOpen ERR_MSG_PORT_NOT_OPEN else
    fd <- field mFileDescriptor ;;
    rc <- sys (Sys.write1 fd dataByte) ;;
    if rc <? 0 then throw runtime_error strerror_errno else
    ret tt).

End Methods.
End SerialPortImpl.

(** *** [class SerialPort]

    The public class owns one [SerialPortImpl], made by its constructor and
    deleted by its destructor; its methods hand over to it. *)
Module SerialPort.
Section Methods.
Context {hdr : SerialPort_h}.

Definition constructor (serialPortName : string) : SerialPortImpl :=
  SerialPortImpl.constructor serialPortName.

Definition IsOpen : M bool := SerialPortImpl.IsOpen.

Definition Close : M unit :=
  throw_spec [NotOpen] SerialPortImpl.Close.

Definition SetBaudRate (baudRate : Z) : M unit :=
  throw_spec [UnsupportedBaudRate; NotOpen; invalid_argument]
             (SerialPortImpl.SetBaudRate baudRate).

Definition GetBaudRate : M Z :=
  throw_spec [NotOpen; runtime_error] SerialPortImpl.GetBaudRate.

Definition SetCharSize (charSize : Z) : M unit :=
  throw_spec [NotOpen; invalid_argument] (SerialPortImpl.SetCharSize charSize).

Definition GetCharSize : M Z :=
  throw_spec [NotOpen] SerialPortImpl.GetCharSize.

Definition SetParity (parityType : Z) : M unit :=
  throw_spec [NotOpen; invalid_argument] (SerialPortImpl.SetParity parityType).

Definition GetParity : M Z :=
  throw_spec [NotOpen] SerialPortImpl.GetParity.

Definition SetNumOfStopBits (numOfStopBits : Z) : M unit :=
  throw_spec [NotOpen; invalid_argument]
             (SerialPortImpl.SetNumOfStopBits numOfStopBits).

Definition GetNumOfStopBits : M Z :=
  throw_spec [NotOpen] SerialPortImpl.GetNumOfStopBits.

Definition SetFlowControl (flowControl : Z) : M unit :=
  throw_spec [NotOpen; invalid_argument]
             (SerialPortImpl.SetFlowControl flowControl).

Definition GetFlowControl : M Z :=
  throw_spec [NotOpen] SerialPortImpl.GetFlowControl.

Definition IsDataAvailable : M bool :=
  throw_spec [NotOpen] SerialPortImpl.IsDataAvailable.

Definition ReadByte (fuel : nat) : M Z :=
  throw_spec [NotOpen; runtime_error] (SerialPortImpl.ReadByte fuel).

Definition WriteByte (dataByte : Z) : M unit :=
  throw_spec [NotOpen; runtime_error] (SerialPortImpl.WriteByte dataByte).

(** [Open( baudRate, charSize, parityType, stopBits, flowControl )]. *)
Definition Open (baudRate charSize parityType stopBits flowControl : Z)
  : M unit :=
  throw_spec [OpenFailed; AlreadyOpen; UnsupportedBaudRate; invalid_argument] (
    SerialPortImpl.Open ;;
    SetCharSize charSize ;;
    SetParity parityType ;;
    SetNumOfStopBits stopBits ;;
    SetFlowControl flowControl).

(** [~SerialPort() throw()]: closes the port when it is open, then deletes
    the implementation object, whose own destructor runs. *)
Definition destructor : M unit :=
  throw_spec [] (
    is_open <- IsOpen ;;
    (if is_open then Close else ret tt) ;;
    SerialPortImpl.destructor).

End Methods.
End SerialPort.

(** Running a method. *)
Definition outcome {A : Type} (r : result A * SerialPortImpl * world) : result A :=
  fst (fst r).
Definition object_after {A : Type} (r : result A * SerialPortImpl * world)
  : SerialPortImpl := snd (fst r).
Definition world_after {A : Type} (r : result A * SerialPortImpl * world) : world :=
  snd r.

(** ** Sample environment

    A header with the enumerators numbered in the order of the labels of
    each [switch], a closed object, and a device at 9600 baud behind a
    driver that adopts what it is given. *)
Definition sample_h : SerialPort_h := mk_SerialPort_h 0 1 2 0 1 0 1.

Definition sample_tty : termios :=
  mk_termios 1280 5 1213 35387 (repeat 1 NCCS) B9600 B9600.

Definition adopt_all (old requested : termios) : termios := requested.

(** A driver for hardware that goes no faster than 57600 baud: when the
    rate asked for in the [CBAUD] bits of [c_cflag] is higher, these bits
    and the two speed fields stay as they were, and the rest of the request
    is adopted. *)
Definition adopt_up_to_57600 (old requested : termios) : termios :=
  if B57600 <? Z.land (c_cflag requested) CBAUD
  then set_c_ospeed
         (set_c_ispeed
            (set_c_cflag requested
               (Z.lor (Z.land (c_cflag requested) (u32 (Z.lnot CBAUD)))
                      (Z.land (c_cflag old) CBAUD)))
            (c_ispeed old))
         (c_ospeed old)
  else requested.


Definition no_fault (n : nat) : bool := false.
Definition fault_at (k n : nat) : bool := Nat.eqb n k.
Definition silent_line (n : nat) : list Z := [].

Definition sample_world : world :=
  mk_world [] 0 no_fault [0; 1; 2] sample_tty adopt_all silent_line [] [] 4242 0.

Definition sample_closed : SerialPortImpl :=
  SerialPortImpl.constructor "/dev/ttyS0".

(** The object and the world once [Open] has succeeded on the sample. *)
Definition sample_open : SerialPortImpl :=
  object_after (SerialPortImpl.Open sample_closed sample_world).
Definition sample_world_open : world :=
  world_after (SerialPortImpl.Open sample_closed sample_world).

(** The same world with another fault schedule, driver or line. *)
Definition with_fault (w : world) (f : nat -> bool) : world :=
  mk_world (w_trace w) (w_clock w) f (w_live w) (w_tty w) (w_driver w)
           (w_arrive w) (w_rx w) (w_tx w) (w_pid w) (w_indeterminate w).
Definition with_driver (w : world) (d : termios -> termios -> termios) : world :=
  mk_world (w_trace w) (w_clock w) (w_fault w) (w_live w) (w_tty w) d
           (w_arrive w) (w_rx w) (w_tx w) (w_pid w) (w_indeterminate w).
Definition with_arrive (w : world) (a : nat -> list Z) : world :=
  mk_world (w_trace w) (w_clock w) (w_fault w) (w_live w) (w_tty w) (w_driver w)
           a (w_rx w) (w_tx w) (w_pid w) (w_indeterminate w).

(** A line on which the byte 65 arrives before the call number 8. *)
Definition one_byte_line (n : nat) : list Z :=
  if Nat.eqb n 8 then [65] else [].

(** ** Vocabulary of the statements *)

Definition legal_parity {hdr : SerialPort_h} (v : Z) : bool :=
  (v =? PARITY_EVEN) || (v =? PARITY_ODD) || (v =? PARITY_NONE).
Definition legal_stop_bits {hdr : SerialPort_h} (v : Z) : bool :=
  (v =? STOP_BITS_1) || (v =? STOP_BITS_2).
Definition legal_flow_control {hdr : SerialPort_h} (v : Z) : bool :=
  (v =? FLOW_CONTROL_HARD) || (v =? FLOW_CONTROL_NONE).

(** The call on descriptor [fd] made [k] calls from now fails: the fault
    schedule says so, or the descriptor is not open. *)
Definition call_fails (fd : Z) (w : world) (k : nat) : bool :=
  w_fault w (k + now w)%nat || negb (is_live fd w).

(** The input queue [k] calls from now when none of them reads. *)
Fixpoint queue_after (arrive : nat -> list Z) (q : list Z) (t k : nat)
  : list Z :=
  match k with
  | O => q
  | S k' => queue_after arrive (q ++ arrive t) (S t) k'
  end.
Definition pending (w : world) (k : nat) : list Z :=
  queue_after (w_arrive w) (w_rx w) (now w) k.

Definition is_empty (q : list Z) : bool :=
  match q with [] => true | _ :: _ => false end.

(** The world after one turn of the loop of [ReadByte], and after [n]. *)
Definition polled (h : SerialPortImpl) (w : world) : world :=
  enter (call_ioctl (mFileDescriptor h) FIONREAD) w.
Fixpoint polls (h : SerialPortImpl) (w : world) (n : nat) : world :=
  match n with
  | O => w
  | S n' => polls h (polled h w) n'
  end.

(** The turn number [k] from now is the last: the query fails, or it finds
    bytes in the queue. *)
Definition poll_ends (h : SerialPortImpl) (w : world) (k : nat) : bool :=
  call_fails (mFileDescriptor h) w k || negb (is_empty (pending w (S k))).

(** The first [n] turns from now find an empty queue. *)
Definition idle_polls (h : SerialPortImpl) (w : world) (n : nat) : Prop :=
  forall k, (k < n)%nat -> poll_ends h w k = false.

Definition NotOpen_thrown {A : Type} (h : SerialPortImpl) (w : world)
  : result A * SerialPortImpl * world :=
  (Throw (NotOpen, ERR_MSG_PORT_NOT_OPEN), h, w).

(** The settings [Open] writes, from those it found: local and output
    flags all clear, [CREAD] and [CLOCAL] set among the control flags, VMIN
    and VTIME zero, the rest as found. *)
Definition baseline_of (found : termios) : termios :=
  mk_termios (c_iflag found)
             0
             (u32 (Z.lor (c_cflag found) (Z.lor CREAD CLOCAL)))
             0
             (array_set (array_set (c_cc found) VMIN 0) VTIME 0)
             (c_ispeed found)
             (c_ospeed found).

Definition open_flags : Z := Z.lor (Z.lor O_RDWR O_NOCTTY) O_NONBLOCK.

(** The object with its descriptor, its saved settings, its flag
    replaced. *)
Definition holding (h : SerialPortImpl) (fd : Z) : SerialPortImpl :=
  mk_SerialPortImpl (mSerialPortName h) (mIsOpen h) fd (mOldPortSettings h).
Definition having_saved (h : SerialPortImpl) (t : termios) : SerialPortImpl :=
  mk_SerialPortImpl (mSerialPortName h) (mIsOpen h) (mFileDescriptor h) t.
Definition flagged (h : SerialPortImpl) (b : bool) : SerialPortImpl :=
  mk_SerialPortImpl (mSerialPortName h) b (mFileDescriptor h) (mOldPortSettings h).

(** The four system calls of [Open] that can fail are the calls number 0,
    1, 2 and 4 from its start; [getpid], number 3, cannot. *)
Definition Open_calls_succeed (w : world) : bool :=
  negb (w_fault w (now w)) && negb (w_fault w (1 + now w)%nat)
  && negb (w_fault w (2 + now w)%nat) && negb (w_fault w (4 + now w)%nat).

(** The world after the fetch, and after the write that follows it. *)
Definition fetched (h : SerialPortImpl) (w : world) : world :=
  enter (call_tcgetattr (mFileDescriptor h)) w.
Definition written (h : SerialPortImpl) (w : world) (t : termios) : world :=
  with_tty (enter (call_tcsetattr (mFileDescriptor h) TCSANOW t) (fetched h w))
           (w_driver w (w_tty w) t).
Definition write_failed (h : SerialPortImpl) (w : world) (t : termios) : world :=
  enter (call_tcsetattr (mFileDescriptor h) TCSANOW t) (fetched h w).

(** What each mutator makes of the settings it fetched when it is given a
    legal value, and what each accessor makes of the settings it fetched;
    the lemmas [Set..._runs] and [Get..._runs] tie them to the methods. *)
Section Fields.
Context {hdr : SerialPort_h}.

Definition parity_put (v : Z) (t : termios) : termios :=
  if v =? PARITY_EVEN then and_c_cflag (or_c_cflag t PARENB) (Z.lnot PARODD)
  else if v =? PARITY_ODD then or_c_cflag t (Z.lor PARENB PARODD)
  else and_c_cflag t (Z.lnot PARENB).
Definition parity_got (t : termios) : Z :=
  if negb (Z.land (c_cflag t) PARENB =? 0)
  then if negb (Z.land (c_cflag t) PARODD =? 0) then PARITY_ODD else PARITY_EVEN
  else PARITY_NONE.

Definition stop_bits_put (v : Z) (t : termios) : termios :=
  if v =? STOP_BITS_1 then and_c_cflag t (Z.lnot CSTOPB)
  else or_c_cflag t CSTOPB.
Definition stop_bits_got (t : termios) : Z :=
  if negb (Z.land (c_cflag t) CSTOPB =? 0) then STOP_BITS_2 else STOP_BITS_1.

Definition flow_control_put (v : Z) (t : termios) : termios :=
  if v =? FLOW_CONTROL_HARD then or_c_cflag t CRTSCTS
  else and_c_cflag t (Z.lnot CRTSCTS).
Definition flow_control_got (t : termios) : Z :=
  if negb (Z.land (c_cflag t) CRTSCTS =? 0)
  then FLOW_CONTROL_HARD else FLOW_CONTROL_NONE.

Definition char_size_put (v : Z) (t : termios) : termios :=
  or_c_cflag (and_c_cflag t (Z.lnot CSIZE)) v.
Definition char_size_got (t : termios) : Z := Z.land (c_cflag t) CSIZE.

End Fields.

(** How a mutator ends once it has settings [t] to write: the write is
    the second call it makes. *)
Definition write_result (h : SerialPortImpl) (w : world) (t : termios)
  : result unit * SerialPortImpl * world :=
  if call_fails (mFileDescriptor h) w 1
  then (Throw (invalid_argument, strerror_errno), h, write_failed h w t)
  else (Ret tt, h, written h w t).

(** The settings [SetBaudRate] writes, from those it fetched. *)
Definition speed_put (baudRate : Z) (t : termios) : termios :=
  ospeed_put (u32 baudRate) (ispeed_put (u32 baudRate) t).

(** The driver adopts the control flags it is asked for. *)
Definition adopts_c_cflag (w : world) : Prop :=
  forall old requested,
    c_cflag (w_driver w old requested) = c_cflag requested.

(** The driver adopts the rate it is asked for: the [CBAUD] bits of
    [c_cflag] and [IBAUD0] of [c_iflag], where the C library keeps it. *)
Definition adopts_speed (w : world) : Prop :=
  forall old requested,
    Z.land (c_cflag (w_driver w old requested)) CBAUD
    = Z.land (c_cflag requested) CBAUD /\
    Z.land (c_iflag (w_driver w old requested)) IBAUD0
    = Z.land (c_iflag requested) IBAUD0.

(** The driver adopts everything it is asked for. *)
Definition adopts_all (w : world) : Prop :=
  forall old requested, w_driver w old requested = requested.

(** None of the next [n] calls fails by the schedule. *)
Definition calls_ok (w : world) (n : nat) : bool :=
  forallb (fun k => negb (w_fault w (k + now w)%nat)) (seq 0 n).

(** A method that leaves the object, and the descriptors open in the
    process, as it found them. *)
Definition keeps_handle {A : Type} (m : M A) : Prop :=
  forall h w,
    object_after (m h w) = h /\ w_live (world_after (m h w)) = w_live w.

(** The open sample object with two bytes waiting in the queue. *)
Definition sample_world_two_bytes : world :=
  with_rx sample_world_open [65; 66].

(** The object and the world when [Open] has returned normally from a
    closed object [h] in the world [w]. *)
Definition opened_object (h : SerialPortImpl) (w : world) : SerialPortImpl :=
  mk_SerialPortImpl (mSerialPortName h) true (lowest_free (w_live w)) (w_tty w).
Definition opened_world (h : SerialPortImpl) (w : world) : world :=
  let fd := lowest_free (w_live w) in
  let found := w_tty w in
  enter (call_fcntl fd F_SETOWN (w_pid w))
    (enter call_getpid
       (with_tty
          (enter (call_tcsetattr fd TCSANOW (baseline_of found))
             (enter (call_tcgetattr fd)
                (with_live (enter (call_open (mSerialPortName h) open_flags) w)
                           (fd :: w_live w))))
          (w_driver w found (baseline_of found)))).

(** ** Basic facts *)

Arguments u32 : simpl never.
Arguments lowest_free : simpl never.

Section WorldFacts.
Variables (c : os_call) (w : world).

Lemma now_enter : now (enter c w) = S (now w).
Proof. reflexivity. Qed.

Lemma is_live_enter fd : is_live fd (enter c w) = is_live fd w.
Proof. reflexivity. Qed.

Lemma pending_enter k : pending (enter c w) k = pending w (S k).
Proof. reflexivity. Qed.

End WorldFacts.

Lemma is_live_after_close fd l :
  existsb (Z.eqb fd) (filter (fun d => negb (d =? fd)) l) = false.
Proof.
  induction l as [|d l IH]; cbn; [reflexivity|].
  destruct (Z.eqb_spec d fd) as [->|Hne]; cbn; [exact IH|].
  rewrite IH, orb_false_r. apply Z.eqb_neq; congruence.
Qed.

Lemma lowest_free_from_ge live fuel : forall cand,
  cand <= lowest_free_from live cand fuel.
Proof.
  induction fuel as [|n IH]; intros cand; cbn; [lia|].
  destruct (existsb (Z.eqb cand) live); [|lia].
  specialize (IH (cand + 1)). lia.
Qed.

Lemma lowest_free_nonneg live : (lowest_free live <? 0) = false.
Proof.
  apply Z.ltb_ge. unfold lowest_free. apply lowest_free_from_ge.
Qed.

Lemma array_set_length a : forall i v, length (array_set a i v) = length a.
Proof.
  induction a as [|x a IH]; intros [|i] v; cbn; try reflexivity.
  now rewrite IH.
Qed.

Lemma array_set_nth_same a : forall i v d,
  (i < length a)%nat -> nth i (array_set a i v) d = v.
Proof.
  induction a as [|x a IH]; intros [|i] v d H; cbn in *; try lia.
  apply IH. lia.
Qed.

Lemma array_set_nth_other a : forall i j v d,
  i <> j -> nth j (array_set a i v) d = nth j a d.
Proof.
  induction a as [|x a IH]; intros [|i] [|j] v d H; cbn; try reflexivity.
  - congruence.
  - apply IH. congruence.
Qed.

(** ** Calls on a closed object *)

Section Closed.
Context {hdr : SerialPort_h}.
Variables (h : SerialPortImpl) (w : world).
Hypothesis closed : mIsOpen h = false.

(** A body that starts with the test of [IsOpen] stops there. *)
Lemma guard_closed {A : Type} (rest : M A) :
  (is_open <- SerialPortImpl.IsOpen ;;
   if negb is_open then throw NotOpen ERR_MSG_PORT_NOT_OPEN else rest) h w
  = NotOpen_thrown h w.
Proof.
  unfold SerialPortImpl.IsOpen, field, throw, NotOpen_thrown; cbn.
  rewrite closed. reflexivity.
Qed.

Lemma throw_spec_NotOpen {A : Type} (spec : list exn_class) (body : M A) :
  listed NotOpen spec = true ->
  body h w = NotOpen_thrown h w ->
  throw_spec spec body h w = NotOpen_thrown h w.
Proof.
  intros Hl Hb. unfold throw_spec. rewrite Hb. unfold NotOpen_thrown; cbn [fst].
  now rewrite Hl.
Qed.

End Closed.

Create HintDb methods.
#[export] Hint Unfold
  SerialPort.Close SerialPort.SetBaudRate SerialPort.GetBaudRate
  SerialPort.SetCharSize SerialPort.GetCharSize SerialPort.SetParity
  SerialPort.GetParity SerialPort.SetNumOfStopBits SerialPort.GetNumOfStopBits
  SerialPort.SetFlowControl SerialPort.GetFlowControl
  SerialPort.IsDataAvailable SerialPort.ReadByte SerialPort.WriteByte
  SerialPortImpl.Close SerialPortImpl.SetBaudRate SerialPortImpl.GetBaudRate
  SerialPortImpl.SetCharSize SerialPortImpl.GetCharSize
  SerialPortImpl.SetParity SerialPortImpl.SetParity_body
  SerialPortImpl.GetParity SerialPortImpl.GetParity_body
  SerialPortImpl.SetNumOfStopBits SerialPortImpl.SetNumOfStopBits_body
  SerialPortImpl.GetNumOfStopBits SerialPortImpl.GetNumOfStopBits_body
  SerialPortImpl.SetFlowControl SerialPortImpl.SetFlowControl_body
  SerialPortImpl.GetFlowControl SerialPortImpl.GetFlowControl_body
  SerialPortImpl.GetParity_throw SerialPortImpl.GetNumOfStopBits_throw
  SerialPortImpl.GetFlowControl_throw
  SerialPortImpl.IsDataAvailable SerialPortImpl.ReadByte
  SerialPortImpl.WriteByte : methods.

Ltac closed_call :=
  autounfold with methods;
  repeat (apply throw_spec_NotOpen; [reflexivity | ]);
  apply guard_closed; assumption.

(** C3.  On a closed object every accessor and mutator of the configuration,
    [IsDataAvailable], [ReadByte] and [WriteByte], of the implementation
    class and of the public class alike, throws [NotOpen]; the world it
    leaves is the world it found, log of system calls included, and the
    object is as it was. *)
Theorem C3_closed_handle_throws_NotOpen :
  forall (hdr : SerialPort_h) (h : SerialPortImpl) (w : world)
         (arg : Z) (fuel : nat),
    mIsOpen h = false ->
    (SerialPortImpl.SetBaudRate arg h w = NotOpen_thrown h w /\
     SerialPortImpl.GetBaudRate h w = NotOpen_thrown h w /\
     SerialPortImpl.SetCharSize arg h w = NotOpen_thrown h w /\
     SerialPortImpl.GetCharSize h w = NotOpen_thrown h w /\
     SerialPortImpl.SetParity arg h w = NotOpen_thrown h w /\
     SerialPortImpl.GetParity h w = NotOpen_thrown h w /\
     SerialPortImpl.SetNumOfStopBits arg h w = NotOpen_thrown h w /\
     SerialPortImpl.GetNumOfStopBits h w = NotOpen_thrown h w /\
     SerialPortImpl.SetFlowControl arg h w = NotOpen_thrown h w /\
     SerialPortImpl.GetFlowControl h w = NotOpen_thrown h w /\
     SerialPortImpl.IsDataAvailable h w = NotOpen_thrown h w /\
     SerialPortImpl.ReadByte fuel h w = NotOpen_thrown h w /\
     SerialPortImpl.WriteByte arg h w = NotOpen_thrown h w)
    /\
    (SerialPort.SetBaudRate arg h w = NotOpen_thrown h w /\
     SerialPort.GetBaudRate h w = NotOpen_thrown h w /\
     SerialPort.SetCharSize arg h w = NotOpen_thrown h w /\
     SerialPort.GetCharSize h w = NotOpen_thrown h w /\
     SerialPort.SetParity arg h w = NotOpen_thrown h w /\
     SerialPort.GetParity h w = NotOpen_thrown h w /\
     SerialPort.SetNumOfStopBits arg h w = NotOpen_thrown h w /\
     SerialPort.GetNumOfStopBits h w = NotOpen_thrown h w /\
     SerialPort.SetFlowControl arg h w = NotOpen_thrown h w /\
     SerialPort.GetFlowControl h w = NotOpen_thrown h w /\
     SerialPort.IsDataAvailable h w = NotOpen_thrown h w /\
     SerialPort.ReadByte fuel h w = NotOpen_thrown h w /\
     SerialPort.WriteByte arg h w = NotOpen_thrown h w).
Proof.
  intros hdr h w arg fuel closed.
  split; repeat split; closed_call.
Qed.

(** The closed sample object: thirteen calls, none reaches the system. *)
Lemma C3_witness :
  mIsOpen sample_closed = false /\
  @SerialPortImpl.SetParity sample_h 1 sample_closed sample_world
    = NotOpen_thrown sample_closed sample_world /\
  SerialPortImpl.ReadByte 5 sample_closed sample_world
    = NotOpen_thrown sample_closed sample_world.
Proof.
  pose proof (C3_closed_handle_throws_NotOpen sample_h sample_closed
                sample_world 1 5%nat eq_refl) as [Himpl _].
  split; [reflexivity|].
  split; [apply Himpl | apply Himpl].
Defined.

(** ** Calls on an open object: the two steps every configuration method
    shares *)

Lemma call_fails_0 fd w : call_fails fd w 0 = faulty w || negb (is_live fd w).
Proof. reflexivity. Qed.

Lemma call_fails_enter fd c w k :
  call_fails fd (enter c w) k = call_fails fd w (S k).
Proof.
  unfold call_fails. rewrite now_enter, is_live_enter.
  cbn [enter w_fault]. now rewrite Nat.add_succ_r.
Qed.

Section Open.
Variables (h : SerialPortImpl) (w : world).
Hypothesis opened : mIsOpen h = true.

Lemma guard_open {A : Type} (rest : M A) :
  (is_open <- SerialPortImpl.IsOpen ;;
   if negb is_open then throw NotOpen ERR_MSG_PORT_NOT_OPEN else rest) h w
  = rest h w.
Proof.
  unfold SerialPortImpl.IsOpen, field; cbn. rewrite opened. reflexivity.
Qed.

End Open.

(** Writing the settings. *)
Lemma store_step {A : Type} (k : Z -> M A) fd t h w :
  (rc <- sys (Sys.tcsetattr fd TCSANOW t) ;; k rc) h w
  = if call_fails fd w 0
    then k (-1) h (enter (call_tcsetattr fd TCSANOW t) w)
    else k 0 h (with_tty (enter (call_tcsetattr fd TCSANOW t) w)
                         (w_driver w (w_tty w) t)).
Proof.
  rewrite call_fails_0. unfold sys, Sys.tcsetattr; cbn.
  destruct (faulty w || negb (is_live fd w)); reflexivity.
Qed.

(** An accessor whose fetch fails throws [runtime_error] after that one
    call. *)
Lemma getter_fetch_fails {A : Type} (rest : Z -> termios -> M A) h w :
  mIsOpen h = true ->
  call_fails (mFileDescriptor h) w 0 = true ->
  (is_open <- SerialPortImpl.IsOpen ;;
   if negb is_open then throw NotOpen ERR_MSG_PORT_NOT_OPEN else
   fd <- field mFileDescriptor ;;
   got <- sys (Sys.tcgetattr fd) ;;
   match got with
   | None => throw runtime_error strerror_errno
   | Some port_settings => rest fd port_settings
   end) h w
  = (Throw (runtime_error, strerror_errno), h,
     enter (call_tcgetattr (mFileDescriptor h)) w).
Proof.
  intros Ho Hf. rewrite (guard_open h w Ho).
  unfold field, sys, Sys.tcgetattr; cbn.
  rewrite call_fails_0 in Hf. rewrite Hf. reflexivity.
Qed.

(** C10.  [GetParity], [GetNumOfStopBits] and [GetFlowControl] are declared
    [throw(SerialPort::NotOpen)].  On an open object whose settings fetch
    fails, the body of each throws [std::runtime_error] carrying
    [strerror(errno)], after the one call of [tcgetattr]; that class is not
    in the declared list, so the exception does not leave the function as
    declared: [std::unexpected()] is what the caller gets. *)
Theorem C10_getters_throw_undeclared_runtime_error :
  forall (hdr : SerialPort_h) (h : SerialPortImpl) (w : world),
    mIsOpen h = true ->
    call_fails (mFileDescriptor h) w 0 = true ->
    let e := (runtime_error, strerror_errno) in
    let w' := enter (call_tcgetattr (mFileDescriptor h)) w in
    (SerialPortImpl.GetParity_body h w = (Throw e, h, w') /\
     listed runtime_error SerialPortImpl.GetParity_throw = false /\
     SerialPortImpl.GetParity h w = (Unexpected e, h, w'))
    /\
    (SerialPortImpl.GetNumOfStopBits_body h w = (Throw e, h, w') /\
     listed runtime_error SerialPortImpl.GetNumOfStopBits_throw = false /\
     SerialPortImpl.GetNumOfStopBits h w = (Unexpected e, h, w'))
    /\
    (SerialPortImpl.GetFlowControl_body h w = (Throw e, h, w') /\
     listed runtime_error SerialPortImpl.GetFlowControl_throw = false /\
     SerialPortImpl.GetFlowControl h w = (Unexpected e, h, w')).
Proof.
  intros hdr h w Ho Hf e w'.
  assert (Hp : SerialPortImpl.GetParity_body h w = (Throw e, h, w')).
  { unfold SerialPortImpl.GetParity_body.
    exact (getter_fetch_fails _ h w Ho Hf). }
  assert (Hs : SerialPortImpl.GetNumOfStopBits_body h w = (Throw e, h, w')).
  { unfold SerialPortImpl.GetNumOfStopBits_body.
    exact (getter_fetch_fails _ h w Ho Hf). }
  assert (Hc : SerialPortImpl.GetFlowControl_body h w = (Throw e, h, w')).
  { unfold SerialPortImpl.GetFlowControl_body.
    exact (getter_fetch_fails _ h w Ho Hf). }
  unfold SerialPortImpl.GetParity, SerialPortImpl.GetNumOfStopBits,
    SerialPortImpl.GetFlowControl, throw_spec.
  rewrite Hp, Hs, Hc.
  repeat split; reflexivity.
Qed.

(** The open sample object when the next system call fails. *)
Lemma C10_witness :
  let w := with_fault sample_world_open (fault_at 5) in
  mIsOpen sample_open = true /\
  call_fails (mFileDescriptor sample_open) w 0 = true /\
  @SerialPortImpl.GetParity sample_h sample_open w
    = (Unexpected (runtime_error, strerror_errno), sample_open,
       enter (call_tcgetattr 3) w).
Proof.
  intros w.
  split; [reflexivity|]. split; [reflexivity|].
  apply (C10_getters_throw_undeclared_runtime_error sample_h sample_open w
           eq_refl eq_refl).
Defined.

(** ** [Close] *)

Lemma is_live_other_after_close fd d l :
  d <> fd ->
  existsb (Z.eqb d) (filter (fun x => negb (x =? fd)) l) = existsb (Z.eqb d) l.
Proof.
  intros Hne. induction l as [|x l IH]; cbn; [reflexivity|].
  destruct (Z.eqb_spec x fd) as [->|Hx]; cbn.
  - rewrite IH. destruct (Z.eqb_spec d fd); [contradiction | reflexivity].
  - now rewrite IH.
Qed.

(** What [Close] does to an open object, whatever the two system calls
    return. *)
Lemma Close_open h w :
  mIsOpen h = true ->
  let fd := mFileDescriptor h in
  let r := SerialPortImpl.Close h w in
  outcome r = Ret tt /\
  object_after r
    = mk_SerialPortImpl (mSerialPortName h) false fd (mOldPortSettings h) /\
  w_trace (world_after r)
    = w_trace w ++ [call_tcsetattr fd TCSANOW (mOldPortSettings h);
                    call_close fd] /\
  w_live (world_after r) = filter (fun d => negb (d =? fd)) (w_live w) /\
  w_tty (world_after r)
    = if call_fails fd w 0 then w_tty w
      else w_driver w (w_tty w) (mOldPortSettings h).
Proof.
  intros Ho fd r. subst r fd.
  unfold SerialPortImpl.Close, throw_spec.
  rewrite (guard_open h w Ho).
  unfold field, sys, Sys.tcsetattr, Sys.close, assign_mIsOpen; cbn.
  rewrite call_fails_0.
  destruct (faulty w || negb (is_live (mFileDescriptor h) w)); cbn;
    match goal with
    | |- context [if ?b then _ else _] => destruct b
    end; cbn; rewrite <- app_assoc; repeat split; reflexivity.
Qed.

(** C6.  [Close] on an open object asks the system to put back the settings
    saved by [Open], closes the descriptor and leaves the object closed; it
    returns normally whether or not the two system calls failed, the device
    having the saved settings back when the write went through.  On a closed
    object it throws [NotOpen] and touches nothing, and that is the only
    case in which it throws [NotOpen]. *)
Theorem C6_Close_restores_and_releases :
  forall (h : SerialPortImpl) (w : world),
    let fd := mFileDescriptor h in
    let r := SerialPortImpl.Close h w in
    (mIsOpen h = true ->
       outcome r = Ret tt /\
       object_after r
         = mk_SerialPortImpl (mSerialPortName h) false fd (mOldPortSettings h) /\
       w_trace (world_after r)
         = w_trace w ++ [call_tcsetattr fd TCSANOW (mOldPortSettings h);
                         call_close fd] /\
       is_live fd (world_after r) = false /\
       (forall d, d <> fd -> is_live d (world_after r) = is_live d w) /\
       (call_fails fd w 0 = false ->
          w_tty (world_after r) = w_driver w (w_tty w) (mOldPortSettings h)))
    /\ (mIsOpen h = false -> r = NotOpen_thrown h w)
    /\ ((exists what, outcome r = Throw (NotOpen, what)) <-> mIsOpen h = false).
Proof.
  intros h w fd r.
  assert (Hclosed : mIsOpen h = false -> r = NotOpen_thrown h w).
  { intros Hc. subst r. unfold SerialPortImpl.Close.
    apply throw_spec_NotOpen; [reflexivity|]. now apply guard_closed. }
  split; [|split; [exact Hclosed|]].
  - intros Ho.
    destruct (Close_open h w Ho) as (Hr & Hobj & Htr & Hlive & Htty).
    fold fd in Hobj, Htr, Hlive, Htty. fold r in Hr, Hobj, Htr, Hlive, Htty.
    repeat split; try assumption.
    + unfold is_live. rewrite Hlive. apply is_live_after_close.
    + intros d Hd. unfold is_live. rewrite Hlive.
      now apply is_live_other_after_close.
    + intros Hok. now rewrite Htty, Hok.
  - split.
    + intros [what Hthrow]. destruct (mIsOpen h) eqn:Ho; [|reflexivity].
      destruct (Close_open h w Ho) as (Hr & _).
      fold r in Hr. rewrite Hr in Hthrow. discriminate.
    + intros Hc. exists ERR_MSG_PORT_NOT_OPEN. now rewrite (Hclosed Hc).
Qed.

(** The open sample object with both system calls of [Close] failing: the
    call returns normally and the descriptor is gone. *)
Lemma C6_witness :
  let w := with_fault sample_world_open (fun n => Nat.leb 5 n) in
  let r := SerialPortImpl.Close sample_open w in
  mIsOpen sample_open = true /\
  outcome r = Ret tt /\
  mIsOpen (object_after r) = false /\
  is_live 3 (world_after r) = false.
Proof.
  intros w r.
  destruct (C6_Close_restores_and_releases sample_open w) as (Hopen & _ & _).
  destruct (Hopen eq_refl) as (Hr & Hobj & _ & Hlive & _).
  split; [reflexivity|]. split; [exact Hr|].
  split; [subst r; now rewrite Hobj | exact Hlive].
Defined.

(** ** [Open] *)

Lemma Open_already_open h w :
  mIsOpen h = true ->
  SerialPortImpl.Open h w = (Throw (AlreadyOpen, ERR_MSG_PORT_ALREADY_OPEN), h, w).
Proof.
  intros Ho. unfold SerialPortImpl.Open, throw_spec, SerialPortImpl.IsOpen, field.
  cbn. rewrite Ho. reflexivity.
Qed.

(** [Open] on a closed object, call by call.  The descriptor is in the
    object, and open in the process, as soon as [open] has returned it. *)
Lemma Open_closed h w :
  mIsOpen h = false ->
  let fd := lowest_free (w_live w) in
  let w0 := enter (call_open (mSerialPortName h) open_flags) w in
  let w1 := enter (call_tcgetattr fd) (with_live w0 (fd :: w_live w)) in
  let found := w_tty w in
  let w2 := enter (call_tcsetattr fd TCSANOW (baseline_of found)) w1 in
  let w3 := enter call_getpid
                  (with_tty w2 (w_driver w found (baseline_of found))) in
  let w4 := enter (call_fcntl fd F_SETOWN (w_pid w)) w3 in
  let failed := Throw (OpenFailed, strerror_errno) in
  SerialPortImpl.Open h w =
    if w_fault w (now w) then (failed, holding h (-1), w0)
    else if w_fault w (1 + now w)%nat then (failed, holding h fd, w1)
    else if w_fault w (2 + now w)%nat
         then (failed, having_saved (holding h fd) found, w2)
    else if w_fault w (4 + now w)%nat
         then (failed, having_saved (holding h fd) found, w4)
    else (Ret tt, flagged (having_saved (holding h fd) found) true, w4).
Proof.
  intros Hc fd w0 w1 found w2 w3 w4 failed.
  subst w4 w3 w2 w1 w0 failed found fd.
  unfold SerialPortImpl.Open, throw_spec, SerialPortImpl.IsOpen, field.
  cbn. rewrite Hc. cbn.
  unfold sys, Sys.open, faulty, now.
  destruct (w_fault w (w_clock w)) eqn:F0; cbn; [reflexivity|].
  rewrite lowest_free_nonneg.
  unfold Sys.tcgetattr, faulty, is_live; cbn. rewrite Z.eqb_refl; cbn.
  destruct (w_fault w (S (w_clock w))) eqn:F1; cbn; [reflexivity|].
  unfold Sys.tcsetattr, faulty, is_live; cbn. rewrite Z.eqb_refl; cbn.
  destruct (w_fault w (S (S (w_clock w)))) eqn:F2; cbn; [reflexivity|].
  unfold Sys.fcntl, faulty, is_live; cbn. rewrite Z.eqb_refl; cbn.
  destruct (w_fault w (S (S (S (S (w_clock w)))))) eqn:F4; cbn; reflexivity.
Qed.

(** ** Flag words *)

Lemma testbit_u32 z n :
  0 <= n -> Z.testbit (u32 z) n = Z.testbit z n && (n <? 32).
Proof.
  intros Hn. unfold u32. destruct (Z.ltb_spec n 32).
  - rewrite Z.mod_pow2_bits_low by lia. now rewrite andb_true_r.
  - rewrite Z.mod_pow2_bits_high by lia. now rewrite andb_false_r.
Qed.

(** Bit by bit: both sides become boolean expressions over the bits of the
    words involved; the hypotheses on masks are read at the same bit. *)
Ltac bit_specs :=
  repeat (rewrite ?testbit_u32, ?Z.land_spec, ?Z.lor_spec, ?Z.lnot_spec,
            ?Z.bits_0 by assumption).

Ltac mask_fact H n :=
  let B := fresh "B" in
  pose proof (f_equal (fun z => Z.testbit z n) H) as B;
  cbv beta in B; revert B.

Ltac bitwise n Hn :=
  apply Z.bits_inj'; intros n Hn.

Section Masks.
Variables (c m m' : Z).

(** [c |= m] sets every bit of a mask inside [m]. *)
Lemma or_sets : u32 m = m -> Z.land m m' = m' ->
  Z.land (u32 (Z.lor c (u32 m))) m' = m'.
Proof.
  intros Hm Hsub. bitwise n Hn. mask_fact Hm n. mask_fact Hsub n. bit_specs.
  destruct (Z.testbit c n), (Z.testbit m n), (Z.testbit m' n), (n <? 32);
    cbn; congruence.
Qed.

(** [c &= ~m] clears every bit of a mask inside [m]. *)
Lemma and_not_clears : Z.land m m' = m' ->
  Z.land (u32 (Z.land c (u32 (Z.lnot m)))) m' = 0.
Proof.
  intros Hsub. bitwise n Hn. mask_fact Hsub n. bit_specs.
  destruct (Z.testbit c n), (Z.testbit m n), (Z.testbit m' n), (n <? 32);
    cbn; congruence.
Qed.

(** Neither touches a mask that shares no bit with [m]. *)
Lemma or_keeps : Z.land m m' = 0 ->
  Z.land (u32 (Z.lor c (u32 m))) m' = Z.land (u32 c) m'.
Proof.
  intros Hdis. bitwise n Hn. mask_fact Hdis n. bit_specs.
  destruct (Z.testbit c n), (Z.testbit m n), (Z.testbit m' n), (n <? 32);
    cbn; congruence.
Qed.

Lemma and_not_keeps : u32 m' = m' -> Z.land m m' = 0 ->
  Z.land (u32 (Z.land c (u32 (Z.lnot m)))) m' = Z.land (u32 c) m'.
Proof.
  intros Hm Hdis. bitwise n Hn. mask_fact Hm n. mask_fact Hdis n. bit_specs.
  destruct (Z.testbit c n), (Z.testbit m n), (Z.testbit m' n), (n <? 32);
    cbn; congruence.
Qed.

(** [c &= ~m ; c |= v] leaves [v] in the field [m]. *)
Lemma field_holds : u32 m' = m' -> Z.land m m' = m' ->
  Z.land (u32 (Z.lor (u32 (Z.land c (u32 (Z.lnot m)))) (u32 m'))) m = m'.
Proof.
  intros Hm Hsub. bitwise n Hn. mask_fact Hm n. mask_fact Hsub n. bit_specs.
  destruct (Z.testbit c n), (Z.testbit m n), (Z.testbit m' n), (n <? 32);
    cbn; congruence.
Qed.

End Masks.

Section MaskFrames.
Variables (c m m' v : Z).

Lemma subset_disjoint : Z.land m v = v -> Z.land m m' = 0 -> Z.land v m' = 0.
Proof.
  intros Hsub Hdis. bitwise n Hn. mask_fact Hsub n. mask_fact Hdis n. bit_specs.
  destruct (Z.testbit m n), (Z.testbit m' n), (Z.testbit v n); cbn; congruence.
Qed.

Lemma lor_disjoint : Z.land m m' = 0 -> Z.land v m' = 0 ->
  Z.land (Z.lor m v) m' = 0.
Proof.
  intros H1 H2. bitwise n Hn. mask_fact H1 n. mask_fact H2 n. bit_specs.
  destruct (Z.testbit m n), (Z.testbit m' n), (Z.testbit v n); cbn; congruence.
Qed.

(** [c &= ~m ; c |= v]: what is then read in the field [m], and where the
    bits of [v] are. *)
Lemma field_reads :
  Z.land (u32 (Z.lor (u32 (Z.land c (u32 (Z.lnot m)))) (u32 v))) m
  = Z.land (u32 v) m.
Proof.
  bitwise n Hn. bit_specs.
  destruct (Z.testbit c n), (Z.testbit m n), (Z.testbit v n), (n <? 32);
    reflexivity.
Qed.

Lemma field_has_bits :
  Z.land (u32 (Z.lor (u32 (Z.land c (u32 (Z.lnot m)))) (u32 v))) (u32 v)
  = u32 v.
Proof.
  bitwise n Hn. bit_specs.
  destruct (Z.testbit c n), (Z.testbit m n), (Z.testbit v n), (n <? 32);
    reflexivity.
Qed.

End MaskFrames.

Lemma field_keeps c m m' v :
  u32 m' = m' -> Z.land m m' = 0 -> Z.land (u32 v) m' = 0 ->
  Z.land (u32 (Z.lor (u32 (Z.land c (u32 (Z.lnot m)))) (u32 v))) m'
  = Z.land c m'.
Proof.
  intros Hr Hm Hv. bitwise n Hn.
  mask_fact Hr n. mask_fact Hm n. mask_fact Hv n. bit_specs.
  destruct (Z.testbit c n), (Z.testbit m n), (Z.testbit m' n),
    (Z.testbit v n), (n <? 32); cbn; congruence.
Qed.

(** [c |= m] with [m] a constant of type [int]. *)
Lemma lor_keeps c m m' :
  u32 m' = m' -> Z.land m m' = 0 -> Z.land (u32 (Z.lor c m)) m' = Z.land c m'.
Proof.
  intros Hr Hdis. bitwise n Hn. mask_fact Hr n. mask_fact Hdis n. bit_specs.
  destruct (Z.testbit c n), (Z.testbit m n), (Z.testbit m' n), (n <? 32);
    cbn; congruence.
Qed.

(** C7.  When [Open] returns normally the object was closed; the call made
    five system calls: [open] of the device with the three flags, the fetch
    of the settings in force, which are the ones kept in [mOldPortSettings],
    the write of the baseline made from them, [getpid] and
    [fcntl(F_SETOWN)].  The baseline has no local flag and no output flag,
    has [CREAD] and [CLOCAL] among its control flags, has VMIN and VTIME
    zero, and is the settings found in everything else.  The object is open
    afterwards and holds the descriptor that [open] returned. *)
Theorem C7_Open_saves_and_applies_baseline :
  forall (h : SerialPortImpl) (w : world),
    let r := SerialPortImpl.Open h w in
    outcome r = Ret tt ->
    let fd := lowest_free (w_live w) in
    let found := w_tty w in
    let written := baseline_of found in
    mIsOpen h = false /\
    object_after r = mk_SerialPortImpl (mSerialPortName h) true fd found /\
    w_trace (world_after r)
      = w_trace w ++ [call_open (mSerialPortName h)
                                (Z.lor (Z.lor O_RDWR O_NOCTTY) O_NONBLOCK);
                      call_tcgetattr fd;
                      call_tcsetattr fd TCSANOW written;
                      call_getpid;
                      call_fcntl fd F_SETOWN (w_pid w)] /\
    w_tty (world_after r) = w_driver w found written /\
    is_live fd (world_after r) = true /\
    (c_lflag written = 0 /\ c_oflag written = 0 /\
     Z.land (c_cflag written) CREAD = CREAD /\
     Z.land (c_cflag written) CLOCAL = CLOCAL /\
     (forall mask, Z.land (Z.lor CREAD CLOCAL) mask = 0 ->
        Z.land (c_cflag written) mask = Z.land (u32 (c_cflag found)) mask) /\
     c_iflag written = c_iflag found /\
     c_ispeed written = c_ispeed found /\
     c_ospeed written = c_ospeed found /\
     length (c_cc written) = length (c_cc found) /\
     (forall i d, (i < length (c_cc found))%nat ->
        nth i (c_cc written) d
          = if (Nat.eqb i VMIN || Nat.eqb i VTIME)%bool then 0
            else nth i (c_cc found) d)).
Proof.
  intros h w r Hret fd found written.
  destruct (mIsOpen h) eqn:Hc.
  { subst r. rewrite (Open_already_open h w Hc) in Hret. discriminate. }
  pose proof (Open_closed h w Hc) as E. cbv zeta in E. fold r in E.
  fold fd found written in E.
  destruct (w_fault w (now w)); [rewrite E in Hret; discriminate|].
  destruct (w_fault w (1 + now w)%nat); [rewrite E in Hret; discriminate|].
  destruct (w_fault w (2 + now w)%nat); [rewrite E in Hret; discriminate|].
  destruct (w_fault w (4 + now w)%nat); [rewrite E in Hret; discriminate|].
  rewrite E. unfold object_after, world_after, outcome; cbn [fst snd].
  split; [reflexivity|].
  split; [unfold flagged, having_saved, holding; cbn; reflexivity|].
  split; [cbn; rewrite <- !app_assoc; reflexivity|].
  split; [reflexivity|].
  split; [unfold is_live; cbn; now rewrite Z.eqb_refl|].
  split; [reflexivity|]. split; [reflexivity|].
  split; [apply (or_sets (c_cflag found) (Z.lor CREAD CLOCAL) CREAD);
          reflexivity|].
  split; [apply (or_sets (c_cflag found) (Z.lor CREAD CLOCAL) CLOCAL);
          reflexivity|].
  split; [intros mask Hm;
          apply (or_keeps (c_cflag found) (Z.lor CREAD CLOCAL) mask Hm)|].
  split; [reflexivity|]. split; [reflexivity|]. split; [reflexivity|].
  split; [unfold written, baseline_of; cbn; now rewrite !array_set_length|].
  intros i d Hi. unfold written, baseline_of; cbn [c_cc].
  destruct (Nat.eqb_spec i VTIME) as [->|Ht].
  - rewrite orb_true_r. apply array_set_nth_same.
    now rewrite array_set_length.
  - rewrite orb_false_r, array_set_nth_other by congruence.
    destruct (Nat.eqb_spec i VMIN) as [->|Hm].
    + now apply array_set_nth_same.
    + apply array_set_nth_other. congruence.
Qed.

(** When it is closed and the four calls that can fail do not, [Open]
    returns normally. *)
Lemma Open_succeeds h w :
  mIsOpen h = false -> Open_calls_succeed w = true ->
  outcome (SerialPortImpl.Open h w) = Ret tt.
Proof.
  intros Hc Hok. rewrite (Open_closed h w Hc).
  unfold Open_calls_succeed in Hok.
  destruct (w_fault w (now w)); [discriminate|].
  destruct (w_fault w (1 + now w)%nat); [discriminate|].
  destruct (w_fault w (2 + now w)%nat); [discriminate|].
  destruct (w_fault w (4 + now w)%nat); [discriminate|].
  reflexivity.
Qed.

(** [Open] on the closed sample object. *)
Lemma C7_witness :
  let r := SerialPortImpl.Open sample_closed sample_world in
  outcome r = Ret tt /\
  object_after r = mk_SerialPortImpl "/dev/ttyS0" true 3 sample_tty /\
  c_cflag (w_tty (world_after r)) = 3261.
Proof.
  intros r.
  pose proof (C7_Open_saves_and_applies_baseline sample_closed sample_world
                eq_refl) as (_ & Hobj & _ & Htty & _).
  split; [reflexivity|]. split; [exact Hobj|].
  fold r in Htty. rewrite Htty. reflexivity.
Defined.

(** ** Reading and writing the settings of an open object *)

Lemma throw_spec_Ret {A : Type} spec (body : M A) h w a h' w' :
  body h w = (Ret a, h', w') -> throw_spec spec body h w = (Ret a, h', w').
Proof. intros E. unfold throw_spec. now rewrite E. Qed.

Lemma throw_spec_listed {A : Type} spec (body : M A) h w e h' w' :
  body h w = (Throw e, h', w') -> listed (fst e) spec = true ->
  throw_spec spec body h w = (Throw e, h', w').
Proof. intros E L. unfold throw_spec. now rewrite E, L. Qed.

Lemma throw_spec_unlisted {A : Type} spec (body : M A) h w e h' w' :
  body h w = (Throw e, h', w') -> listed (fst e) spec = false ->
  throw_spec spec body h w = (Unexpected e, h', w').
Proof. intros E L. unfold throw_spec. now rewrite E, L. Qed.

Lemma bind_Ret {A B : Type} (m : M A) (k : A -> M B) h w a h' w' :
  m h w = (Ret a, h', w') -> (x <- m ;; k x) h w = k a h' w'.
Proof. intros E. cbn. now rewrite E. Qed.

Lemma bind_Throw {A B : Type} (m : M A) (k : A -> M B) h w e h' w' :
  m h w = (Throw e, h', w') -> (x <- m ;; k x) h w = (Throw e, h', w').
Proof. intros E. cbn. now rewrite E. Qed.

Section ReadModifyWrite.
Variables (h : SerialPortImpl) (w : world).
Hypothesis opened : mIsOpen h = true.

(** Past the test of [IsOpen] and a fetch that went through. *)
Lemma fetch_done {A : Type} (rest : Z -> termios -> M A) :
  call_fails (mFileDescriptor h) w 0 = false ->
  (is_open <- SerialPortImpl.IsOpen ;;
   if negb is_open then throw NotOpen ERR_MSG_PORT_NOT_OPEN else
   fd <- field mFileDescriptor ;;
   got <- sys (Sys.tcgetattr fd) ;;
   match got with
   | None => throw runtime_error strerror_errno
   | Some port_settings => rest fd port_settings
   end) h w
  = rest (mFileDescriptor h) (w_tty w) h (fetched h w).
Proof.
  intros F. rewrite (guard_open h w opened).
  unfold field, sys, Sys.tcgetattr; cbn.
  rewrite call_fails_0 in F. rewrite F. reflexivity.
Qed.

Section Setter.
Variable (modify : termios -> M termios).

Let setter : M unit :=
  is_open <- SerialPortImpl.IsOpen ;;
  if negb is_open then throw NotOpen ERR_MSG_PORT_NOT_OPEN else
  fd <- field mFileDescriptor ;;
  got <- sys (Sys.tcgetattr fd) ;;
  match got with
  | None => throw runtime_error strerror_errno
  | Some port_settings =>
      port_settings <- modify port_settings ;;
      rc <- sys (Sys.tcsetattr fd TCSANOW port_settings) ;;
      if rc <? 0 then throw invalid_argument strerror_errno else
      ret tt
  end.

Lemma setter_fetch_fails :
  call_fails (mFileDescriptor h) w 0 = true ->
  setter h w = (Throw (runtime_error, strerror_errno), h, fetched h w).
Proof.
  intros F. unfold setter.
  exact (getter_fetch_fails _ h w opened F).
Qed.

Lemma setter_rejects e :
  call_fails (mFileDescriptor h) w 0 = false ->
  modify (w_tty w) h (fetched h w) = (Throw e, h, fetched h w) ->
  setter h w = (Throw e, h, fetched h w).
Proof.
  intros F E. unfold setter.
  rewrite (fetch_done _ F).
  now apply bind_Throw.
Qed.

Lemma setter_writes t :
  call_fails (mFileDescriptor h) w 0 = false ->
  modify (w_tty w) h (fetched h w) = (Ret t, h, fetched h w) ->
  setter h w =
    if call_fails (mFileDescriptor h) w 1
    then (Throw (invalid_argument, strerror_errno), h, write_failed h w t)
    else (Ret tt, h, written h w t).
Proof.
  intros F E. unfold setter.
  rewrite (fetch_done _ F).
  rewrite (bind_Ret _ _ _ _ _ _ _ E).
  rewrite store_step. unfold fetched at 1. rewrite call_fails_enter.
  destruct (call_fails (mFileDescriptor h) w 1); reflexivity.
Qed.

End Setter.
End ReadModifyWrite.

(** ** The accessors and mutators on an open object *)

Section Runs.
Context {hdr : SerialPort_h}.
Variables (h : SerialPortImpl) (w : world).
Hypothesis opened : mIsOpen h = true.
Hypothesis fetch_ok : call_fails (mFileDescriptor h) w 0 = false.

Lemma GetParity_runs :
  SerialPortImpl.GetParity h w = (Ret (parity_got (w_tty w)), h, fetched h w).
Proof.
  unfold SerialPortImpl.GetParity. apply throw_spec_Ret.
  unfold SerialPortImpl.GetParity_body.
  rewrite (fetch_done h w opened _ fetch_ok). unfold parity_got.
  destruct (negb (Z.land (c_cflag (w_tty w)) PARENB =? 0));
    [destruct (negb (Z.land (c_cflag (w_tty w)) PARODD =? 0))|]; reflexivity.
Qed.

Lemma GetNumOfStopBits_runs :
  SerialPortImpl.GetNumOfStopBits h w
  = (Ret (stop_bits_got (w_tty w)), h, fetched h w).
Proof.
  unfold SerialPortImpl.GetNumOfStopBits. apply throw_spec_Ret.
  unfold SerialPortImpl.GetNumOfStopBits_body.
  rewrite (fetch_done h w opened _ fetch_ok). unfold stop_bits_got.
  destruct (negb (Z.land (c_cflag (w_tty w)) CSTOPB =? 0)); reflexivity.
Qed.

Lemma GetFlowControl_runs :
  SerialPortImpl.GetFlowControl h w
  = (Ret (flow_control_got (w_tty w)), h, fetched h w).
Proof.
  unfold SerialPortImpl.GetFlowControl. apply throw_spec_Ret.
  unfold SerialPortImpl.GetFlowControl_body.
  rewrite (fetch_done h w opened _ fetch_ok). unfold flow_control_got.
  destruct (negb (Z.land (c_cflag (w_tty w)) CRTSCTS =? 0)); reflexivity.
Qed.

Lemma GetCharSize_runs :
  SerialPortImpl.GetCharSize h w
  = (Ret (char_size_got (w_tty w)), h, fetched h w).
Proof.
  unfold SerialPortImpl.GetCharSize. apply throw_spec_Ret.
  rewrite (fetch_done h w opened _ fetch_ok). reflexivity.
Qed.

Lemma GetBaudRate_runs :
  SerialPortImpl.GetBaudRate h w
  = (Ret (cfgetispeed (w_tty w)), h, fetched h w).
Proof.
  unfold SerialPortImpl.GetBaudRate. apply throw_spec_Ret.
  rewrite (fetch_done h w opened _ fetch_ok). reflexivity.
Qed.

Lemma throw_spec_write_result spec t (body : M unit) :
  listed invalid_argument spec = true ->
  body h w = write_result h w t ->
  throw_spec spec body h w = write_result h w t.
Proof.
  intros L E. unfold write_result in *.
  destruct (call_fails (mFileDescriptor h) w 1).
  - now apply throw_spec_listed.
  - now apply throw_spec_Ret.
Qed.

Lemma SetParity_runs v :
  legal_parity v = true ->
  SerialPortImpl.SetParity v h w = write_result h w (parity_put v (w_tty w)).
Proof.
  intros Hv. unfold SerialPortImpl.SetParity.
  apply throw_spec_write_result; [reflexivity|].
  unfold SerialPortImpl.SetParity_body, write_result.
  apply (setter_writes h w opened); [exact fetch_ok|].
  unfold parity_put. unfold legal_parity in Hv.
  destruct (v =? PARITY_EVEN); [reflexivity|].
  destruct (v =? PARITY_ODD); [reflexivity|].
  destruct (v =? PARITY_NONE); [reflexivity|discriminate].
Qed.

Lemma SetNumOfStopBits_runs v :
  legal_stop_bits v = true ->
  SerialPortImpl.SetNumOfStopBits v h w
  = write_result h w (stop_bits_put v (w_tty w)).
Proof.
  intros Hv. unfold SerialPortImpl.SetNumOfStopBits.
  apply throw_spec_write_result; [reflexivity|].
  unfold SerialPortImpl.SetNumOfStopBits_body, write_result.
  apply (setter_writes h w opened); [exact fetch_ok|].
  unfold stop_bits_put. unfold legal_stop_bits in Hv.
  destruct (v =? STOP_BITS_1); [reflexivity|].
  destruct (v =? STOP_BITS_2); [reflexivity|discriminate].
Qed.

Lemma SetFlowControl_runs v :
  legal_flow_control v = true ->
  SerialPortImpl.SetFlowControl v h w
  = write_result h w (flow_control_put v (w_tty w)).
Proof.
  intros Hv. unfold SerialPortImpl.SetFlowControl.
  apply throw_spec_write_result; [reflexivity|].
  unfold SerialPortImpl.SetFlowControl_body, write_result.
  apply (setter_writes h w opened); [exact fetch_ok|].
  unfold flow_control_put. unfold legal_flow_control in Hv.
  destruct (v =? FLOW_CONTROL_HARD); [reflexivity|].
  destruct (v =? FLOW_CONTROL_NONE); [reflexivity|discriminate].
Qed.

(** [SetCharSize] has no test of its argument: any value is written. *)
Lemma SetCharSize_runs v :
  SerialPortImpl.SetCharSize v h w
  = write_result h w (char_size_put v (w_tty w)).
Proof.
  unfold SerialPortImpl.SetCharSize.
  apply throw_spec_write_result; [reflexivity|].
  rewrite (fetch_done h w opened _ fetch_ok).
  rewrite store_step. unfold fetched at 1. rewrite call_fails_enter.
  unfold write_result.
  destruct (call_fails (mFileDescriptor h) w 1); reflexivity.
Qed.

End Runs.

(** ** What is written is what is read back *)

Lemma land_u32 x m : u32 m = m -> Z.land (u32 x) m = Z.land x m.
Proof.
  intros Hm. bitwise n Hn. mask_fact Hm n. bit_specs.
  destruct (Z.testbit x n), (Z.testbit m n), (n <? 32); cbn; congruence.
Qed.

Section FieldRoundTrip.
Context {hdr : SerialPort_h}.
Variables (t t' : termios).

Lemma parity_got_put v :
  legal_parity v = true ->
  c_cflag t' = c_cflag (parity_put v t) ->
  parity_got t' = v.
Proof.
  intros Hv Hc. unfold parity_got. rewrite Hc. clear Hc.
  unfold parity_put, legal_parity in *.
  destruct (Z.eqb_spec v PARITY_EVEN) as [E|Hne].
  { rewrite E. unfold and_c_cflag, or_c_cflag; cbn [c_cflag set_c_cflag].
    rewrite (and_not_keeps _ PARODD PARENB) by reflexivity.
    rewrite (land_u32 _ PARENB) by reflexivity.
    rewrite (or_sets _ PARENB PARENB) by reflexivity.
    rewrite (and_not_clears _ PARODD PARODD) by reflexivity.
    reflexivity. }
  destruct (Z.eqb_spec v PARITY_ODD) as [E|Hno].
  { rewrite E. unfold or_c_cflag; cbn [c_cflag set_c_cflag].
    rewrite (or_sets _ (Z.lor PARENB PARODD) PARENB) by reflexivity.
    rewrite (or_sets _ (Z.lor PARENB PARODD) PARODD) by reflexivity.
    reflexivity. }
  destruct (Z.eqb_spec v PARITY_NONE) as [E|Hnn]; [rewrite E|discriminate].
  unfold and_c_cflag; cbn [c_cflag set_c_cflag].
  rewrite (and_not_clears _ PARENB PARENB) by reflexivity.
  reflexivity.
Qed.

Lemma stop_bits_got_put v :
  legal_stop_bits v = true ->
  c_cflag t' = c_cflag (stop_bits_put v t) ->
  stop_bits_got t' = v.
Proof.
  intros Hv Hc. unfold stop_bits_got. rewrite Hc. clear Hc.
  unfold stop_bits_put, legal_stop_bits in *.
  destruct (Z.eqb_spec v STOP_BITS_1) as [E|Hne].
  { rewrite E. unfold and_c_cflag; cbn [c_cflag set_c_cflag].
    rewrite (and_not_clears _ CSTOPB CSTOPB) by reflexivity. reflexivity. }
  destruct (Z.eqb_spec v STOP_BITS_2) as [E|Hn2]; [rewrite E|discriminate].
  unfold or_c_cflag; cbn [c_cflag set_c_cflag].
  rewrite (or_sets _ CSTOPB CSTOPB) by reflexivity. reflexivity.
Qed.

Lemma flow_control_got_put v :
  legal_flow_control v = true ->
  c_cflag t' = c_cflag (flow_control_put v t) ->
  flow_control_got t' = v.
Proof.
  intros Hv Hc. unfold flow_control_got. rewrite Hc. clear Hc.
  unfold flow_control_put, legal_flow_control in *.
  destruct (Z.eqb_spec v FLOW_CONTROL_HARD) as [E|Hne].
  { rewrite E. unfold or_c_cflag; cbn [c_cflag set_c_cflag].
    rewrite (or_sets _ CRTSCTS CRTSCTS) by reflexivity. reflexivity. }
  destruct (Z.eqb_spec v FLOW_CONTROL_NONE) as [E|Hn2]; [rewrite E|discriminate].
  unfold and_c_cflag; cbn [c_cflag set_c_cflag].
  rewrite (and_not_clears _ CRTSCTS CRTSCTS) by reflexivity. reflexivity.
Qed.

Lemma char_size_got_put v :
  legal_char_size v = true ->
  c_cflag t' = c_cflag (char_size_put v t) ->
  char_size_got t' = v.
Proof.
  intros Hv Hc. unfold char_size_got. rewrite Hc. clear Hc.
  unfold char_size_put, and_c_cflag, or_c_cflag; cbn [c_cflag set_c_cflag].
  unfold legal_char_size in Hv.
  repeat (apply orb_prop in Hv; destruct Hv as [Hv|Hv]);
    apply Z.eqb_eq in Hv; subst v;
    apply field_holds; reflexivity.
Qed.

End FieldRoundTrip.

Lemma call_fails_written h w t k :
  call_fails (mFileDescriptor h) (written h w t) k
  = call_fails (mFileDescriptor h) w (S (S k)).
Proof.
  unfold call_fails, written, fetched, is_live, now; cbn.
  now rewrite !Nat.add_succ_r.
Qed.

Section SetThenGet.
Context {hdr : SerialPort_h}.
Variables (h : SerialPortImpl) (w : world).
Hypothesis opened : mIsOpen h = true.
Hypothesis fetch_ok : call_fails (mFileDescriptor h) w 0 = false.
Hypothesis write_ok : call_fails (mFileDescriptor h) w 1 = false.
Hypothesis refetch_ok : call_fails (mFileDescriptor h) w 2 = false.

(** A mutator that wrote [t], then an accessor: the accessor decodes what
    the driver made of [t]. *)
Lemma set_then_get {A : Type} (set : M unit) (get : M A) t
      (decode : termios -> A) :
  set h w = write_result h w t ->
  (forall w', call_fails (mFileDescriptor h) w' 0 = false ->
              get h w' = (Ret (decode (w_tty w')), h, fetched h w')) ->
  outcome ((set ;; get) h w) = Ret (decode (w_driver w (w_tty w) t)).
Proof.
  intros Hset Hget. unfold write_result in Hset. rewrite write_ok in Hset.
  rewrite (bind_Ret _ _ _ _ _ _ _ Hset).
  rewrite Hget; [reflexivity|].
  now rewrite call_fails_written.
Qed.

End SetThenGet.




(** ** Values outside the enumerations *)

Section Illegal.
Context {hdr : SerialPort_h}.
Variables (h : SerialPortImpl) (w : world) (v : Z).
Hypothesis opened : mIsOpen h = true.

(** Whatever the fetch returns, a mutator of which the [switch] ends in
    [default] stops after the fetch. *)
Lemma SetParity_illegal :
  legal_parity v = false ->
  world_after (SerialPortImpl.SetParity v h w) = fetched h w /\
  object_after (SerialPortImpl.SetParity v h w) = h /\
  (call_fails (mFileDescriptor h) w 0 = false ->
     outcome (SerialPortImpl.SetParity v h w)
     = Throw (invalid_argument, ERR_MSG_INVALID_PARITY)).
Proof.
  intros Hv. unfold legal_parity in Hv.
  apply orb_false_elim in Hv as [Hv Hn]. apply orb_false_elim in Hv as [He Ho].
  unfold SerialPortImpl.SetParity.
  destruct (call_fails (mFileDescriptor h) w 0) eqn:F.
  - erewrite throw_spec_listed;
      [|unfold SerialPortImpl.SetParity_body;
        apply (setter_fetch_fails h w opened _ F) | reflexivity].
    repeat split. discriminate.
  - erewrite throw_spec_listed;
      [|unfold SerialPortImpl.SetParity_body;
        apply (setter_rejects h w opened _ _ F);
        rewrite He, Ho, Hn; reflexivity | reflexivity].
    repeat split.
Qed.

Lemma SetNumOfStopBits_illegal :
  legal_stop_bits v = false ->
  world_after (SerialPortImpl.SetNumOfStopBits v h w) = fetched h w /\
  object_after (SerialPortImpl.SetNumOfStopBits v h w) = h /\
  (call_fails (mFileDescriptor h) w 0 = false ->
     outcome (SerialPortImpl.SetNumOfStopBits v h w)
     = Throw (invalid_argument, ERR_MSG_INVALID_STOP_BITS)).
Proof.
  intros Hv. unfold legal_stop_bits in Hv.
  apply orb_false_elim in Hv as [H1 H2].
  unfold SerialPortImpl.SetNumOfStopBits.
  destruct (call_fails (mFileDescriptor h) w 0) eqn:F.
  - erewrite throw_spec_unlisted;
      [|unfold SerialPortImpl.SetNumOfStopBits_body;
        apply (setter_fetch_fails h w opened _ F) | reflexivity].
    repeat split. discriminate.
  - erewrite throw_spec_listed;
      [|unfold SerialPortImpl.SetNumOfStopBits_body;
        apply (setter_rejects h w opened _ _ F);
        rewrite H1, H2; reflexivity | reflexivity].
    repeat split.
Qed.

Lemma SetFlowControl_illegal :
  legal_flow_control v = false ->
  world_after (SerialPortImpl.SetFlowControl v h w) = fetched h w /\
  object_after (SerialPortImpl.SetFlowControl v h w) = h /\
  (call_fails (mFileDescriptor h) w 0 = false ->
     outcome (SerialPortImpl.SetFlowControl v h w)
     = Throw (invalid_argument, ERR_MSG_INVALID_FLOW_CONTROL)).
Proof.
  intros Hv. unfold legal_flow_control in Hv.
  apply orb_false_elim in Hv as [H1 H2].
  unfold SerialPortImpl.SetFlowControl.
  destruct (call_fails (mFileDescriptor h) w 0) eqn:F.
  - erewrite throw_spec_unlisted;
      [|unfold SerialPortImpl.SetFlowControl_body;
        apply (setter_fetch_fails h w opened _ F) | reflexivity].
    repeat split. discriminate.
  - erewrite throw_spec_listed;
      [|unfold SerialPortImpl.SetFlowControl_body;
        apply (setter_rejects h w opened _ _ F);
        rewrite H1, H2; reflexivity | reflexivity].
    repeat split.
Qed.

End Illegal.

(** C5, as stated, fails: the settings are fetched before the value is
    looked at, and when that fetch fails the error is [runtime_error], not
    [invalid_argument].  Here [SetParity(7)] on the open sample object, the
    fetch failing. *)
Lemma C5_counterexample :
  ~ (forall (hdr : SerialPort_h) (h : SerialPortImpl) (w : world) (v : Z),
       mIsOpen h = true ->
       legal_parity v = false ->
       exists what,
         outcome (SerialPortImpl.SetParity v h w)
         = Throw (invalid_argument, what)).
Proof.
  intros claim.
  destruct (claim sample_h sample_open
                  (with_fault sample_world_open (fault_at 5)) 7
                  eq_refl eq_refl) as [what E].
  vm_compute in E. discriminate E.
Qed.

(** C5, amended.  On an open object, [SetParity], [SetNumOfStopBits] and
    [SetFlowControl] called with a value outside the enumeration make one
    system call, the fetch of the settings, and no write: the settings in
    force and the object are as before.  When the fetch goes through, the
    call throws [invalid_argument] with the text for that setting. *)
Theorem C5_illegal_value_never_written :
  forall (hdr : SerialPort_h) (h : SerialPortImpl) (w : world) (v : Z),
    mIsOpen h = true ->
    let fd := mFileDescriptor h in
    let unchanged {A : Type} (r : result A * SerialPortImpl * world) :=
      w_trace (world_after r) = w_trace w ++ [call_tcgetattr fd] /\
      w_tty (world_after r) = w_tty w /\
      object_after r = h in
    (legal_parity v = false ->
       unchanged (SerialPortImpl.SetParity v h w) /\
       (call_fails fd w 0 = false ->
          outcome (SerialPortImpl.SetParity v h w)
          = Throw (invalid_argument, ERR_MSG_INVALID_PARITY))) /\
    (legal_stop_bits v = false ->
       unchanged (SerialPortImpl.SetNumOfStopBits v h w) /\
       (call_fails fd w 0 = false ->
          outcome (SerialPortImpl.SetNumOfStopBits v h w)
          = Throw (invalid_argument, ERR_MSG_INVALID_STOP_BITS))) /\
    (legal_flow_control v = false ->
       unchanged (SerialPortImpl.SetFlowControl v h w) /\
       (call_fails fd w 0 = false ->
          outcome (SerialPortImpl.SetFlowControl v h w)
          = Throw (invalid_argument, ERR_MSG_INVALID_FLOW_CONTROL))).
Proof.
  intros hdr h w v Ho fd unchanged. subst unchanged fd. cbv beta.
  split; [|split]; intros Hv.
  - destruct (SetParity_illegal h w v Ho Hv) as (Hw & Hh & Hr).
    rewrite Hw, Hh. repeat split. exact Hr.
  - destruct (SetNumOfStopBits_illegal h w v Ho Hv) as (Hw & Hh & Hr).
    rewrite Hw, Hh. repeat split. exact Hr.
  - destruct (SetFlowControl_illegal h w v Ho Hv) as (Hw & Hh & Hr).
    rewrite Hw, Hh. repeat split. exact Hr.
Qed.

(** Parity 7, stop bits 7 and flow control 7 on the open sample object. *)
Lemma C5_witness :
  mIsOpen sample_open = true /\
  @legal_parity sample_h 7 = false /\
  outcome (@SerialPortImpl.SetParity sample_h 7 sample_open sample_world_open)
  = Throw (invalid_argument, ERR_MSG_INVALID_PARITY) /\
  w_tty (world_after
           (@SerialPortImpl.SetParity sample_h 7 sample_open sample_world_open))
  = w_tty sample_world_open.
Proof.
  destruct (C5_illegal_value_never_written sample_h sample_open
              sample_world_open 7 eq_refl) as (Hparity & _).
  destruct (Hparity eq_refl) as ((_ & Htty & _) & Hthrow).
  split; [reflexivity|]. split; [reflexivity|].
  split; [exact (Hthrow eq_refl) | exact Htty].
Defined.

(** ** [SetBaudRate] *)

Section BaudRate.
Variables (h : SerialPortImpl) (w : world) (baudRate : Z).
Hypothesis opened : mIsOpen h = true.

Lemma SetBaudRate_fetch_fails :
  call_fails (mFileDescriptor h) w 0 = true ->
  SerialPortImpl.SetBaudRate baudRate h w
  = (Throw (runtime_error, strerror_errno), h, fetched h w).
Proof.
  intros F. unfold SerialPortImpl.SetBaudRate.
  apply throw_spec_listed; [|reflexivity].
  exact (getter_fetch_fails _ h w opened F).
Qed.

Lemma SetBaudRate_runs :
  call_fails (mFileDescriptor h) w 0 = false ->
  SerialPortImpl.SetBaudRate baudRate h w =
    if valid_speed (u32 baudRate) then
      if call_fails (mFileDescriptor h) w 1
      then (Throw (UnsupportedBaudRate, strerror_errno), h,
            write_failed h w (speed_put baudRate (w_tty w)))
      else (Ret tt, h, written h w (speed_put baudRate (w_tty w)))
    else (Throw (UnsupportedBaudRate, ERR_MSG_UNSUPPORTED_BAUD), h, fetched h w).
Proof.
  intros F. unfold SerialPortImpl.SetBaudRate, throw_spec.
  rewrite (fetch_done h w opened _ F).
  unfold cfsetispeed, cfsetospeed.
  destruct (valid_speed (u32 baudRate)); [|reflexivity].
  cbn [Z.ltb Z.compare]. rewrite store_step.
  unfold fetched at 1. rewrite call_fails_enter.
  destruct (call_fails (mFileDescriptor h) w 1); reflexivity.
Qed.

End BaudRate.

(** *** Where the rate is kept *)

Lemma u32_u32 z : u32 (u32 z) = u32 z.
Proof. unfold u32. apply Z.mod_mod. lia. Qed.

(** A speed that passes the test of the setters lies within [CBAUD]: the
    second half of the test lets nothing more through. *)
Lemma valid_speed_in_CBAUD s :
  u32 s = s -> valid_speed s = true -> Z.land CBAUD s = s.
Proof.
  intros Hs V. unfold valid_speed in V.
  apply negb_true_iff, andb_false_iff in V. destruct V as [V|V].
  - apply negb_false_iff, Z.eqb_eq in V.
    bitwise n Hn. mask_fact Hs n. mask_fact V n. bit_specs.
    destruct (Z.testbit s n), (Z.testbit CBAUD n), (n <? 32); cbn; congruence.
  - apply orb_false_iff in V. destruct V as [Lo Hi].
    apply Z.ltb_ge in Lo, Hi.
    unfold B57600 in Lo. unfold __MAX_BAUD, B4000000 in Hi.
    assert (E : s = 4097 \/ s = 4098 \/ s = 4099 \/ s = 4100 \/ s = 4101 \/
                s = 4102 \/ s = 4103 \/ s = 4104 \/ s = 4105 \/ s = 4106 \/
                s = 4107 \/ s = 4108 \/ s = 4109 \/ s = 4110 \/ s = 4111)
      by lia.
    repeat (destruct E as [E|E]; [subst s; reflexivity|]).
    subst s; reflexivity.
Qed.

Section SpeedPut.
Variables (baudRate : Z) (t : termios).

Lemma speed_put_fields :
  c_ispeed (speed_put baudRate t) = u32 baudRate /\
  c_ospeed (speed_put baudRate t) = u32 baudRate.
Proof.
  unfold speed_put, ospeed_put, ispeed_put.
  destruct (u32 baudRate =? 0); split; reflexivity.
Qed.

(** The [CBAUD] bits of the settings [SetBaudRate] writes are those of the
    rate, and [IBAUD0] is set for the rate zero only. *)
Lemma speed_put_CBAUD :
  Z.land (c_cflag (speed_put baudRate t)) CBAUD = Z.land (u32 baudRate) CBAUD.
Proof.
  unfold speed_put, ospeed_put, or_c_cflag, and_c_cflag.
  cbn [c_cflag set_c_cflag set_c_ospeed].
  change (Z.lor CBAUD CBAUDEX) with CBAUD.
  rewrite field_reads. now rewrite u32_u32.
Qed.

Lemma speed_put_IBAUD0 :
  Z.land (c_iflag (speed_put baudRate t)) IBAUD0
  = if u32 baudRate =? 0 then IBAUD0 else 0.
Proof.
  unfold speed_put, ospeed_put, ispeed_put.
  destruct (u32 baudRate =? 0);
    unfold or_c_cflag, and_c_cflag, or_c_iflag, and_c_iflag;
    cbn [c_iflag set_c_cflag set_c_iflag set_c_ospeed set_c_ispeed].
  - now apply or_sets.
  - now apply and_not_clears.
Qed.

(** They leave alone every flag outside [CBAUD]. *)
Lemma speed_put_keeps m' :
  valid_speed (u32 baudRate) = true ->
  u32 m' = m' -> Z.land CBAUD m' = 0 ->
  Z.land (c_cflag (speed_put baudRate t)) m' = Z.land (c_cflag t) m'.
Proof.
  intros V Hr Hdis.
  pose proof (valid_speed_in_CBAUD _ (u32_u32 baudRate) V) as Hsub.
  assert (Hs : Z.land (u32 (u32 baudRate)) m' = 0).
  { rewrite u32_u32. now apply (subset_disjoint CBAUD). }
  unfold speed_put, ospeed_put, ispeed_put.
  destruct (u32 baudRate =? 0);
    unfold or_c_cflag, and_c_cflag, or_c_iflag, and_c_iflag;
    cbn [c_cflag set_c_cflag set_c_iflag set_c_ospeed set_c_ispeed];
    change (Z.lor CBAUD CBAUDEX) with CBAUD;
    now rewrite !field_keeps.
Qed.

(** [cfgetispeed] gives back the rate put by the two setters. *)
Lemma cfgetispeed_speed_put :
  valid_speed (u32 baudRate) = true ->
  cfgetispeed (speed_put baudRate t) = u32 baudRate.
Proof.
  intros V.
  pose proof (valid_speed_in_CBAUD _ (u32_u32 baudRate) V) as Hsub.
  unfold cfgetispeed. change (Z.lor CBAUD CBAUDEX) with CBAUD.
  rewrite speed_put_IBAUD0, speed_put_CBAUD.
  destruct (Z.eqb_spec (u32 baudRate) 0) as [E|E].
  - now rewrite E.
  - cbn [Z.eqb negb]. now rewrite Z.land_comm.
Qed.

End SpeedPut.

(** [cfgetispeed] reads the [CBAUD] bits and [IBAUD0], nothing else. *)
Lemma cfgetispeed_same t t' :
  Z.land (c_cflag t') CBAUD = Z.land (c_cflag t) CBAUD ->
  Z.land (c_iflag t') IBAUD0 = Z.land (c_iflag t) IBAUD0 ->
  cfgetispeed t' = cfgetispeed t.
Proof.
  intros Hc Hi. unfold cfgetispeed. change (Z.lor CBAUD CBAUDEX) with CBAUD.
  now rewrite Hc, Hi.
Qed.

Lemma cfgetispeed_adopted w old requested :
  adopts_speed w ->
  cfgetispeed (w_driver w old requested) = cfgetispeed requested.
Proof. intros H. apply cfgetispeed_same; apply H. Qed.

(** C9, as stated, fails: nothing in [SetBaudRate] reads the rate back
    after the write.  Behind a driver that goes no faster than 57600 baud
    and leaves the [CBAUD] bits as they were when asked for more, the write
    of 115200 baud is accepted, [SetBaudRate] returns normally, and the
    line is still at 9600 baud: that is what [cfgetispeed] reads from the
    settings in force. *)
Lemma C9_counterexample :
  ~ (forall (h : SerialPortImpl) (w : world) (baudRate : Z),
       outcome (SerialPortImpl.SetBaudRate baudRate h w) = Ret tt ->
       cfgetispeed (w_tty (world_after (SerialPortImpl.SetBaudRate baudRate h w)))
       = u32 baudRate).
Proof.
  intros claim.
  pose proof (claim sample_open
                    (with_driver sample_world_open adopt_up_to_57600)
                    B115200 eq_refl) as E.
  vm_compute in E. discriminate E.
Qed.

(** C9, amended.  On an open object [SetBaudRate] throws
    [UnsupportedBaudRate] in two situations, both after a fetch that went
    through: [cfsetispeed] or [cfsetospeed] refuses the rate, and then
    nothing is written; or the write of the settings fails.  When it
    returns normally it has written settings that carry the rate asked for:
    in the [CBAUD] bits of the control flags, from which [cfgetispeed] reads
    it back, and in the two speed fields.  The line has that rate if the
    driver adopts the rate it is given, which the method does not check.  A
    failed fetch is a [runtime_error]. *)
Theorem C9_SetBaudRate_unsupported_iff :
  forall (h : SerialPortImpl) (w : world) (baudRate : Z),
    mIsOpen h = true ->
    let fd := mFileDescriptor h in
    let r := SerialPortImpl.SetBaudRate baudRate h w in
    ((exists what, outcome r = Throw (UnsupportedBaudRate, what)) <->
       call_fails fd w 0 = false /\
       (valid_speed (u32 baudRate) = false \/ call_fails fd w 1 = true)) /\
    (call_fails fd w 0 = false -> valid_speed (u32 baudRate) = false ->
       r = (Throw (UnsupportedBaudRate, ERR_MSG_UNSUPPORTED_BAUD), h,
            fetched h w)) /\
    (call_fails fd w 0 = true ->
       outcome r = Throw (runtime_error, strerror_errno)) /\
    (outcome r = Ret tt ->
       exists t,
         w_trace (world_after r)
         = w_trace w ++ [call_tcgetattr fd; call_tcsetattr fd TCSANOW t] /\
         Z.land (c_cflag t) CBAUD = u32 baudRate /\
         cfgetispeed t = u32 baudRate /\
         c_ispeed t = u32 baudRate /\ c_ospeed t = u32 baudRate /\
         w_tty (world_after r) = w_driver w (w_tty w) t /\
         (adopts_speed w -> cfgetispeed (w_tty (world_after r)) = u32 baudRate)).
Proof.
  intros h w baudRate Ho fd r. subst r fd.
  destruct (call_fails (mFileDescriptor h) w 0) eqn:F0.
  { rewrite (SetBaudRate_fetch_fails h w baudRate Ho F0).
    unfold outcome; cbn [fst].
    split; [split|split; [|split]]; try discriminate; try reflexivity.
    - intros [what E]. discriminate E.
    - intros [E _]. discriminate E. }
  rewrite (SetBaudRate_runs h w baudRate Ho F0).
  destruct (valid_speed (u32 baudRate)) eqn:V.
  - destruct (call_fails (mFileDescriptor h) w 1) eqn:F1;
      unfold outcome, world_after; cbn [fst snd].
    + split; [split|split; [|split]]; try discriminate.
      * intros _. split; [reflexivity | now right].
      * intros _. now exists strerror_errno.
    + split; [split|split; [|split]]; try discriminate.
      * intros [what E]. discriminate E.
      * intros [_ [E|E]]; discriminate E.
      * intros _. exists (speed_put baudRate (w_tty w)).
        split; [cbn; now rewrite <- app_assoc|].
        split.
        { rewrite speed_put_CBAUD, Z.land_comm.
          exact (valid_speed_in_CBAUD _ (u32_u32 baudRate) V). }
        split; [exact (cfgetispeed_speed_put _ _ V)|].
        split; [apply speed_put_fields|]. split; [apply speed_put_fields|].
        split; [reflexivity|].
        intros Hadopt. cbn [written with_tty w_tty].
        rewrite (cfgetispeed_adopted _ _ _ Hadopt).
        exact (cfgetispeed_speed_put _ _ V).
  - unfold outcome, world_after; cbn [fst snd].
    split; [split|split; [|split]]; try discriminate; try reflexivity.
    + intros _. split; [reflexivity | now left].
    + intros _. now exists ERR_MSG_UNSUPPORTED_BAUD.
Qed.

(** 115200 baud on the open sample object: behind the driver that adopts
    everything the rate is in force afterwards. *)
Lemma C9_witness :
  let r := SerialPortImpl.SetBaudRate B115200 sample_open sample_world_open in
  mIsOpen sample_open = true /\
  outcome r = Ret tt /\
  cfgetispeed (w_tty (world_after r)) = B115200.
Proof.
  intros r.
  destruct (C9_SetBaudRate_unsupported_iff sample_open sample_world_open
              B115200 eq_refl) as (_ & _ & _ & Hret).
  destruct (Hret eq_refl) as (t & _ & _ & _ & _ & _ & _ & Hline).
  split; [reflexivity|]. split; [reflexivity|].
  apply Hline. intros old requested. split; reflexivity.
Defined.

(** ** [IsDataAvailable] and the loop of [ReadByte] *)

Lemma poll_ends_polled h w k : poll_ends h (polled h w) k = poll_ends h w (S k).
Proof.
  unfold poll_ends, polled. now rewrite call_fails_enter, pending_enter.
Qed.

Lemma idle_polls_polled h w n :
  idle_polls h w (S n) -> idle_polls h (polled h w) n.
Proof.
  intros Hidle k Hk. rewrite poll_ends_polled. apply Hidle. lia.
Qed.

Lemma polls_trace h n : forall w,
  w_trace (polls h w n)
  = w_trace w ++ repeat (call_ioctl (mFileDescriptor h) FIONREAD) n.
Proof.
  induction n as [|n IH]; intros w; cbn [polls repeat].
  - now rewrite app_nil_r.
  - rewrite IH. unfold polled; cbn. now rewrite <- app_assoc.
Qed.

Lemma polls_S h n : forall w, polls h w (S n) = polled h (polls h w n).
Proof.
  induction n as [|n IH]; intros w; [reflexivity|].
  change (polls h w (S (S n))) with (polls h (polled h w) (S n)).
  now rewrite IH.
Qed.

Lemma polls_rx h n : forall w, w_rx (polls h w n) = pending w n.
Proof.
  induction n as [|n IH]; intros w; [reflexivity|].
  cbn [polls]. now rewrite IH.
Qed.

Lemma polls_call_fails h n : forall w k,
  call_fails (mFileDescriptor h) (polls h w n) k
  = call_fails (mFileDescriptor h) w (n + k).
Proof.
  induction n as [|n IH]; intros w k; [reflexivity|].
  cbn [polls]. rewrite IH. unfold polled. now rewrite call_fails_enter.
Qed.

Section Polling.
Variables (h : SerialPortImpl).
Hypothesis opened : mIsOpen h = true.

Lemma IsDataAvailable_runs w :
  SerialPortImpl.IsDataAvailable h w =
    if call_fails (mFileDescriptor h) w 0
    then (Throw (runtime_error, strerror_errno), h, polled h w)
    else (Ret (negb (is_empty (pending w 1))), h, polled h w).
Proof.
  unfold SerialPortImpl.IsDataAvailable, throw_spec.
  rewrite (guard_open h w opened).
  unfold field, sys, Sys.ioctl_FIONREAD; cbn.
  rewrite call_fails_0.
  destruct (faulty w || negb (is_live (mFileDescriptor h) w)); cbn;
    [reflexivity|].
  fold (is_empty (w_rx w ++ w_arrive w (now w))).
  change (w_rx w ++ w_arrive w (now w)) with (pending w 1).
  destruct (pending w 1); reflexivity.
Qed.

(** One turn of the loop. *)
Lemma wait_for_data_turn fuel w :
  SerialPortImpl.wait_for_data (S fuel) h w =
    if call_fails (mFileDescriptor h) w 0
    then (Throw (runtime_error, strerror_errno), h, polled h w)
    else if is_empty (pending w 1)
         then SerialPortImpl.wait_for_data fuel h (polled h w)
         else (Ret tt, h, polled h w).
Proof.
  cbn [SerialPortImpl.wait_for_data]. cbn [bind Monad_M].
  rewrite IsDataAvailable_runs.
  destruct (call_fails (mFileDescriptor h) w 0); [reflexivity|].
  destruct (is_empty (pending w 1)); reflexivity.
Qed.

Lemma poll_ends_0 w :
  poll_ends h w 0
  = call_fails (mFileDescriptor h) w 0 || negb (is_empty (pending w 1)).
Proof. reflexivity. Qed.

(** Turns that find nothing only use up fuel. *)
Lemma wait_for_data_idle n : forall fuel w,
  idle_polls h w n ->
  SerialPortImpl.wait_for_data (n + fuel) h w
  = SerialPortImpl.wait_for_data fuel h (polls h w n).
Proof.
  induction n as [|n IH]; intros fuel w Hidle; [reflexivity|].
  change (S n + fuel)%nat with (S (n + fuel)).
  rewrite wait_for_data_turn.
  pose proof (Hidle 0%nat ltac:(lia)) as H0. rewrite poll_ends_0 in H0.
  apply orb_false_elim in H0 as [Hf He]. apply negb_false_iff in He.
  rewrite Hf, He. cbn [polls].
  apply IH. now apply idle_polls_polled.
Qed.

(** With nothing but such turns the fuel runs out, whatever it was. *)
Lemma wait_for_data_spins fuel w :
  idle_polls h w fuel ->
  SerialPortImpl.wait_for_data fuel h w = (OutOfFuel, h, polls h w fuel).
Proof.
  intros Hidle. rewrite <- (Nat.add_0_r fuel) at 1.
  now rewrite (wait_for_data_idle fuel 0 w Hidle).
Qed.

(** The turn after [n] idle ones. *)
Lemma wait_for_data_last n fuel w :
  idle_polls h w n -> (n < fuel)%nat ->
  SerialPortImpl.wait_for_data fuel h w =
    if call_fails (mFileDescriptor h) w n
    then (Throw (runtime_error, strerror_errno), h, polls h w (S n))
    else if is_empty (pending w (S n))
         then SerialPortImpl.wait_for_data (fuel - S n) h (polls h w (S n))
         else (Ret tt, h, polls h w (S n)).
Proof.
  intros Hidle Hlt.
  replace fuel with (n + S (fuel - S n))%nat at 1 by lia.
  rewrite (wait_for_data_idle n _ w Hidle), wait_for_data_turn.
  rewrite polls_call_fails, Nat.add_0_r, polls_S.
  change (pending (polls h w n) 1) with (w_rx (polled h (polls h w n))).
  rewrite <- polls_S, polls_rx. reflexivity.
Qed.

End Polling.

(** ** [ReadByte] *)

Section Reading.
Variables (h : SerialPortImpl) (w : world).
Hypothesis opened : mIsOpen h = true.

Lemma ReadByte_spins fuel :
  idle_polls h w fuel ->
  SerialPortImpl.ReadByte fuel h w = (OutOfFuel, h, polls h w fuel).
Proof.
  intros Hidle. unfold SerialPortImpl.ReadByte, throw_spec.
  rewrite (guard_open h w opened). cbn [bind Monad_M].
  now rewrite (wait_for_data_spins h opened fuel w Hidle).
Qed.

Lemma ReadByte_poll_fails n fuel :
  idle_polls h w n -> (n < fuel)%nat ->
  call_fails (mFileDescriptor h) w n = true ->
  SerialPortImpl.ReadByte fuel h w
  = (Throw (runtime_error, strerror_errno), h, polls h w (S n)).
Proof.
  intros Hidle Hlt Hf. unfold SerialPortImpl.ReadByte, throw_spec.
  rewrite (guard_open h w opened). cbn [bind Monad_M].
  rewrite (wait_for_data_last h opened n fuel w Hidle Hlt), Hf.
  reflexivity.
Qed.

Lemma ReadByte_reads n fuel b q :
  idle_polls h w n -> (n < fuel)%nat ->
  call_fails (mFileDescriptor h) w n = false ->
  pending w (S n) = b :: q ->
  let w' := polls h w (S n) in
  SerialPortImpl.ReadByte fuel h w =
    if call_fails (mFileDescriptor h) w (S n)
    then (Throw (runtime_error, strerror_errno), h,
          enter (call_read (mFileDescriptor h) 1) w')
    else (Ret b, h,
          with_rx (enter (call_read (mFileDescriptor h) 1) w')
                  (q ++ w_arrive w' (now w'))).
Proof.
  intros Hidle Hlt Hf Hq w'. unfold SerialPortImpl.ReadByte, throw_spec.
  rewrite (guard_open h w opened). cbn [bind Monad_M].
  rewrite (wait_for_data_last h opened n fuel w Hidle Hlt), Hf, Hq.
  cbn [is_empty]. fold w'.
  unfold field, uninitialised, sys, Sys.read1.
  rewrite <- call_fails_0.
  replace (call_fails (mFileDescriptor h) w' 0)
    with (call_fails (mFileDescriptor h) w (S n))
    by (unfold w'; rewrite polls_call_fails; f_equal; lia).
  destruct (call_fails (mFileDescriptor h) w (S n)); [reflexivity|].
  cbn [enter w_rx]. unfold w' at 1. rewrite polls_rx, Hq. reflexivity.
Qed.

(** Within any number of turns, either one of them ends the loop or all
    of them are idle. *)
Lemma ends_or_idle n :
  (exists k, (k < n)%nat /\ idle_polls h w k /\ poll_ends h w k = true)
  \/ idle_polls h w n.
Proof.
  induction n as [|n [(k & Hk & Hidle & Hend)|Hidle]].
  - right. intros k Hk. lia.
  - left. exists k. repeat split; [lia | exact Hidle | exact Hend].
  - destruct (poll_ends h w n) eqn:E.
    + left. exists n. repeat split; [lia | exact Hidle | exact E].
    + right. intros k Hk. destruct (Nat.eq_dec k n) as [->|Hne];
        [exact E | apply Hidle; lia].
Qed.

(** [ReadByte] ends, given enough fuel, exactly when some turn ends the
    loop. *)
Lemma ReadByte_ends_iff :
  (exists fuel, outcome (SerialPortImpl.ReadByte fuel h w) <> OutOfFuel)
  <-> (exists n, poll_ends h w n = true).
Proof.
  split.
  - intros [fuel Hend].
    destruct (ends_or_idle fuel) as [(k & _ & _ & Hk)|Hidle];
      [now exists k|].
    rewrite (ReadByte_spins fuel Hidle) in Hend. now contradiction Hend.
  - intros [n Hn].
    destruct (ends_or_idle (S n)) as [(k & Hk & Hidle & Hend)|Hidle];
      [|rewrite (Hidle n) in Hn; [discriminate | lia]].
    exists (S k).
    destruct (call_fails (mFileDescriptor h) w k) eqn:F.
    + rewrite (ReadByte_poll_fails k (S k) Hidle (Nat.lt_succ_diag_r k) F).
      discriminate.
    + unfold poll_ends in Hend. rewrite F in Hend. cbn [orb] in Hend.
      destruct (pending w (S k)) as [|b q] eqn:Hq; [discriminate|].
      rewrite (ReadByte_reads k (S k) b q Hidle (Nat.lt_succ_diag_r k) F Hq).
      destruct (call_fails (mFileDescriptor h) w (S k)); discriminate.
Qed.

End Reading.

Lemma silent_queue k : forall t, queue_after silent_line [] t k = [].
Proof. induction k as [|k IH]; intros t; [reflexivity|]. cbn. apply IH. Qed.

(** C8, as stated, fails: [ReadByte] also ends when the query of the
    queue fails.  On the open sample object, with a line on which nothing
    ever arrives and the first system call failing, it throws at the first
    turn. *)
Lemma C8_counterexample :
  ~ (forall (h : SerialPortImpl) (w : world),
       mIsOpen h = true ->
       ((exists fuel, outcome (SerialPortImpl.ReadByte fuel h w) <> OutOfFuel)
        <-> (exists n, is_empty (pending w (S n)) = false))).
Proof.
  intros claim.
  destruct (claim sample_open (with_fault sample_world_open (fault_at 5))
                  eq_refl) as [Hdata _].
  destruct Hdata as [n Hn].
  - exists 1%nat. vm_compute. discriminate.
  - unfold pending in Hn. cbn [with_fault w_arrive w_rx] in Hn.
    change (w_arrive sample_world_open) with silent_line in Hn.
    change (w_rx sample_world_open) with (@nil Z) in Hn.
    rewrite silent_queue in Hn. discriminate Hn.
Qed.

(** C8, amended.  On an open object [ReadByte] makes one query of the
    queue after the other, and no other system call, until a query fails or
    finds the queue not empty.  If a query fails it throws [runtime_error]
    and reads nothing.  If a query finds bytes it makes one [read] of one
    byte and returns the first byte of the queue, or throws
    [runtime_error] if the [read] fails.  As long as the queries find
    nothing it goes on: whatever the fuel, all of it is spent on queries.
    So it ends exactly when some query fails or finds bytes. *)
Theorem C8_ReadByte_polls_then_reads_once :
  forall (h : SerialPortImpl) (w : world),
    mIsOpen h = true ->
    let fd := mFileDescriptor h in
    let query := call_ioctl fd FIONREAD in
    let run fuel := SerialPortImpl.ReadByte fuel h w in
    (forall n fuel b q,
        idle_polls h w n -> (n < fuel)%nat ->
        call_fails fd w n = false -> pending w (S n) = b :: q ->
        w_trace (world_after (run fuel))
        = w_trace w ++ repeat query (S n) ++ [call_read fd 1] /\
        (call_fails fd w (S n) = false -> outcome (run fuel) = Ret b) /\
        (call_fails fd w (S n) = true ->
           outcome (run fuel) = Throw (runtime_error, strerror_errno))) /\
    (forall n fuel,
        idle_polls h w n -> (n < fuel)%nat -> call_fails fd w n = true ->
        outcome (run fuel) = Throw (runtime_error, strerror_errno) /\
        w_trace (world_after (run fuel)) = w_trace w ++ repeat query (S n)) /\
    (forall fuel,
        idle_polls h w fuel ->
        outcome (run fuel) = OutOfFuel /\
        w_trace (world_after (run fuel)) = w_trace w ++ repeat query fuel) /\
    ((exists fuel, outcome (run fuel) <> OutOfFuel)
     <-> (exists n, poll_ends h w n = true)).
Proof.
  intros h w Ho fd query run. subst run query fd. cbv beta.
  split; [|split; [|split]].
  - intros n fuel b q Hidle Hlt Hf Hq.
    rewrite (ReadByte_reads h w Ho n fuel b q Hidle Hlt Hf Hq).
    destruct (call_fails (mFileDescriptor h) w (S n));
      unfold outcome, world_after; cbn [fst snd];
      (split; [cbn [enter with_rx w_trace]; rewrite polls_trace;
               now rewrite <- app_assoc|]);
      split; intros E; try discriminate E; reflexivity.
  - intros n fuel Hidle Hlt Hf.
    rewrite (ReadByte_poll_fails h w Ho n fuel Hidle Hlt Hf).
    split; [reflexivity|]. apply polls_trace.
  - intros fuel Hidle. rewrite (ReadByte_spins h w Ho fuel Hidle).
    split; [reflexivity|]. apply polls_trace.
  - exact (ReadByte_ends_iff h w Ho).
Qed.

(** The open sample object on the line where one byte arrives: three idle
    turns, a fourth that finds the byte, one [read]. *)
Lemma C8_witness :
  let w := with_arrive sample_world_open one_byte_line in
  let r := SerialPortImpl.ReadByte 10 sample_open w in
  mIsOpen sample_open = true /\
  outcome r = Ret 65 /\
  w_trace (world_after r)
  = w_trace w ++ repeat (call_ioctl 3 FIONREAD) 4 ++ [call_read 3 1].
Proof.
  intros w r.
  destruct (C8_ReadByte_polls_then_reads_once sample_open w eq_refl)
    as (Hreads & _).
  assert (Hidle : idle_polls sample_open w 3).
  { intros k Hk. destruct k as [|[|[|k]]]; [reflexivity..|lia]. }
  destruct (Hreads 3%nat 10%nat 65 [] Hidle ltac:(lia) eq_refl eq_refl)
    as (Htrace & Hret & _).
  split; [reflexivity|]. split; [exact (Hret eq_refl) | exact Htrace].
Defined.

(** ** A failed [Open], and the destructors *)

Lemma destructor_closed h w :
  mIsOpen h = false ->
  SerialPortImpl.destructor h w = (Ret tt, h, w) /\
  SerialPort.destructor h w = (Ret tt, h, w).
Proof.
  intros Hc.
  unfold SerialPort.destructor, SerialPortImpl.destructor, throw_spec,
    SerialPort.IsOpen, SerialPortImpl.IsOpen, field; cbn.
  rewrite Hc. cbn. rewrite Hc. split; reflexivity.
Qed.

(** When [open] has returned a descriptor and a later call of [Open]
    fails, the object is left closed with the descriptor in it and open in
    the process, and the destructors, which look at [mIsOpen], do not close
    it. *)
Lemma Open_failure_keeps_descriptor h w :
  mIsOpen h = false ->
  w_fault w (now w) = false ->
  Open_calls_succeed w = false ->
  let r := SerialPortImpl.Open h w in
  let fd := lowest_free (w_live w) in
  outcome r = Throw (OpenFailed, strerror_errno) /\
  mIsOpen (object_after r) = false /\
  mFileDescriptor (object_after r) = fd /\
  is_live fd (world_after r) = true /\
  SerialPort.destructor (object_after r) (world_after r)
  = (Ret tt, object_after r, world_after r).
Proof.
  intros Hc F0 Hfail r fd. subst r.
  rewrite (Open_closed h w Hc). unfold Open_calls_succeed in Hfail.
  rewrite F0 in *. cbn [negb andb] in Hfail.
  destruct (w_fault w (1 + now w)%nat);
    [|destruct (w_fault w (2 + now w)%nat);
      [|destruct (w_fault w (4 + now w)%nat); [|discriminate Hfail]]];
    unfold outcome, object_after, world_after; cbn [fst snd];
    (split; [reflexivity|]); (split; [exact Hc|]); (split; [reflexivity|]);
    (split; [unfold is_live; cbn; now rewrite Z.eqb_refl|]);
    apply destructor_closed; exact Hc.
Qed.

(** The destructor of the public class on an open object closes the
    descriptor the object holds. *)
Lemma destructor_open_closes h w :
  mIsOpen h = true ->
  let r := SerialPort.destructor h w in
  outcome r = Ret tt /\
  mIsOpen (object_after r) = false /\
  is_live (mFileDescriptor h) (world_after r) = false.
Proof.
  intros Ho r.
  destruct (Close_open h w Ho) as (Hr & Hobj & _ & Hlive & _).
  destruct (SerialPortImpl.Close h w) as [[res h'] w'] eqn:E.
  unfold outcome, object_after, world_after in Hr, Hobj, Hlive.
  cbn [fst snd] in Hr, Hobj, Hlive. subst res.
  assert (Hc : mIsOpen h' = false) by (now rewrite Hobj).
  assert (Er : r = (Ret tt, h', w')).
  { subst r. unfold SerialPort.destructor, throw_spec at 1.
    cbn [bind Monad_M].
    unfold SerialPort.IsOpen, SerialPortImpl.IsOpen at 1, field at 1.
    rewrite Ho. unfold SerialPort.Close.
    rewrite (throw_spec_Ret _ _ _ _ _ _ _ E).
    now rewrite (proj1 (destructor_closed h' w' Hc)). }
  rewrite Er. unfold outcome, object_after, world_after; cbn [fst snd].
  split; [reflexivity|]. split; [exact Hc|].
  unfold is_live. rewrite Hlive. apply is_live_after_close.
Qed.

(** C2.  The sample object, the fetch of the settings failing in [Open]:
    [Open] throws [OpenFailed]; the descriptor 3 that [open] returned, which
    was not open before, is open in the process and is in an object that
    says it is closed; the destructor leaves it open.  A second [Open] on
    the same object succeeds with descriptor 4, and [Close] after it closes
    4 and not 3. *)
Theorem C2_failed_Open_leaves_descriptor_open :
  let w := with_fault sample_world (fault_at 1) in
  let r1 := SerialPortImpl.Open sample_closed w in
  let r2 := SerialPort.destructor (object_after r1) (world_after r1) in
  let r3 := SerialPortImpl.Open (object_after r1) (world_after r1) in
  let r4 := SerialPortImpl.Close (object_after r3) (world_after r3) in
  (is_live 3 w = false /\
   outcome r1 = Throw (OpenFailed, strerror_errno) /\
   mIsOpen (object_after r1) = false /\
   mFileDescriptor (object_after r1) = 3 /\
   is_live 3 (world_after r1) = true) /\
  (outcome r2 = Ret tt /\
   w_trace (world_after r2) = w_trace (world_after r1) /\
   is_live 3 (world_after r2) = true) /\
  (outcome r3 = Ret tt /\
   mFileDescriptor (object_after r3) = 4 /\
   is_live 3 (world_after r3) = true /\
   is_live 4 (world_after r3) = true) /\
  (outcome r4 = Ret tt /\
   is_live 4 (world_after r4) = false /\
   is_live 3 (world_after r4) = true).
Proof. vm_compute. repeat split. Qed.

(** ** The public [Open] *)

(** The settings each of the four mutators called by the public [Open]
    writes on the sample: eight bits, no parity, one stop bit, no flow
    control, asked for together with 115200 baud. *)
Lemma C1_sample_settings :
  let t0 := baseline_of sample_tty in
  let t1 := char_size_put CHAR_SIZE_8 t0 in
  let t2 := @parity_put sample_h 2 t1 in
  let t3 := @stop_bits_put sample_h 0 t2 in
  let t4 := @flow_control_put sample_h 1 t3 in
  c_ispeed t4 = B9600 /\ c_ospeed t4 = B9600.
Proof. vm_compute. split; reflexivity. Qed.

(** C1.  The value of [baudRate] has no part in what the public [Open]
    does.  On the sample, asked for 115200 baud, it makes the five system
    calls of [Open()], then a fetch and a write for the character size, for
    the parity, for the number of stop bits and for the flow control, in
    that order, and returns normally; none of the writes carries another
    rate than the 9600 baud found, and the line is at 9600 baud
    afterwards. *)
Theorem C1_public_Open_never_sets_baud_rate :
  (forall (hdr : SerialPort_h) (b1 b2 charSize parityType stopBits flowControl : Z)
          (h : SerialPortImpl) (w : world),
      SerialPort.Open b1 charSize parityType stopBits flowControl h w
      = SerialPort.Open b2 charSize parityType stopBits flowControl h w) /\
  (let r := @SerialPort.Open sample_h B115200 CHAR_SIZE_8 2 0 1
                             sample_closed sample_world in
   let t0 := baseline_of sample_tty in
   let t1 := char_size_put CHAR_SIZE_8 t0 in
   let t2 := @parity_put sample_h 2 t1 in
   let t3 := @stop_bits_put sample_h 0 t2 in
   let t4 := @flow_control_put sample_h 1 t3 in
   outcome r = Ret tt /\
   w_trace (world_after r)
   = [call_open "/dev/ttyS0" open_flags; call_tcgetattr 3;
      call_tcsetattr 3 TCSANOW t0; call_getpid; call_fcntl 3 F_SETOWN 4242;
      call_tcgetattr 3; call_tcsetattr 3 TCSANOW t1;
      call_tcgetattr 3; call_tcsetattr 3 TCSANOW t2;
      call_tcgetattr 3; call_tcsetattr 3 TCSANOW t3;
      call_tcgetattr 3; call_tcsetattr 3 TCSANOW t4] /\
   w_tty (world_after r) = t4 /\
   cfgetispeed (w_tty (world_after r)) = B9600 /\
   B9600 <> B115200).
Proof.
  split; [reflexivity|].
  vm_compute. repeat split. discriminate.
Qed.

(** * Further properties of the two classes *)

(** ** [Open] on an open object, and [open] failing *)

(** X1.  [Open] on an open object throws [AlreadyOpen] before any system
    call: object and world are as they were.  So does the public [Open],
    whatever its arguments. *)
Theorem X1_Open_on_open_object_throws_AlreadyOpen :
  forall (hdr : SerialPort_h) (h : SerialPortImpl) (w : world)
         (baudRate charSize parityType stopBits flowControl : Z),
    mIsOpen h = true ->
    SerialPortImpl.Open h w
    = (Throw (AlreadyOpen, ERR_MSG_PORT_ALREADY_OPEN), h, w) /\
    SerialPort.Open baudRate charSize parityType stopBits flowControl h w
    = (Throw (AlreadyOpen, ERR_MSG_PORT_ALREADY_OPEN), h, w).
Proof.
  intros hdr h w b cs p sb fc Ho.
  pose proof (Open_already_open h w Ho) as E.
  split; [exact E|].
  unfold SerialPort.Open. apply throw_spec_listed; [|reflexivity].
  now apply bind_Throw.
Qed.

Lemma X1_witness :
  mIsOpen sample_open = true /\
  @SerialPort.Open sample_h B9600 CHAR_SIZE_8 2 0 1 sample_open sample_world_open
  = (Throw (AlreadyOpen, ERR_MSG_PORT_ALREADY_OPEN), sample_open,
     sample_world_open).
Proof.
  split; [reflexivity|].
  apply (X1_Open_on_open_object_throws_AlreadyOpen sample_h sample_open
           sample_world_open B9600 CHAR_SIZE_8 2 0 1 eq_refl).
Defined.

(** X2.  When [open] itself fails, [Open] on a closed object throws
    [OpenFailed] after that one call: the object stays closed and holds
    -1 as its descriptor, no descriptor was added to the process and the
    settings of the device are untouched. *)
Theorem X2_Open_fails_at_open :
  forall (h : SerialPortImpl) (w : world),
    mIsOpen h = false ->
    w_fault w (now w) = true ->
    let r := SerialPortImpl.Open h w in
    outcome r = Throw (OpenFailed, strerror_errno) /\
    mIsOpen (object_after r) = false /\
    mFileDescriptor (object_after r) = -1 /\
    mOldPortSettings (object_after r) = mOldPortSettings h /\
    w_trace (world_after r)
    = w_trace w ++ [call_open (mSerialPortName h)
                              (Z.lor (Z.lor O_RDWR O_NOCTTY) O_NONBLOCK)] /\
    w_live (world_after r) = w_live w /\
    w_tty (world_after r) = w_tty w.
Proof.
  intros h w Hc F r. subst r. rewrite (Open_closed h w Hc), F.
  unfold outcome, object_after, world_after; cbn [fst snd].
  repeat split. exact Hc.
Qed.

Lemma X2_witness :
  let r := SerialPortImpl.Open sample_closed
             (with_fault sample_world (fault_at 0)) in
  outcome r = Throw (OpenFailed, strerror_errno) /\
  mFileDescriptor (object_after r) = -1 /\
  w_live (world_after r) = [0; 1; 2].
Proof.
  intros r.
  destruct (X2_Open_fails_at_open sample_closed
              (with_fault sample_world (fault_at 0)) eq_refl eq_refl)
    as (Hr & _ & Hfd & _ & _ & Hlive & _).
  split; [exact Hr|]. split; [exact Hfd | exact Hlive].
Defined.

(** ** [Open] then [Close] *)

(** The descriptor [open] hands out is not one that is open already. *)
Lemma lowest_free_from_spec live fuel : forall c,
  let r := lowest_free_from live (Z.of_nat c) fuel in
  existsb (Z.eqb r) live = false \/
  (r = Z.of_nat (c + fuel) /\
   forall i, (c <= i < c + fuel)%nat -> In (Z.of_nat i) live).
Proof.
  induction fuel as [|n IH]; intros c; cbn [lowest_free_from].
  - right. split; [f_equal; lia | intros i Hi; lia].
  - destruct (existsb (Z.eqb (Z.of_nat c)) live) eqn:E; [|now left].
    replace (Z.of_nat c + 1) with (Z.of_nat (S c)) by lia.
    destruct (IH (S c)) as [Hfree|[Hr Hall]]; [now left|].
    right. split; [rewrite Hr; f_equal; lia|].
    intros i Hi. destruct (Nat.eq_dec i c) as [->|Hne].
    + apply existsb_exists in E as (x & Hx & Hxc).
      apply Z.eqb_eq in Hxc. now subst x.
    + apply Hall. lia.
Qed.

Lemma lowest_free_fresh live :
  existsb (Z.eqb (lowest_free live)) live = false.
Proof.
  unfold lowest_free.
  destruct (lowest_free_from_spec live (length live) 0) as [Hfree|[Hr Hall]];
    [exact Hfree|].
  cbn [Z.of_nat] in Hr. rewrite Hr. cbn [Nat.add].
  destruct (existsb (Z.eqb (Z.of_nat (length live))) live) eqn:E;
    [|reflexivity].
  exfalso.
  apply existsb_exists in E as (x & Hx & Hxn). apply Z.eqb_eq in Hxn. subst x.
  assert (Hincl : incl (map Z.of_nat (seq 0 (S (length live)))) live).
  { intros z Hz. apply in_map_iff in Hz as (i & <- & Hi).
    apply in_seq in Hi. destruct (Nat.eq_dec i (length live)) as [->|Hne];
      [exact Hx | apply Hall; lia]. }
  assert (Hnodup : NoDup (map Z.of_nat (seq 0 (S (length live))))).
  { apply Finite.Injective_map_NoDup; [|apply seq_NoDup].
    intros a b Hab. now apply Nat2Z.inj. }
  pose proof (NoDup_incl_length Hnodup Hincl) as Hlen.
  rewrite length_map, length_seq in Hlen. lia.
Qed.

(** X3.  [Open] on a closed object followed by [Close], when the calls of
    [Open] and the write of [Close] go through and the driver adopts what
    it is given: both return normally, [IsOpen] says true in between and
    false afterwards, the device has the settings it had before [Open],
    and the descriptors open in the process are those open before. *)
Theorem X3_Open_then_Close_restores :
  forall (h : SerialPortImpl) (w : world),
    mIsOpen h = false ->
    Open_calls_succeed w = true ->
    w_fault w (5 + now w)%nat = false ->
    adopts_all w ->
    let r1 := SerialPortImpl.Open h w in
    let r2 := SerialPortImpl.Close (object_after r1) (world_after r1) in
    outcome r1 = Ret tt /\
    outcome (SerialPortImpl.IsOpen (object_after r1) (world_after r1))
    = Ret true /\
    outcome r2 = Ret tt /\
    outcome (SerialPortImpl.IsOpen (object_after r2) (world_after r2))
    = Ret false /\
    w_tty (world_after r2) = w_tty w /\
    (forall d, is_live d (world_after r2) = is_live d w) /\
    length (w_trace (world_after r2)) = (length (w_trace w) + 7)%nat.
Proof.
  intros h w Hc Hok F5 Hadopt r1 r2.
  pose proof (Open_closed h w Hc) as E. cbv zeta in E.
  unfold Open_calls_succeed in Hok.
  destruct (w_fault w (now w)); [discriminate|].
  destruct (w_fault w (1 + now w)%nat); [discriminate|].
  destruct (w_fault w (2 + now w)%nat); [discriminate|].
  destruct (w_fault w (4 + now w)%nat); [discriminate|].
  fold r1 in E.
  set (fd := lowest_free (w_live w)) in *.
  set (h5 := flagged (having_saved (holding h fd) (w_tty w)) true) in *.
  assert (Ho5 : mIsOpen h5 = true) by reflexivity.
  match type of E with _ = (_, _, ?x) => set (w4 := x) in * end.
  assert (Er2 : r2 = SerialPortImpl.Close h5 w4)
    by (unfold r2; rewrite E; reflexivity).
  destruct (Close_open h5 w4 Ho5) as (Hr2 & Hobj2 & Htr2 & Hlive2 & Htty2).
  rewrite <- Er2 in Hr2, Hobj2, Htr2, Hlive2, Htty2.
  split; [now rewrite E|].
  split; [now rewrite E|].
  split; [exact Hr2|].
  split; [rewrite Hobj2; reflexivity|].
  split; [|split].
  - rewrite Htty2. unfold call_fails, is_live. cbn. rewrite Z.eqb_refl.
    change (w_fault w (S (S (S (S (S (w_clock w)))))))
      with (w_fault w (5 + now w)%nat).
    rewrite F5. cbn. apply Hadopt.
  - intros d. unfold is_live at 1. rewrite Hlive2.
    change (w_live w4) with (fd :: w_live w).
    change (mFileDescriptor h5) with fd.
    destruct (Z.eq_dec d fd) as [->|Hne].
    + rewrite is_live_after_close. symmetry. apply lowest_free_fresh.
    + rewrite (is_live_other_after_close fd d _ Hne). cbn [existsb].
      apply Z.eqb_neq in Hne. now rewrite Hne.
  - rewrite Htr2. unfold w4. cbn [w_trace enter with_live with_tty].
    rewrite !length_app. cbn [length]. lia.
Qed.

Lemma X3_witness :
  let r1 := SerialPortImpl.Open sample_closed sample_world in
  let r2 := SerialPortImpl.Close (object_after r1) (world_after r1) in
  outcome r2 = Ret tt /\
  w_tty (world_after r2) = sample_tty /\
  is_live 3 (world_after r2) = false.
Proof.
  intros r1 r2.
  assert (Hadopt : adopts_all sample_world) by (intros old requested; reflexivity).
  destruct (X3_Open_then_Close_restores sample_closed sample_world
              eq_refl eq_refl eq_refl Hadopt)
    as (_ & _ & Hr2 & _ & Htty & Hlive & _).
  split; [exact Hr2|]. split; [exact Htty | exact (Hlive 3)].
Defined.

(** ** The destructors *)

Lemma destructors_on_open h w :
  mIsOpen h = true ->
  SerialPort.destructor h w = SerialPortImpl.Close h w /\
  SerialPortImpl.destructor h w = SerialPortImpl.Close h w.
Proof.
  intros Ho.
  destruct (Close_open h w Ho) as (Hr & Hobj & _).
  destruct (SerialPortImpl.Close h w) as [[res h'] w'] eqn:E.
  unfold outcome, object_after in Hr, Hobj. cbn [fst snd] in Hr, Hobj.
  subst res.
  assert (Hc : mIsOpen h' = false) by (now rewrite Hobj).
  split.
  - unfold SerialPort.destructor, throw_spec at 1. cbn [bind Monad_M].
    unfold SerialPort.IsOpen, SerialPortImpl.IsOpen at 1, field at 1.
    rewrite Ho. unfold SerialPort.Close.
    rewrite (throw_spec_Ret _ _ _ _ _ _ _ E).
    now rewrite (proj1 (destructor_closed h' w' Hc)).
  - unfold SerialPortImpl.destructor. cbn [bind Monad_M].
    unfold SerialPortImpl.IsOpen at 1, field at 1. now rewrite Ho.
Qed.

(** X4.  Both destructors return normally on every object.  On an open
    object they do what one [Close] does: the saved settings are written
    back, the descriptor is closed, in two system calls, the destructor of
    the implementation finding the object closed by the time the public one
    reaches it.  On a closed object they make no system call. *)
Theorem X4_destructors_close_once_and_return :
  forall (h : SerialPortImpl) (w : world),
    let fd := mFileDescriptor h in
    (outcome (SerialPort.destructor h w) = Ret tt /\
     outcome (SerialPortImpl.destructor h w) = Ret tt) /\
    (mIsOpen h = true ->
       let r := SerialPort.destructor h w in
       r = SerialPortImpl.destructor h w /\
       mIsOpen (object_after r) = false /\
       w_trace (world_after r)
       = w_trace w ++ [call_tcsetattr fd TCSANOW (mOldPortSettings h);
                       call_close fd] /\
       is_live fd (world_after r) = false) /\
    (mIsOpen h = false ->
       SerialPort.destructor h w = (Ret tt, h, w) /\
       SerialPortImpl.destructor h w = (Ret tt, h, w)).
Proof.
  intros h w fd.
  assert (Hopen : mIsOpen h = true ->
            let r := SerialPort.destructor h w in
            r = SerialPortImpl.destructor h w /\
            outcome r = Ret tt /\
            mIsOpen (object_after r) = false /\
            w_trace (world_after r)
            = w_trace w ++ [call_tcsetattr fd TCSANOW (mOldPortSettings h);
                            call_close fd] /\
            is_live fd (world_after r) = false).
  { intros Ho r. subst r.
    destruct (destructors_on_open h w Ho) as (Ep & Ei). rewrite Ep, Ei.
    destruct (Close_open h w Ho) as (Hr & Hobj & Htr & Hlive & _).
    split; [reflexivity|]. split; [exact Hr|].
    split; [now rewrite Hobj|]. split; [exact Htr|].
    unfold is_live. rewrite Hlive. apply is_live_after_close. }
  split; [|split].
  - destruct (mIsOpen h) eqn:Ho.
    + destruct (Hopen eq_refl) as (E & Hr & _). cbv zeta in E.
      split; [exact Hr | now rewrite <- E].
    + destruct (destructor_closed h w Ho) as (Ei & Ep).
      now rewrite Ei, Ep.
  - intros Ho. destruct (Hopen Ho) as (E & _ & Hrest). split; assumption.
  - intros Hc. destruct (destructor_closed h w Hc) as (Ei & Ep).
    split; assumption.
Qed.

Lemma X4_witness :
  let r := SerialPort.destructor sample_open sample_world_open in
  mIsOpen sample_open = true /\
  outcome r = Ret tt /\
  is_live 3 (world_after r) = false.
Proof.
  intros r.
  destruct (X4_destructors_close_once_and_return sample_open sample_world_open)
    as ((Hr & _) & Hopen & _).
  destruct (Hopen eq_refl) as (_ & _ & _ & Hlive).
  split; [reflexivity|]. split; [exact Hr | exact Hlive].
Defined.

(** ** What only [Open] and [Close] change *)

Section Keeps.

Lemma keeps_ret {A : Type} (a : A) : keeps_handle (ret a).
Proof. intros h w. split; reflexivity. Qed.

Lemma keeps_throw {A : Type} c what : keeps_handle (@throw A c what).
Proof. intros h w. split; reflexivity. Qed.

Lemma keeps_out_of_fuel {A : Type} : keeps_handle (@out_of_fuel A).
Proof. intros h w. split; reflexivity. Qed.

Lemma keeps_field {A : Type} (f : SerialPortImpl -> A) : keeps_handle (field f).
Proof. intros h w. split; reflexivity. Qed.

Lemma keeps_uninitialised : keeps_handle uninitialised.
Proof. intros h w. split; reflexivity. Qed.

Lemma keeps_sys {A : Type} (c : OS A) :
  (forall w, w_live (snd (c w)) = w_live w) -> keeps_handle (sys c).
Proof.
  intros Hc h w. unfold sys, object_after, world_after.
  specialize (Hc w). destruct (c w) as [a w']. split; [reflexivity | exact Hc].
Qed.

Lemma keeps_bind {A B : Type} (m : M A) (k : A -> M B) :
  keeps_handle m -> (forall a, keeps_handle (k a)) ->
  keeps_handle (bind m k).
Proof.
  intros Hm Hk h w. destruct (Hm h w) as (Hh & Hl).
  unfold object_after, world_after in *. cbn [bind Monad_M].
  destruct (m h w) as [[r h'] w']. cbn [fst snd] in Hh, Hl. subst h'.
  destruct r as [a| | |]; cbn [fst snd]; try (split; [reflexivity | exact Hl]).
  destruct (Hk a h w') as (Hh' & Hl'). unfold object_after, world_after in *.
  split; [exact Hh' | now rewrite Hl'].
Qed.

Lemma keeps_throw_spec {A : Type} spec (body : M A) :
  keeps_handle body -> keeps_handle (throw_spec spec body).
Proof.
  intros Hb h w. destruct (Hb h w) as (Hh & Hl).
  unfold object_after, world_after, throw_spec in *.
  destruct (body h w) as [[r h'] w']. cbn [fst snd] in Hh, Hl.
  destruct r; try (split; assumption).
  destruct (listed (fst e) spec); split; assumption.
Qed.

Lemma tcgetattr_keeps_live fd w : w_live (snd (Sys.tcgetattr fd w)) = w_live w.
Proof. unfold Sys.tcgetattr. destruct (_ || _); reflexivity. Qed.

Lemma tcsetattr_keeps_live fd a t w :
  w_live (snd (Sys.tcsetattr fd a t w)) = w_live w.
Proof. unfold Sys.tcsetattr. destruct (_ || _); reflexivity. Qed.

Lemma ioctl_keeps_live fd n w :
  w_live (snd (Sys.ioctl_FIONREAD fd n w)) = w_live w.
Proof. unfold Sys.ioctl_FIONREAD. destruct (_ || _); reflexivity. Qed.

Lemma read1_keeps_live fd b w : w_live (snd (Sys.read1 fd b w)) = w_live w.
Proof.
  unfold Sys.read1. destruct (_ || _); [reflexivity|].
  destruct (w_rx _); reflexivity.
Qed.

Lemma write1_keeps_live fd b w : w_live (snd (Sys.write1 fd b w)) = w_live w.
Proof. unfold Sys.write1. destruct (_ || _); reflexivity. Qed.

End Keeps.

Ltac keeps_step :=
  lazymatch goal with
  | |- keeps_handle (throw_spec _ _) => apply keeps_throw_spec
  | |- keeps_handle (bind _ _) => apply keeps_bind; [|intros ?]
  | |- keeps_handle (ret _) => apply keeps_ret
  | |- keeps_handle (throw _ _) => apply keeps_throw
  | |- keeps_handle out_of_fuel => apply keeps_out_of_fuel
  | |- keeps_handle (field _) => apply keeps_field
  | |- keeps_handle uninitialised => apply keeps_uninitialised
  | |- keeps_handle SerialPortImpl.IsOpen => apply keeps_field
  | |- keeps_handle (sys (Sys.tcgetattr _)) =>
      apply keeps_sys; intros; apply tcgetattr_keeps_live
  | |- keeps_handle (sys (Sys.tcsetattr _ _ _)) =>
      apply keeps_sys; intros; apply tcsetattr_keeps_live
  | |- keeps_handle (sys (Sys.ioctl_FIONREAD _ _)) =>
      apply keeps_sys; intros; apply ioctl_keeps_live
  | |- keeps_handle (sys (Sys.read1 _ _)) =>
      apply keeps_sys; intros; apply read1_keeps_live
  | |- keeps_handle (sys (Sys.write1 _ _)) =>
      apply keeps_sys; intros; apply write1_keeps_live
  | |- keeps_handle (if ?b then _ else _) => destruct b
  | |- keeps_handle (match ?x with _ => _ end) => destruct x
  end.

Ltac keeps := autounfold with methods; repeat keeps_step.

Lemma keeps_IsDataAvailable : keeps_handle SerialPortImpl.IsDataAvailable.
Proof. keeps. Qed.

Lemma keeps_wait_for_data fuel : keeps_handle (SerialPortImpl.wait_for_data fuel).
Proof.
  induction fuel as [|fuel IH]; cbn [SerialPortImpl.wait_for_data].
  - apply keeps_out_of_fuel.
  - apply keeps_bind; [apply keeps_IsDataAvailable|]. intros a.
    destruct (negb a); [exact IH | apply keeps_ret].
Qed.

(** X5.  No accessor, mutator or transfer method changes the object (its
    flag, its descriptor, its saved settings) or the descriptors open in
    the process, however it ends: that is left to [Open] and [Close]. *)
Theorem X5_only_Open_and_Close_change_the_handle :
  forall (hdr : SerialPort_h) (arg : Z) (fuel : nat),
    (keeps_handle (SerialPortImpl.SetBaudRate arg) /\
     keeps_handle SerialPortImpl.GetBaudRate /\
     keeps_handle (SerialPortImpl.SetCharSize arg) /\
     keeps_handle SerialPortImpl.GetCharSize /\
     keeps_handle (SerialPortImpl.SetParity arg) /\
     keeps_handle SerialPortImpl.GetParity /\
     keeps_handle (SerialPortImpl.SetNumOfStopBits arg) /\
     keeps_handle SerialPortImpl.GetNumOfStopBits /\
     keeps_handle (SerialPortImpl.SetFlowControl arg) /\
     keeps_handle SerialPortImpl.GetFlowControl /\
     keeps_handle SerialPortImpl.IsDataAvailable /\
     keeps_handle (SerialPortImpl.ReadByte fuel) /\
     keeps_handle (SerialPortImpl.WriteByte arg) /\
     keeps_handle SerialPortImpl.IsOpen) /\
    (keeps_handle (SerialPort.SetBaudRate arg) /\
     keeps_handle SerialPort.GetBaudRate /\
     keeps_handle (SerialPort.SetCharSize arg) /\
     keeps_handle SerialPort.GetCharSize /\
     keeps_handle (SerialPort.SetParity arg) /\
     keeps_handle SerialPort.GetParity /\
     keeps_handle (SerialPort.SetNumOfStopBits arg) /\
     keeps_handle SerialPort.GetNumOfStopBits /\
     keeps_handle (SerialPort.SetFlowControl arg) /\
     keeps_handle SerialPort.GetFlowControl /\
     keeps_handle SerialPort.IsDataAvailable /\
     keeps_handle (SerialPort.ReadByte fuel) /\
     keeps_handle (SerialPort.WriteByte arg) /\
     keeps_handle SerialPort.IsOpen).
Proof.
  intros hdr arg fuel.
  assert (Hread : keeps_handle (SerialPortImpl.ReadByte fuel)).
  { unfold SerialPortImpl.ReadByte. apply keeps_throw_spec.
    apply keeps_bind; [apply keeps_field|]. intros is_open.
    destruct (negb is_open); [apply keeps_throw|].
    apply keeps_bind; [apply keeps_wait_for_data|]. intros _.
    repeat keeps_step. }
  repeat apply conj;
    try exact Hread;
    try (unfold SerialPort.ReadByte; apply keeps_throw_spec; exact Hread);
    try (unfold SerialPort.IsOpen; apply keeps_field);
    keeps.
Qed.

(** ** The public class and the implementation class *)

Lemma throw_spec_idem {A : Type} spec spec' (body : M A) h w :
  (forall c, listed c spec' = true -> listed c spec = true) ->
  throw_spec spec (throw_spec spec' body) h w = throw_spec spec' body h w.
Proof.
  intros Hsub. unfold throw_spec.
  destruct (body h w) as [[r h'] w']. destruct r as [a|e|e|]; try reflexivity.
  destruct (listed (fst e) spec') eqn:L; [|reflexivity].
  now rewrite (Hsub _ L).
Qed.

(** X6.  Where the public method declares the same exceptions as the
    method of the implementation it calls, the two do the same on every
    object and in every world: [Close], [GetBaudRate], [GetParity],
    [SetNumOfStopBits], [GetNumOfStopBits], [SetFlowControl],
    [GetFlowControl], [ReadByte], [WriteByte], and [IsOpen]. *)
Theorem X6_public_methods_with_same_specification_delegate :
  forall (hdr : SerialPort_h) (h : SerialPortImpl) (w : world)
         (arg : Z) (fuel : nat),
    SerialPort.Close h w = SerialPortImpl.Close h w /\
    SerialPort.GetBaudRate h w = SerialPortImpl.GetBaudRate h w /\
    SerialPort.GetParity h w = SerialPortImpl.GetParity h w /\
    SerialPort.SetNumOfStopBits arg h w = SerialPortImpl.SetNumOfStopBits arg h w /\
    SerialPort.GetNumOfStopBits h w = SerialPortImpl.GetNumOfStopBits h w /\
    SerialPort.SetFlowControl arg h w = SerialPortImpl.SetFlowControl arg h w /\
    SerialPort.GetFlowControl h w = SerialPortImpl.GetFlowControl h w /\
    SerialPort.ReadByte fuel h w = SerialPortImpl.ReadByte fuel h w /\
    SerialPort.WriteByte arg h w = SerialPortImpl.WriteByte arg h w /\
    SerialPort.IsOpen h w = SerialPortImpl.IsOpen h w.
Proof.
  intros hdr h w arg fuel.
  repeat apply conj; try reflexivity;
    apply throw_spec_idem; intros c L; exact L.
Qed.

Section FirstCallFails.
Context {hdr : SerialPort_h}.
Variables (h : SerialPortImpl) (w : world).
Hypothesis opened : mIsOpen h = true.

Lemma WriteByte_runs dataByte :
  SerialPortImpl.WriteByte dataByte h w =
    if call_fails (mFileDescriptor h) w 0
    then (Throw (runtime_error, strerror_errno), h,
          enter (call_write (mFileDescriptor h) dataByte) w)
    else (Ret tt, h,
          with_tx (enter (call_write (mFileDescriptor h) dataByte) w)
                  (w_tx w ++ [dataByte])).
Proof.
  unfold SerialPortImpl.WriteByte, throw_spec.
  rewrite (guard_open h w opened).
  unfold field, sys, Sys.write1; cbn. rewrite call_fails_0.
  destruct (faulty w || negb (is_live (mFileDescriptor h) w)); reflexivity.
Qed.

Hypothesis first_fails : call_fails (mFileDescriptor h) w 0 = true.

Let e : exception := (runtime_error, strerror_errno).


Lemma GetCharSize_fetch_fails :
  SerialPortImpl.GetCharSize h w = (Throw e, h, fetched h w).
Proof.
  unfold SerialPortImpl.GetCharSize. apply throw_spec_listed; [|reflexivity].
  exact (getter_fetch_fails _ h w opened first_fails).
Qed.

Lemma GetBaudRate_fetch_fails :
  SerialPortImpl.GetBaudRate h w = (Throw e, h, fetched h w).
Proof.
  unfold SerialPortImpl.GetBaudRate. apply throw_spec_listed; [|reflexivity].
  exact (getter_fetch_fails _ h w opened first_fails).
Qed.





End FirstCallFails.



(** ** One setting at a time *)

Section PutKeeps.
Context {hdr : SerialPort_h}.
Variables (t : termios) (v m' : Z).
Hypothesis in_range : u32 m' = m'.

Lemma or_c_cflag_keeps m :
  Z.land m m' = 0 ->
  Z.land (c_cflag (or_c_cflag t m)) m' = Z.land (c_cflag t) m'.
Proof.
  intros Hdis. unfold or_c_cflag; cbn [c_cflag set_c_cflag].
  rewrite or_keeps by assumption. now apply land_u32.
Qed.

Lemma and_c_cflag_not_keeps m :
  Z.land m m' = 0 ->
  Z.land (c_cflag (and_c_cflag t (Z.lnot m))) m' = Z.land (c_cflag t) m'.
Proof.
  intros Hdis. unfold and_c_cflag; cbn [c_cflag set_c_cflag].
  rewrite and_not_keeps by assumption. now apply land_u32.
Qed.

End PutKeeps.

Section PutKeepsFields.
Context {hdr : SerialPort_h}.
Variables (t : termios) (v m' : Z).
Hypothesis in_range : u32 m' = m'.

Lemma parity_put_keeps :
  Z.land PARENB m' = 0 -> Z.land PARODD m' = 0 ->
  Z.land (c_cflag (parity_put v t)) m' = Z.land (c_cflag t) m'.
Proof.
  intros He Ho. unfold parity_put.
  destruct (v =? PARITY_EVEN); [|destruct (v =? PARITY_ODD)].
  - rewrite and_c_cflag_not_keeps by assumption.
    now apply or_c_cflag_keeps.
  - apply or_c_cflag_keeps; [assumption | now apply lor_disjoint].
  - now apply and_c_cflag_not_keeps.
Qed.

Lemma stop_bits_put_keeps :
  Z.land CSTOPB m' = 0 ->
  Z.land (c_cflag (stop_bits_put v t)) m' = Z.land (c_cflag t) m'.
Proof.
  intros Hd. unfold stop_bits_put. destruct (v =? STOP_BITS_1).
  - now apply and_c_cflag_not_keeps.
  - now apply or_c_cflag_keeps.
Qed.

Lemma flow_control_put_keeps :
  Z.land CRTSCTS m' = 0 ->
  Z.land (c_cflag (flow_control_put v t)) m' = Z.land (c_cflag t) m'.
Proof.
  intros Hd. unfold flow_control_put. destruct (v =? FLOW_CONTROL_HARD).
  - now apply or_c_cflag_keeps.
  - now apply and_c_cflag_not_keeps.
Qed.

Lemma char_size_put_keeps :
  legal_char_size v = true -> Z.land CSIZE m' = 0 ->
  Z.land (c_cflag (char_size_put v t)) m' = Z.land (c_cflag t) m'.
Proof.
  intros Hv Hd. unfold char_size_put.
  rewrite or_c_cflag_keeps; [now apply and_c_cflag_not_keeps | assumption |].
  apply (subset_disjoint CSIZE); [|assumption].
  unfold legal_char_size in Hv.
  repeat (apply orb_prop in Hv; destruct Hv as [Hv|Hv]);
    apply Z.eqb_eq in Hv; subst v; reflexivity.
Qed.

End PutKeepsFields.

(** The accessors read the control flags under their masks only. *)
Section GotSame.
Context {hdr : SerialPort_h}.
Variables (t t' : termios).

Lemma parity_got_same :
  Z.land (c_cflag t') PARENB = Z.land (c_cflag t) PARENB ->
  Z.land (c_cflag t') PARODD = Z.land (c_cflag t) PARODD ->
  parity_got t' = parity_got t.
Proof. intros He Ho. unfold parity_got. now rewrite He, Ho. Qed.

Lemma stop_bits_got_same :
  Z.land (c_cflag t') CSTOPB = Z.land (c_cflag t) CSTOPB ->
  stop_bits_got t' = stop_bits_got t.
Proof. intros E. unfold stop_bits_got. now rewrite E. Qed.

Lemma flow_control_got_same :
  Z.land (c_cflag t') CRTSCTS = Z.land (c_cflag t) CRTSCTS ->
  flow_control_got t' = flow_control_got t.
Proof. intros E. unfold flow_control_got. now rewrite E. Qed.

Lemma char_size_got_same :
  Z.land (c_cflag t') CSIZE = Z.land (c_cflag t) CSIZE ->
  char_size_got t' = char_size_got t.
Proof. intros E. exact E. Qed.

End GotSame.

(** None of the four mutators touches the rate: the input flags stay, and
    so do the [CBAUD] bits of the control flags. *)
Section PutKeepsRate.
Context {hdr : SerialPort_h}.
Variables (v : Z) (t : termios).

Lemma put_keeps_c_iflag :
  c_iflag (parity_put v t) = c_iflag t /\
  c_iflag (stop_bits_put v t) = c_iflag t /\
  c_iflag (flow_control_put v t) = c_iflag t /\
  c_iflag (char_size_put v t) = c_iflag t.
Proof.
  unfold parity_put, stop_bits_put, flow_control_put, char_size_put.
  destruct (v =? PARITY_EVEN), (v =? PARITY_ODD), (v =? STOP_BITS_1),
    (v =? FLOW_CONTROL_HARD); repeat split.
Qed.

Lemma parity_put_keeps_rate : cfgetispeed (parity_put v t) = cfgetispeed t.
Proof.
  apply cfgetispeed_same; [apply parity_put_keeps; reflexivity|].
  now rewrite (proj1 put_keeps_c_iflag).
Qed.

Lemma stop_bits_put_keeps_rate :
  cfgetispeed (stop_bits_put v t) = cfgetispeed t.
Proof.
  apply cfgetispeed_same; [apply stop_bits_put_keeps; reflexivity|].
  now rewrite (proj1 (proj2 put_keeps_c_iflag)).
Qed.

Lemma flow_control_put_keeps_rate :
  cfgetispeed (flow_control_put v t) = cfgetispeed t.
Proof.
  apply cfgetispeed_same; [apply flow_control_put_keeps; reflexivity|].
  now rewrite (proj1 (proj2 (proj2 put_keeps_c_iflag))).
Qed.

Lemma char_size_put_keeps_rate :
  legal_char_size v = true ->
  cfgetispeed (char_size_put v t) = cfgetispeed t.
Proof.
  intros Hv.
  apply cfgetispeed_same;
    [apply char_size_put_keeps; try reflexivity; assumption|].
  now rewrite (proj2 (proj2 (proj2 put_keeps_c_iflag))).
Qed.

End PutKeepsRate.

Section Frame.
Context {hdr : SerialPort_h}.
Variables (h : SerialPortImpl) (w : world).
Hypothesis opened : mIsOpen h = true.
Hypothesis fetch_ok : call_fails (mFileDescriptor h) w 0 = false.
Hypothesis write_ok : call_fails (mFileDescriptor h) w 1 = false.
Hypothesis refetch_ok : call_fails (mFileDescriptor h) w 2 = false.

(** A mutator that wrote [t], then an accessor that decodes from the
    settings what it decoded from those in force before. *)
Lemma unchanged_after {A : Type} (set : M unit) (get : M A) t
      (decode : termios -> A) :
  set h w = (Ret tt, h, written h w t) ->
  (forall w', call_fails (mFileDescriptor h) w' 0 = false ->
              get h w' = (Ret (decode (w_tty w')), h, fetched h w')) ->
  decode (w_driver w (w_tty w) t) = decode (w_tty w) ->
  outcome ((set ;; get) h w) = outcome (get h w).
Proof.
  intros Hset Hget Hsame.
  rewrite (bind_Ret _ _ _ _ _ _ _ Hset).
  rewrite !Hget; [|exact fetch_ok | now rewrite call_fails_written].
  unfold outcome; cbn [fst written with_tty w_tty]. now rewrite Hsame.
Qed.

Lemma wrote (set : M unit) t :
  set h w = write_result h w t -> set h w = (Ret tt, h, written h w t).
Proof. unfold write_result. now rewrite write_ok. Qed.

End Frame.

Ltac same_flags Hdrv keeps :=
  first [ apply parity_got_same | apply stop_bits_got_same
        | apply flow_control_got_same | apply char_size_got_same ];
  rewrite Hdrv; apply keeps; try reflexivity; try assumption.

(** X8.  On an open object whose system calls go through and whose driver
    adopts the control flags and the rate it is given (the [CBAUD] bits of
    the control flags and [IBAUD0] of the input flags), [SetParity],
    [SetNumOfStopBits], [SetFlowControl] and [SetCharSize], called with a
    legal value, change nothing that the accessors of the other settings
    read: each of the other accessors, and [GetBaudRate], returns after the
    mutator what it returned before. *)
Theorem X8_mutators_leave_the_other_settings :
  forall (hdr : SerialPort_h) (h : SerialPortImpl) (w : world) (v : Z),
    mIsOpen h = true ->
    call_fails (mFileDescriptor h) w 0 = false ->
    call_fails (mFileDescriptor h) w 1 = false ->
    call_fails (mFileDescriptor h) w 2 = false ->
    adopts_c_cflag w -> adopts_speed w ->
    let same {A : Type} (set : M unit) (get : M A) :=
      outcome ((set ;; get) h w) = outcome (get h w) in
    (legal_parity v = true ->
       same (SerialPortImpl.SetParity v) SerialPortImpl.GetNumOfStopBits /\
       same (SerialPortImpl.SetParity v) SerialPortImpl.GetFlowControl /\
       same (SerialPortImpl.SetParity v) SerialPortImpl.GetCharSize /\
       same (SerialPortImpl.SetParity v) SerialPortImpl.GetBaudRate) /\
    (legal_stop_bits v = true ->
       same (SerialPortImpl.SetNumOfStopBits v) SerialPortImpl.GetParity /\
       same (SerialPortImpl.SetNumOfStopBits v) SerialPortImpl.GetFlowControl /\
       same (SerialPortImpl.SetNumOfStopBits v) SerialPortImpl.GetCharSize /\
       same (SerialPortImpl.SetNumOfStopBits v) SerialPortImpl.GetBaudRate) /\
    (legal_flow_control v = true ->
       same (SerialPortImpl.SetFlowControl v) SerialPortImpl.GetParity /\
       same (SerialPortImpl.SetFlowControl v) SerialPortImpl.GetNumOfStopBits /\
       same (SerialPortImpl.SetFlowControl v) SerialPortImpl.GetCharSize /\
       same (SerialPortImpl.SetFlowControl v) SerialPortImpl.GetBaudRate) /\
    (legal_char_size v = true ->
       same (SerialPortImpl.SetCharSize v) SerialPortImpl.GetParity /\
       same (SerialPortImpl.SetCharSize v) SerialPortImpl.GetNumOfStopBits /\
       same (SerialPortImpl.SetCharSize v) SerialPortImpl.GetFlowControl /\
       same (SerialPortImpl.SetCharSize v) SerialPortImpl.GetBaudRate).
Proof.
  intros hdr h w v Ho F0 F1 F2 Hdrv Hspeed same. subst same. cbv beta.
  pose proof (fun w' F => GetParity_runs h w' Ho F) as Gp.
  pose proof (fun w' F => GetNumOfStopBits_runs h w' Ho F) as Gs.
  pose proof (fun w' F => GetFlowControl_runs h w' Ho F) as Gf.
  pose proof (fun w' F => GetCharSize_runs h w' Ho F) as Gc.
  pose proof (fun w' F => GetBaudRate_runs h w' Ho F) as Gb.
  assert (Hsp : forall t, cfgetispeed t = cfgetispeed (w_tty w) ->
                  cfgetispeed (w_driver w (w_tty w) t) = cfgetispeed (w_tty w)).
  { intros t Ht. now rewrite (cfgetispeed_adopted _ _ _ Hspeed). }
  split; [|split; [|split]]; intros Hv.
  - pose proof (wrote h w F1 _ _ (SetParity_runs h w Ho F0 v Hv)) as S.
    repeat apply conj.
    + apply (unchanged_after h w F0 F2 _ _ _ _ S Gs).
      same_flags Hdrv parity_put_keeps.
    + apply (unchanged_after h w F0 F2 _ _ _ _ S Gf).
      same_flags Hdrv parity_put_keeps.
    + apply (unchanged_after h w F0 F2 _ _ _ _ S Gc).
      same_flags Hdrv parity_put_keeps.
    + apply (unchanged_after h w F0 F2 _ _ _ _ S Gb).
      apply Hsp, parity_put_keeps_rate.
  - pose proof (wrote h w F1 _ _ (SetNumOfStopBits_runs h w Ho F0 v Hv)) as S.
    repeat apply conj.
    + apply (unchanged_after h w F0 F2 _ _ _ _ S Gp).
      apply parity_got_same; rewrite Hdrv; apply stop_bits_put_keeps;
        reflexivity.
    + apply (unchanged_after h w F0 F2 _ _ _ _ S Gf).
      same_flags Hdrv stop_bits_put_keeps.
    + apply (unchanged_after h w F0 F2 _ _ _ _ S Gc).
      same_flags Hdrv stop_bits_put_keeps.
    + apply (unchanged_after h w F0 F2 _ _ _ _ S Gb).
      apply Hsp, stop_bits_put_keeps_rate.
  - pose proof (wrote h w F1 _ _ (SetFlowControl_runs h w Ho F0 v Hv)) as S.
    repeat apply conj.
    + apply (unchanged_after h w F0 F2 _ _ _ _ S Gp).
      apply parity_got_same; rewrite Hdrv; apply flow_control_put_keeps;
        reflexivity.
    + apply (unchanged_after h w F0 F2 _ _ _ _ S Gs).
      same_flags Hdrv flow_control_put_keeps.
    + apply (unchanged_after h w F0 F2 _ _ _ _ S Gc).
      same_flags Hdrv flow_control_put_keeps.
    + apply (unchanged_after h w F0 F2 _ _ _ _ S Gb).
      apply Hsp, flow_control_put_keeps_rate.
  - pose proof (wrote h w F1 _ _ (SetCharSize_runs h w Ho F0 v)) as S.
    repeat apply conj.
    + apply (unchanged_after h w F0 F2 _ _ _ _ S Gp).
      apply parity_got_same; rewrite Hdrv; apply char_size_put_keeps;
        try reflexivity; assumption.
    + apply (unchanged_after h w F0 F2 _ _ _ _ S Gs).
      same_flags Hdrv char_size_put_keeps.
    + apply (unchanged_after h w F0 F2 _ _ _ _ S Gf).
      same_flags Hdrv char_size_put_keeps.
    + apply (unchanged_after h w F0 F2 _ _ _ _ S Gb).
      apply Hsp, char_size_put_keeps_rate, Hv.
Qed.

Lemma X8_witness :
  outcome ((@SerialPortImpl.SetParity sample_h 1 ;; SerialPortImpl.GetCharSize)
             sample_open sample_world_open)
  = outcome (SerialPortImpl.GetCharSize sample_open sample_world_open) /\
  outcome (SerialPortImpl.GetCharSize sample_open sample_world_open) = Ret CS8 /\
  outcome ((@SerialPortImpl.SetParity sample_h 1 ;; SerialPortImpl.GetBaudRate)
             sample_open sample_world_open)
  = outcome (SerialPortImpl.GetBaudRate sample_open sample_world_open) /\
  outcome (SerialPortImpl.GetBaudRate sample_open sample_world_open) = Ret B9600.
Proof.
  assert (Hc : adopts_c_cflag sample_world_open)
    by (intros old requested; reflexivity).
  assert (Hs : adopts_speed sample_world_open)
    by (intros old requested; split; reflexivity).
  destruct (X8_mutators_leave_the_other_settings sample_h sample_open
              sample_world_open 1 eq_refl eq_refl eq_refl eq_refl Hc Hs)
    as (Hparity & _).
  destruct (Hparity eq_refl) as (_ & _ & Hcs & Hb).
  split; [exact Hcs|]. split; [reflexivity|]. split; [exact Hb | reflexivity].
Defined.

(** ** [SetBaudRate] and [GetBaudRate], [SetCharSize] on any value *)

Lemma SetBaudRate_wrote h w baudRate :
  mIsOpen h = true ->
  call_fails (mFileDescriptor h) w 0 = false ->
  call_fails (mFileDescriptor h) w 1 = false ->
  valid_speed (u32 baudRate) = true ->
  SerialPortImpl.SetBaudRate baudRate h w
  = (Ret tt, h, written h w (speed_put baudRate (w_tty w))).
Proof.
  intros Ho F0 F1 V. rewrite (SetBaudRate_runs h w baudRate Ho F0).
  now rewrite V, F1.
Qed.

(** X9.  On an open object whose system calls go through, and for a rate
    the C library accepts: [GetBaudRate] after [SetBaudRate] returns that
    rate when the driver adopts the rate it is given (the [CBAUD] bits of
    the control flags and [IBAUD0] of the input flags), and the accessors of
    parity, stop bits, flow control and character size return what they
    returned before when it adopts the control flags: the rate is written
    into the control flags, beside the flags these accessors read. *)
Theorem X9_SetBaudRate_then_accessors :
  forall (hdr : SerialPort_h) (h : SerialPortImpl) (w : world) (baudRate : Z),
    mIsOpen h = true ->
    call_fails (mFileDescriptor h) w 0 = false ->
    call_fails (mFileDescriptor h) w 1 = false ->
    call_fails (mFileDescriptor h) w 2 = false ->
    valid_speed (u32 baudRate) = true ->
    let same {A : Type} (get : M A) :=
      outcome ((SerialPortImpl.SetBaudRate baudRate ;; get) h w)
      = outcome (get h w) in
    (adopts_speed w ->
       outcome ((SerialPortImpl.SetBaudRate baudRate ;;
                 SerialPortImpl.GetBaudRate) h w)
       = Ret (u32 baudRate)) /\
    (adopts_c_cflag w ->
       same SerialPortImpl.GetParity /\
       same SerialPortImpl.GetNumOfStopBits /\
       same SerialPortImpl.GetFlowControl /\
       same SerialPortImpl.GetCharSize).
Proof.
  intros hdr h w b Ho F0 F1 F2 V same. subst same. cbv beta.
  pose proof (SetBaudRate_wrote h w b Ho F0 F1 V) as S.
  split.
  - intros Hspeed. rewrite (bind_Ret _ _ _ _ _ _ _ S).
    rewrite GetBaudRate_runs;
      [|exact Ho | now rewrite call_fails_written].
    unfold outcome; cbn [fst written with_tty w_tty].
    rewrite (cfgetispeed_adopted _ _ _ Hspeed).
    now rewrite cfgetispeed_speed_put.
  - intros Hdrv.
    assert (K : forall m', u32 m' = m' -> Z.land CBAUD m' = 0 ->
              Z.land (c_cflag (w_driver w (w_tty w) (speed_put b (w_tty w)))) m'
              = Z.land (c_cflag (w_tty w)) m').
    { intros m' Hr Hdis. rewrite Hdrv. now apply speed_put_keeps. }
    repeat apply conj.
    + apply (unchanged_after h w F0 F2 _ _ _ _ S
               (fun w' F => GetParity_runs h w' Ho F)).
      apply parity_got_same; now apply K.
    + apply (unchanged_after h w F0 F2 _ _ _ _ S
               (fun w' F => GetNumOfStopBits_runs h w' Ho F)).
      apply stop_bits_got_same; now apply K.
    + apply (unchanged_after h w F0 F2 _ _ _ _ S
               (fun w' F => GetFlowControl_runs h w' Ho F)).
      apply flow_control_got_same; now apply K.
    + apply (unchanged_after h w F0 F2 _ _ _ _ S
               (fun w' F => GetCharSize_runs h w' Ho F)).
      apply char_size_got_same; now apply K.
Qed.

(** 57600 baud, then the rate zero, which is kept in [IBAUD0]; the parity
    reads the same after the first. *)
Lemma X9_witness :
  outcome ((SerialPortImpl.SetBaudRate B57600 ;; SerialPortImpl.GetBaudRate)
             sample_open sample_world_open) = Ret B57600 /\
  outcome ((SerialPortImpl.SetBaudRate 0 ;; SerialPortImpl.GetBaudRate)
             sample_open sample_world_open) = Ret 0 /\
  outcome ((SerialPortImpl.SetBaudRate B57600 ;;
            @SerialPortImpl.GetParity sample_h) sample_open sample_world_open)
  = outcome (@SerialPortImpl.GetParity sample_h sample_open sample_world_open).
Proof.
  destruct (X9_SetBaudRate_then_accessors sample_h sample_open
              sample_world_open B57600 eq_refl eq_refl eq_refl eq_refl eq_refl)
    as (Hrate & Hflags).
  destruct (X9_SetBaudRate_then_accessors sample_h sample_open
              sample_world_open 0 eq_refl eq_refl eq_refl eq_refl eq_refl)
    as (Hzero & _).
  split; [apply Hrate; intros old requested; split; reflexivity|].
  split; [apply Hzero; intros old requested; split; reflexivity|].
  apply Hflags. intros old requested. reflexivity.
Defined.

(** X10.  [SetCharSize] looks at no value: whatever [charSize] is, it is
    or-ed into the control flags after the size field is cleared.  On an
    open object whose system calls go through, the settings written have
    every bit of [charSize] (as 32 bits) set, and leave as they were the
    flags outside the size field that [charSize] does not have; behind a
    driver that adopts the control flags, [GetCharSize] then returns the
    part of [charSize] inside the size field. *)
Theorem X10_SetCharSize_writes_any_value :
  forall (h : SerialPortImpl) (w : world) (charSize : Z),
    mIsOpen h = true ->
    call_fails (mFileDescriptor h) w 0 = false ->
    call_fails (mFileDescriptor h) w 1 = false ->
    let fd := mFileDescriptor h in
    (exists t,
        SerialPortImpl.SetCharSize charSize h w = (Ret tt, h, written h w t) /\
        w_trace (written h w t)
        = w_trace w ++ [call_tcgetattr fd; call_tcsetattr fd TCSANOW t] /\
        Z.land (c_cflag t) (u32 charSize) = u32 charSize /\
        (forall mask, u32 mask = mask -> Z.land CSIZE mask = 0 ->
                      Z.land (u32 charSize) mask = 0 ->
           Z.land (c_cflag t) mask = Z.land (c_cflag (w_tty w)) mask)) /\
    (call_fails fd w 2 = false -> adopts_c_cflag w ->
       outcome ((SerialPortImpl.SetCharSize charSize ;;
                 SerialPortImpl.GetCharSize) h w)
       = Ret (Z.land (u32 charSize) CSIZE)).
Proof.
  intros h w v Ho F0 F1 fd.
  pose proof (wrote h w F1 _ _ (SetCharSize_runs h w Ho F0 v)) as S.
  split.
  - exists (char_size_put v (w_tty w)).
    split; [exact S|].
    split; [unfold written, fetched; cbn; now rewrite <- app_assoc|].
    unfold char_size_put, or_c_cflag, and_c_cflag; cbn [c_cflag set_c_cflag].
    split; [apply field_has_bits|].
    intros mask Hr Hsize Hv. now apply field_keeps.
  - intros F2 Hdrv.
    rewrite (set_then_get h w F1 F2 _ _ _ char_size_got
               (SetCharSize_runs h w Ho F0 v)
               (fun w' F => GetCharSize_runs h w' Ho F)).
    f_equal. unfold char_size_got. rewrite Hdrv.
    unfold char_size_put, or_c_cflag, and_c_cflag; cbn [c_cflag set_c_cflag].
    apply field_reads.
Qed.

(** [SetCharSize] given the mask of the parity flag: parity is on
    afterwards, and the character size reads as five bits. *)
Lemma X10_witness :
  let r := SerialPortImpl.SetCharSize PARENB sample_open sample_world_open in
  mIsOpen sample_open = true /\
  outcome r = Ret tt /\
  Z.land (c_cflag (w_tty (world_after r))) PARENB = PARENB /\
  outcome ((SerialPortImpl.SetCharSize PARENB ;; SerialPortImpl.GetCharSize)
             sample_open sample_world_open) = Ret CS5.
Proof.
  intros r.
  destruct (X10_SetCharSize_writes_any_value sample_open sample_world_open
              PARENB eq_refl eq_refl eq_refl) as ((t & S & _ & Hbits & _) & Hget).
  split; [reflexivity|]. split; [subst r; now rewrite S|].
  split; [reflexivity|].
  apply (Hget eq_refl). intros old requested. reflexivity.
Defined.

(** ** Transfer *)

Lemma idle_polls_0 h w : idle_polls h w 0.
Proof. intros k Hk. lia. Qed.

Lemma pending_S_1 w : pending w 2 = pending w 1 ++ w_arrive w (S (now w)).
Proof. reflexivity. Qed.

(** [ReadByte] when the first query finds [b] at the head of the queue. *)
Lemma ReadByte_at_once h w b q fuel :
  mIsOpen h = true ->
  pending w 1 = b :: q ->
  call_fails (mFileDescriptor h) w 0 = false ->
  call_fails (mFileDescriptor h) w 1 = false ->
  SerialPortImpl.ReadByte (S fuel) h w
  = (Ret b, h,
     with_rx (enter (call_read (mFileDescriptor h) 1) (polled h w))
             (q ++ w_arrive w (S (now w)))).
Proof.
  intros Ho Hq F0 F1.
  rewrite (ReadByte_reads h w Ho 0 (S fuel) b q (idle_polls_0 h w)
             (Nat.lt_0_succ fuel) F0 Hq).
  now rewrite F1.
Qed.

(** X11.  [IsDataAvailable] on an open object, the query going through:
    it returns true exactly when the queue is not empty, after one query,
    and takes nothing from the queue.  When it has returned true, a
    [ReadByte] whose two system calls go through makes one query and one
    [read] and returns the byte that was first in the queue. *)
Theorem X11_IsDataAvailable_then_ReadByte :
  forall (h : SerialPortImpl) (w : world),
    mIsOpen h = true ->
    call_fails (mFileDescriptor h) w 0 = false ->
    let fd := mFileDescriptor h in
    let r := SerialPortImpl.IsDataAvailable h w in
    (outcome r = Ret true <-> pending w 1 <> []) /\
    (outcome r = Ret false <-> pending w 1 = []) /\
    object_after r = h /\
    w_trace (world_after r) = w_trace w ++ [call_ioctl fd FIONREAD] /\
    w_rx (world_after r) = pending w 1 /\
    (forall b q fuel,
        pending w 1 = b :: q ->
        call_fails fd w 1 = false -> call_fails fd w 2 = false ->
        let r' := SerialPortImpl.ReadByte (S fuel) (object_after r)
                                          (world_after r) in
        outcome r' = Ret b /\
        w_trace (world_after r')
        = w_trace w ++ [call_ioctl fd FIONREAD; call_ioctl fd FIONREAD;
                        call_read fd 1]).
Proof.
  intros h w Ho F0 fd r. subst r.
  rewrite (IsDataAvailable_runs h Ho w), F0.
  unfold outcome, object_after, world_after; cbn [fst snd].
  split; [|split; [|split; [|split; [|split]]]]; try reflexivity.
  - destruct (pending w 1); cbn; split; congruence.
  - destruct (pending w 1); cbn; split; congruence.
  - intros b q fuel Hq F1 F2.
    assert (Hq' : pending (polled h w) 1 = b :: (q ++ w_arrive w (S (now w)))).
    { change (pending (polled h w) 1) with (pending w 2).
      now rewrite pending_S_1, Hq. }
    rewrite (ReadByte_at_once h (polled h w) b _ fuel Ho Hq');
      [|unfold polled; now rewrite call_fails_enter
       |unfold polled; now rewrite call_fails_enter].
    split; [reflexivity|].
    unfold polled; cbn. now rewrite <- !app_assoc.
Qed.

Lemma X11_witness :
  let r := SerialPortImpl.IsDataAvailable sample_open sample_world_two_bytes in
  mIsOpen sample_open = true /\
  outcome r = Ret true /\
  outcome (SerialPortImpl.ReadByte 1 (object_after r) (world_after r)) = Ret 65.
Proof.
  intros r.
  destruct (X11_IsDataAvailable_then_ReadByte sample_open
              sample_world_two_bytes eq_refl eq_refl)
    as (Htrue & _ & _ & _ & _ & Hread).
  split; [reflexivity|].
  split; [apply Htrue; discriminate|].
  apply (Hread 65 [66] 0%nat eq_refl eq_refl eq_refl).
Defined.

(** X12.  Two calls of [ReadByte] on an open object with two bytes in the
    queue, the four system calls going through: the first returns the
    first byte, the second the second, and the queue is left with what
    followed them and what arrived meanwhile. *)
Theorem X12_ReadByte_takes_bytes_in_order :
  forall (h : SerialPortImpl) (w : world) (b1 b2 : Z) (q : list Z)
         (fuel1 fuel2 : nat),
    mIsOpen h = true ->
    pending w 1 = b1 :: b2 :: q ->
    call_fails (mFileDescriptor h) w 0 = false ->
    call_fails (mFileDescriptor h) w 1 = false ->
    call_fails (mFileDescriptor h) w 2 = false ->
    call_fails (mFileDescriptor h) w 3 = false ->
    let fd := mFileDescriptor h in
    let r := (x <- SerialPortImpl.ReadByte (S fuel1) ;;
              y <- SerialPortImpl.ReadByte (S fuel2) ;;
              ret (x, y)) h w in
    outcome r = Ret (b1, b2) /\
    w_rx (world_after r)
    = ((q ++ w_arrive w (1 + now w)) ++ w_arrive w (2 + now w))
        ++ w_arrive w (3 + now w) /\
    w_trace (world_after r)
    = w_trace w ++ [call_ioctl fd FIONREAD; call_read fd 1;
                    call_ioctl fd FIONREAD; call_read fd 1].
Proof.
  intros h w b1 b2 q f1 f2 Ho Hq F0 F1 F2 F3 fd r. subst r.
  rewrite (bind_Ret _ _ _ _ _ _ _
             (ReadByte_at_once h w b1 (b2 :: q) f1 Ho Hq F0 F1)).
  set (w1 := with_rx _ _).
  assert (Hq1 : pending w1 1
                = b2 :: ((q ++ w_arrive w (1 + now w))
                           ++ w_arrive w (2 + now w)))
    by reflexivity.
  assert (G0 : call_fails fd w1 0 = false) by exact F2.
  assert (G1 : call_fails fd w1 1 = false) by exact F3.
  rewrite (bind_Ret _ _ _ _ _ _ _
             (ReadByte_at_once h w1 b2 _ f2 Ho Hq1 G0 G1)).
  unfold outcome, world_after; cbn [fst snd ret Monad_M].
  split; [reflexivity|]. split; [reflexivity|].
  unfold w1, polled; cbn. now rewrite <- !app_assoc.
Qed.

Lemma X12_witness :
  outcome ((x <- SerialPortImpl.ReadByte 1 ;;
            y <- SerialPortImpl.ReadByte 1 ;;
            ret (x, y)) sample_open sample_world_two_bytes)
  = Ret (65, 66).
Proof.
  apply (X12_ReadByte_takes_bytes_in_order sample_open sample_world_two_bytes
           65 66 [] 0 0 eq_refl eq_refl eq_refl eq_refl eq_refl eq_refl).
Defined.

(** X13.  [WriteByte] on an open object makes one [write] of that byte.
    If it goes through the byte is the last of those sent and the call
    returns normally; if it fails the call throws [std::runtime_error] and
    nothing was sent.  Two calls send their bytes in the order of the
    calls.  The settings of the device and the input queue are not
    touched. *)
Theorem X13_WriteByte_sends_one_byte :
  forall (h : SerialPortImpl) (w : world) (a b : Z),
    mIsOpen h = true ->
    let fd := mFileDescriptor h in
    let r := SerialPortImpl.WriteByte a h w in
    (w_trace (world_after r) = w_trace w ++ [call_write fd a] /\
     w_tty (world_after r) = w_tty w /\
     w_rx (world_after r) = pending w 1) /\
    (call_fails fd w 0 = true ->
       outcome r = Throw (runtime_error, strerror_errno) /\
       w_tx (world_after r) = w_tx w) /\
    (call_fails fd w 0 = false ->
       outcome r = Ret tt /\ w_tx (world_after r) = w_tx w ++ [a]) /\
    (call_fails fd w 0 = false -> call_fails fd w 1 = false ->
       let r2 := (SerialPortImpl.WriteByte a ;; SerialPortImpl.WriteByte b) h w in
       outcome r2 = Ret tt /\ w_tx (world_after r2) = w_tx w ++ [a; b]).
Proof.
  intros h w a b Ho fd r. subst r fd.
  pose proof (WriteByte_runs h w Ho a) as E.
  split; [|split; [|split]].
  - rewrite E. destruct (call_fails (mFileDescriptor h) w 0);
      repeat split.
  - intros F. rewrite E, F. split; reflexivity.
  - intros F. rewrite E, F. split; reflexivity.
  - intros F0 F1. rewrite F0 in E.
    rewrite (bind_Ret _ _ _ _ _ _ _ E).
    rewrite (WriteByte_runs h _ Ho b).
    replace (call_fails (mFileDescriptor h)
               (with_tx (enter (call_write (mFileDescriptor h) a) w)
                        (w_tx w ++ [a])) 0)
      with (call_fails (mFileDescriptor h) w 1) by reflexivity.
    rewrite F1. unfold outcome, world_after; cbn [fst snd].
    split; [reflexivity|]. cbn. now rewrite <- app_assoc.
Qed.

Lemma X13_witness :
  let r := (SerialPortImpl.WriteByte 65 ;; SerialPortImpl.WriteByte 66)
             sample_open sample_world_open in
  mIsOpen sample_open = true /\
  outcome r = Ret tt /\ w_tx (world_after r) = [65; 66].
Proof.
  intros r.
  destruct (X13_WriteByte_sends_one_byte sample_open sample_world_open 65 66
              eq_refl) as (_ & _ & _ & Htwo).
  split; [reflexivity|]. exact (Htwo eq_refl eq_refl).
Defined.

(** ** The public [Open], step by step *)

Lemma Open_returns h w :
  mIsOpen h = false -> Open_calls_succeed w = true ->
  SerialPortImpl.Open h w = (Ret tt, opened_object h w, opened_world h w).
Proof.
  intros Hc Hok. rewrite (Open_closed h w Hc).
  unfold Open_calls_succeed in Hok.
  destruct (w_fault w (now w)); [discriminate|].
  destruct (w_fault w (1 + now w)%nat); [discriminate|].
  destruct (w_fault w (2 + now w)%nat); [discriminate|].
  destruct (w_fault w (4 + now w)%nat); [discriminate|].
  reflexivity.
Qed.

Lemma Open_Ret_inv h w :
  outcome (SerialPortImpl.Open h w) = Ret tt ->
  mIsOpen h = false /\ Open_calls_succeed w = true.
Proof.
  intros Hret. destruct (mIsOpen h) eqn:Hc.
  { rewrite (Open_already_open h w Hc) in Hret. discriminate. }
  split; [reflexivity|].
  rewrite (Open_closed h w Hc) in Hret. unfold Open_calls_succeed.
  destruct (w_fault w (now w)); [discriminate|].
  destruct (w_fault w (1 + now w)%nat); [discriminate|].
  destruct (w_fault w (2 + now w)%nat); [discriminate|].
  destruct (w_fault w (4 + now w)%nat); [discriminate|].
  reflexivity.
Qed.

Lemma opened_world_live h w :
  is_live (lowest_free (w_live w)) (opened_world h w) = true.
Proof. unfold is_live, opened_world; cbn. now rewrite Z.eqb_refl. Qed.

Lemma opened_world_call_fails h w k :
  call_fails (lowest_free (w_live w)) (opened_world h w) k
  = w_fault w (k + (5 + now w))%nat.
Proof.
  unfold call_fails. rewrite opened_world_live. cbn [negb].
  now rewrite orb_false_r.
Qed.

Lemma calls_ok_spec w n :
  calls_ok w n = true -> forall k, (k < n)%nat -> w_fault w (k + now w)%nat = false.
Proof.
  intros Hok k Hk. unfold calls_ok in Hok.
  rewrite forallb_forall in Hok.
  apply negb_true_iff. apply (Hok k). apply in_seq. lia.
Qed.

Lemma throw_spec_same_state {A : Type} spec (body : M A) h w :
  object_after (throw_spec spec body h w) = object_after (body h w) /\
  world_after (throw_spec spec body h w) = world_after (body h w).
Proof.
  unfold throw_spec, object_after, world_after.
  destruct (body h w) as [[r h'] w']. destruct r; try (split; reflexivity).
  destruct (listed (fst e) spec); split; reflexivity.
Qed.

(** X14.  Once [Open()] has returned normally inside the public [Open],
    nothing closes the port again: however the four mutators that follow
    end, the public [Open] leaves the object open, holding the descriptor
    that [open] returned, which is open in the process.  When [Open()]
    itself does not return normally, the public [Open] ends as it did and
    calls no mutator. *)
Theorem X14_public_Open_does_not_roll_back :
  forall (hdr : SerialPort_h) (h : SerialPortImpl) (w : world)
         (baudRate charSize parityType stopBits flowControl : Z),
    let r0 := SerialPortImpl.Open h w in
    let r := SerialPort.Open baudRate charSize parityType stopBits flowControl
                             h w in
    (outcome r0 = Ret tt ->
       object_after r = object_after r0 /\
       mIsOpen (object_after r) = true /\
       mFileDescriptor (object_after r) = lowest_free (w_live w) /\
       is_live (lowest_free (w_live w)) (world_after r) = true) /\
    (outcome r0 <> Ret tt -> r = r0).
Proof.
  intros hdr h w b cs p sb fc r0 r. subst r r0.
  unfold SerialPort.Open.
  destruct (throw_spec_same_state
              [OpenFailed; AlreadyOpen; UnsupportedBaudRate; invalid_argument]
              (SerialPortImpl.Open ;;
               SerialPort.SetCharSize cs ;; SerialPort.SetParity p ;;
               SerialPort.SetNumOfStopBits sb ;; SerialPort.SetFlowControl fc)
              h w) as (Eh & Ew).
  split.
  - intros Hret. destruct (Open_Ret_inv h w Hret) as (Hc & Hok).
    pose proof (Open_returns h w Hc Hok) as E0.
    rewrite Eh, Ew, E0. rewrite (bind_Ret _ _ _ _ _ _ _ E0).
    assert (K : keeps_handle
                  (SerialPort.SetCharSize cs ;; SerialPort.SetParity p ;;
                   SerialPort.SetNumOfStopBits sb ;;
                   SerialPort.SetFlowControl fc)).
    { unfold SerialPort.SetCharSize, SerialPort.SetParity,
        SerialPort.SetNumOfStopBits, SerialPort.SetFlowControl.
      keeps. }
    destruct (K (opened_object h w) (opened_world h w)) as (Kh & Kl).
    rewrite Kh. unfold object_after at 1; cbn [fst snd].
    split; [reflexivity|]. split; [reflexivity|]. split; [reflexivity|].
    unfold is_live. rewrite Kl. exact (opened_world_live h w).
  - intros Hret. unfold throw_spec. cbn [bind Monad_M].
    destruct (mIsOpen h) eqn:Hc.
    + rewrite (Open_already_open h w Hc). reflexivity.
    + rewrite (Open_closed h w Hc) in *.
      destruct (w_fault w (now w)); [reflexivity|].
      destruct (w_fault w (1 + now w)%nat); [reflexivity|].
      destruct (w_fault w (2 + now w)%nat); [reflexivity|].
      destruct (w_fault w (4 + now w)%nat); [reflexivity|].
      now contradiction Hret.
Qed.

(** The public [Open] on the sample with 7 for the parity: it throws
    [invalid_argument] and the port is open. *)
Lemma X14_witness :
  let r := @SerialPort.Open sample_h B9600 CHAR_SIZE_8 7 0 1
                            sample_closed sample_world in
  outcome (SerialPortImpl.Open sample_closed sample_world) = Ret tt /\
  outcome r = Throw (invalid_argument, ERR_MSG_INVALID_PARITY) /\
  mIsOpen (object_after r) = true /\
  is_live 3 (world_after r) = true.
Proof.
  intros r.
  destruct (X14_public_Open_does_not_roll_back sample_h sample_closed
              sample_world B9600 CHAR_SIZE_8 7 0 1) as (Hkeeps & _).
  destruct (Hkeeps eq_refl) as (_ & Hopen & _ & Hlive).
  split; [reflexivity|]. split; [reflexivity|].
  split; [exact Hopen | exact Hlive].
Defined.

(** The baseline of [Open] keeps the rate. *)
Lemma baseline_of_keeps_rate t : cfgetispeed (baseline_of t) = cfgetispeed t.
Proof.
  apply cfgetispeed_same; [|reflexivity].
  unfold baseline_of; cbn [c_cflag]. now apply lor_keeps.
Qed.

Section FourSettings.
Context {hdr : SerialPort_h}.
Variables (h : SerialPortImpl) (w : world) (cs p sb fc : Z).
Hypothesis opened : mIsOpen h = true.
Hypothesis calls : forall j, (j < 8)%nat ->
                             call_fails (mFileDescriptor h) w j = false.
Hypothesis adopts : adopts_c_cflag w.
Hypothesis legal_cs : legal_char_size cs = true.
Hypothesis legal_p : legal_parity p = true.
Hypothesis legal_sb : legal_stop_bits sb = true.
Hypothesis legal_fc : legal_flow_control fc = true.

(** The four mutators of the public [Open], one after the other. *)
Lemma four_settings :
  exists W,
    (SerialPort.SetCharSize cs ;; SerialPort.SetParity p ;;
     SerialPort.SetNumOfStopBits sb ;; SerialPort.SetFlowControl fc) h w
    = (Ret tt, h, W) /\
    char_size_got (w_tty W) = cs /\
    parity_got (w_tty W) = p /\
    stop_bits_got (w_tty W) = sb /\
    flow_control_got (w_tty W) = fc /\
    (adopts_speed w -> cfgetispeed (w_tty W) = cfgetispeed (w_tty w)) /\
    (forall k, call_fails (mFileDescriptor h) W k
               = call_fails (mFileDescriptor h) w (8 + k)) /\
    length (w_trace W) = (length (w_trace w) + 8)%nat.
Proof.
  pose (t1 := char_size_put cs (w_tty w)). pose (W1 := written h w t1).
  pose (t2 := parity_put p (w_tty W1)). pose (W2 := written h W1 t2).
  pose (t3 := stop_bits_put sb (w_tty W2)). pose (W3 := written h W2 t3).
  pose (t4 := flow_control_put fc (w_tty W3)). pose (W4 := written h W3 t4).
  assert (F1 : forall k, call_fails (mFileDescriptor h) W1 k
                         = call_fails (mFileDescriptor h) w (2 + k))
    by (intros k; apply call_fails_written).
  assert (F2 : forall k, call_fails (mFileDescriptor h) W2 k
                         = call_fails (mFileDescriptor h) w (4 + k))
    by (intros k; unfold W2; now rewrite call_fails_written, F1).
  assert (F3 : forall k, call_fails (mFileDescriptor h) W3 k
                         = call_fails (mFileDescriptor h) w (6 + k))
    by (intros k; unfold W3; now rewrite call_fails_written, F2).
  assert (F4 : forall k, call_fails (mFileDescriptor h) W4 k
                         = call_fails (mFileDescriptor h) w (8 + k))
    by (intros k; unfold W4; now rewrite call_fails_written, F3).
  assert (S1 : SerialPort.SetCharSize cs h w = (Ret tt, h, W1)).
  { unfold SerialPort.SetCharSize. apply throw_spec_Ret.
    apply wrote; [apply calls; lia|].
    apply SetCharSize_runs; [exact opened | apply calls; lia]. }
  assert (S2 : SerialPort.SetParity p h W1 = (Ret tt, h, W2)).
  { unfold SerialPort.SetParity. apply throw_spec_Ret.
    apply wrote; [rewrite F1; apply calls; lia|].
    apply SetParity_runs;
      [exact opened | rewrite F1; apply calls; lia | exact legal_p]. }
  assert (S3 : SerialPort.SetNumOfStopBits sb h W2 = (Ret tt, h, W3)).
  { unfold SerialPort.SetNumOfStopBits. apply throw_spec_Ret.
    apply wrote; [rewrite F2; apply calls; lia|].
    apply SetNumOfStopBits_runs;
      [exact opened | rewrite F2; apply calls; lia | exact legal_sb]. }
  assert (S4 : SerialPort.SetFlowControl fc h W3 = (Ret tt, h, W4)).
  { unfold SerialPort.SetFlowControl. apply throw_spec_Ret.
    apply wrote; [rewrite F3; apply calls; lia|].
    apply SetFlowControl_runs;
      [exact opened | rewrite F3; apply calls; lia | exact legal_fc]. }
  assert (C1 : c_cflag (w_tty W1) = c_cflag t1) by exact (adopts _ _).
  assert (C2 : c_cflag (w_tty W2) = c_cflag t2) by exact (adopts _ _).
  assert (C3 : c_cflag (w_tty W3) = c_cflag t3) by exact (adopts _ _).
  assert (C4 : c_cflag (w_tty W4) = c_cflag t4) by exact (adopts _ _).
  exists W4.
  split.
  { rewrite (bind_Ret _ _ _ _ _ _ _ S1), (bind_Ret _ _ _ _ _ _ _ S2),
      (bind_Ret _ _ _ _ _ _ _ S3). exact S4. }
  split.
  { transitivity (char_size_got (w_tty W3));
      [apply char_size_got_same; rewrite C4;
       apply flow_control_put_keeps; reflexivity|].
    transitivity (char_size_got (w_tty W2));
      [apply char_size_got_same; rewrite C3;
       apply stop_bits_put_keeps; reflexivity|].
    transitivity (char_size_got (w_tty W1));
      [apply char_size_got_same; rewrite C2;
       apply parity_put_keeps; reflexivity|].
    exact (char_size_got_put (w_tty w) (w_tty W1) cs legal_cs C1). }
  split.
  { transitivity (parity_got (w_tty W3));
      [apply parity_got_same; rewrite C4;
       apply flow_control_put_keeps; reflexivity|].
    transitivity (parity_got (w_tty W2));
      [apply parity_got_same; rewrite C3;
       apply stop_bits_put_keeps; reflexivity|].
    exact (parity_got_put (w_tty W1) (w_tty W2) p legal_p C2). }
  split.
  { transitivity (stop_bits_got (w_tty W3));
      [apply stop_bits_got_same; rewrite C4;
       apply flow_control_put_keeps; reflexivity|].
    exact (stop_bits_got_put (w_tty W2) (w_tty W3) sb legal_sb C3). }
  split.
  { exact (flow_control_got_put (w_tty W3) (w_tty W4) fc legal_fc C4). }
  split.
  { intros Hspeed.
    assert (P1 : cfgetispeed (w_tty W1) = cfgetispeed (w_tty w)).
    { transitivity (cfgetispeed t1);
        [exact (cfgetispeed_adopted _ _ _ Hspeed)|].
      now apply char_size_put_keeps_rate. }
    assert (P2 : cfgetispeed (w_tty W2) = cfgetispeed (w_tty W1)).
    { transitivity (cfgetispeed t2);
        [exact (cfgetispeed_adopted _ _ _ Hspeed)|].
      apply parity_put_keeps_rate. }
    assert (P3 : cfgetispeed (w_tty W3) = cfgetispeed (w_tty W2)).
    { transitivity (cfgetispeed t3);
        [exact (cfgetispeed_adopted _ _ _ Hspeed)|].
      apply stop_bits_put_keeps_rate. }
    assert (P4 : cfgetispeed (w_tty W4) = cfgetispeed (w_tty W3)).
    { transitivity (cfgetispeed t4);
        [exact (cfgetispeed_adopted _ _ _ Hspeed)|].
      apply flow_control_put_keeps_rate. }
    congruence. }
  split; [exact F4|].
  unfold W4, W3, W2, W1, written, fetched; cbn [w_trace enter with_tty].
  rewrite !length_app. cbn [length]. lia.
Qed.

End FourSettings.

(** X15.  The public [Open] on a closed object, its thirteen system calls
    going through, the four values legal, behind a driver that adopts the
    control flags: it returns normally, the object is open and keeps the
    settings found as saved settings, and the accessors then return the
    character size, the parity, the number of stop bits and the flow control
    that were asked for.  Behind a driver that adopts as well the rate it is
    given (the [CBAUD] bits of the control flags and [IBAUD0] of the input
    flags), [GetBaudRate] then returns the rate the device had before,
    whatever [baudRate] was: neither the baseline nor the four mutators
    touch these bits. *)
Theorem X15_public_Open_settings_read_back :
  forall (hdr : SerialPort_h) (h : SerialPortImpl) (w : world)
         (baudRate charSize parityType stopBits flowControl : Z),
    mIsOpen h = false ->
    calls_ok w 13 = true ->
    adopts_c_cflag w ->
    legal_char_size charSize = true ->
    legal_parity parityType = true ->
    legal_stop_bits stopBits = true ->
    legal_flow_control flowControl = true ->
    let r := SerialPort.Open baudRate charSize parityType stopBits flowControl
                             h w in
    let h' := object_after r in
    let w' := world_after r in
    outcome r = Ret tt /\
    h' = mk_SerialPortImpl (mSerialPortName h) true (lowest_free (w_live w))
                           (w_tty w) /\
    length (w_trace w') = (length (w_trace w) + 13)%nat /\
    (w_fault w (13 + now w)%nat = false ->
       outcome (SerialPortImpl.GetCharSize h' w') = Ret charSize /\
       outcome (SerialPortImpl.GetParity h' w') = Ret parityType /\
       outcome (SerialPortImpl.GetNumOfStopBits h' w') = Ret stopBits /\
       outcome (SerialPortImpl.GetFlowControl h' w') = Ret flowControl /\
       (adopts_speed w ->
          outcome (SerialPortImpl.GetBaudRate h' w')
          = Ret (cfgetispeed (w_tty w)))).
Proof.
  intros hdr h w b cs p sb fc Hc Hok Hdrv Lcs Lp Lsb Lfc r h' w'.
  pose proof (calls_ok_spec w 13 Hok) as Hk.
  assert (Hopen : Open_calls_succeed w = true).
  { unfold Open_calls_succeed.
    pose proof (Hk 0%nat ltac:(lia)) as K0.
    change (w_fault w (now w) = false) in K0.
    rewrite K0, (Hk 1%nat), (Hk 2%nat), (Hk 4%nat) by lia.
    reflexivity. }
  pose proof (Open_returns h w Hc Hopen) as E0.
  set (h5 := opened_object h w) in *. set (w5 := opened_world h w) in *.
  assert (Ho5 : mIsOpen h5 = true) by reflexivity.
  assert (Hcalls : forall j, (j < 8)%nat ->
                     call_fails (mFileDescriptor h5) w5 j = false).
  { intros j Hj.
    change (mFileDescriptor h5) with (lowest_free (w_live w)).
    unfold w5. rewrite opened_world_call_fails.
    replace (j + (5 + now w))%nat with ((j + 5) + now w)%nat by lia.
    apply Hk. lia. }
  assert (Hdrv5 : adopts_c_cflag w5) by exact Hdrv.
  destruct (four_settings h5 w5 cs p sb fc Ho5 Hcalls Hdrv5 Lcs Lp Lsb Lfc)
    as (W & Erun & Gcs & Gp & Gsb & Gfc & Gspeed & Gfail & Glen).
  assert (Er : r = (Ret tt, h5, W)).
  { subst r. unfold SerialPort.Open. apply throw_spec_Ret.
    rewrite (bind_Ret _ _ _ _ _ _ _ E0). exact Erun. }
  subst h' w'. rewrite Er.
  unfold outcome at 1, object_after, world_after; cbn [fst snd].
  split; [reflexivity|]. split; [reflexivity|].
  split.
  { rewrite Glen. unfold w5, opened_world.
    cbn [w_trace enter with_tty with_live]. rewrite !length_app.
    cbn [length]. lia. }
  intros F13.
  assert (F : call_fails (mFileDescriptor h5) W 0 = false).
  { rewrite Gfail.
    change (mFileDescriptor h5) with (lowest_free (w_live w)).
    unfold w5. rewrite opened_world_call_fails. exact F13. }
  rewrite (GetCharSize_runs h5 W Ho5 F), (GetParity_runs h5 W Ho5 F),
    (GetNumOfStopBits_runs h5 W Ho5 F), (GetFlowControl_runs h5 W Ho5 F),
    (GetBaudRate_runs h5 W Ho5 F).
  unfold outcome; cbn [fst].
  rewrite Gcs, Gp, Gsb, Gfc.
  repeat apply conj; try reflexivity.
  intros Hspeed. f_equal.
  rewrite (Gspeed Hspeed).
  unfold w5, opened_world; cbn [w_tty enter with_tty].
  rewrite (cfgetispeed_adopted _ _ _ Hspeed).
  apply baseline_of_keeps_rate.
Qed.

Lemma X15_witness :
  let r := @SerialPort.Open sample_h B115200 CHAR_SIZE_7 1 1 0
                            sample_closed sample_world in
  outcome r = Ret tt /\
  outcome (@SerialPortImpl.GetParity sample_h (object_after r) (world_after r))
  = Ret 1 /\
  outcome (SerialPortImpl.GetCharSize (object_after r) (world_after r))
  = Ret CHAR_SIZE_7 /\
  outcome (SerialPortImpl.GetBaudRate (object_after r) (world_after r))
  = Ret B9600.
Proof.
  intros r.
  assert (Hc : adopts_c_cflag sample_world) by (intros old requested; reflexivity).
  destruct (X15_public_Open_settings_read_back sample_h sample_closed
              sample_world B115200 CHAR_SIZE_7 1 1 0
              eq_refl eq_refl Hc eq_refl eq_refl eq_refl eq_refl)
    as (Hr & _ & _ & Hget).
  destruct (Hget eq_refl) as (Hcs & Hp & _ & _ & Hb).
  split; [exact Hr|]. split; [exact Hp|]. split; [exact Hcs|].
  apply Hb. intros old requested. split; reflexivity.
Defined.

(** ** A write that fails, and accessors that only read *)

(** X16.  On an open object, when the fetch goes through and the write of
    the settings fails, [SetCharSize], and [SetParity], [SetNumOfStopBits]
    and [SetFlowControl] called with a legal value, throw
    [std::invalid_argument] carrying [strerror(errno)]; the settings of the
    device are as before, two system calls were made. *)
Theorem X16_failed_write_is_invalid_argument :
  forall (hdr : SerialPort_h) (h : SerialPortImpl) (w : world) (v : Z),
    mIsOpen h = true ->
    call_fails (mFileDescriptor h) w 0 = false ->
    call_fails (mFileDescriptor h) w 1 = true ->
    let fd := mFileDescriptor h in
    let failed (r : result unit * SerialPortImpl * world) :=
      outcome r = Throw (invalid_argument, strerror_errno) /\
      object_after r = h /\
      w_tty (world_after r) = w_tty w /\
      exists t, w_trace (world_after r)
                = w_trace w ++ [call_tcgetattr fd; call_tcsetattr fd TCSANOW t] in
    failed (SerialPortImpl.SetCharSize v h w) /\
    (legal_parity v = true -> failed (SerialPortImpl.SetParity v h w)) /\
    (legal_stop_bits v = true -> failed (SerialPortImpl.SetNumOfStopBits v h w)) /\
    (legal_flow_control v = true -> failed (SerialPortImpl.SetFlowControl v h w)).
Proof.
  intros hdr h w v Ho F0 F1 fd failed. subst failed fd. cbv beta.
  assert (Hfail : forall t,
            let r := write_result h w t in
            outcome r = Throw (invalid_argument, strerror_errno) /\
            object_after r = h /\
            w_tty (world_after r) = w_tty w /\
            exists t', w_trace (world_after r)
                       = w_trace w ++ [call_tcgetattr (mFileDescriptor h);
                                       call_tcsetattr (mFileDescriptor h)
                                                      TCSANOW t']).
  { intros t r. subst r. unfold write_result. rewrite F1.
    unfold outcome, object_after, world_after; cbn [fst snd].
    repeat split. exists t.
    unfold write_failed, fetched; cbn. now rewrite <- app_assoc. }
  split; [|split; [|split]].
  - rewrite (SetCharSize_runs h w Ho F0 v). apply Hfail.
  - intros Hv. rewrite (SetParity_runs h w Ho F0 v Hv). apply Hfail.
  - intros Hv. rewrite (SetNumOfStopBits_runs h w Ho F0 v Hv). apply Hfail.
  - intros Hv. rewrite (SetFlowControl_runs h w Ho F0 v Hv). apply Hfail.
Qed.

Lemma X16_witness :
  let w := with_fault sample_world_open (fault_at 6) in
  let r := @SerialPortImpl.SetParity sample_h 0 sample_open w in
  mIsOpen sample_open = true /\
  outcome r = Throw (invalid_argument, strerror_errno) /\
  w_tty (world_after r) = w_tty w.
Proof.
  intros w r.
  destruct (X16_failed_write_is_invalid_argument sample_h sample_open w 0
              eq_refl eq_refl eq_refl) as (_ & Hparity & _).
  destruct (Hparity eq_refl) as (Hr & _ & Htty & _).
  split; [reflexivity|]. split; [exact Hr | exact Htty].
Defined.

Lemma flag_accessors_fetch_fails {hdr : SerialPort_h} h w :
  mIsOpen h = true ->
  call_fails (mFileDescriptor h) w 0 = true ->
  let e := (runtime_error, strerror_errno) in
  SerialPortImpl.GetParity h w = (Unexpected e, h, fetched h w) /\
  SerialPortImpl.GetNumOfStopBits h w = (Unexpected e, h, fetched h w) /\
  SerialPortImpl.GetFlowControl h w = (Unexpected e, h, fetched h w).
Proof.
  intros Ho F e.
  repeat apply conj;
    [unfold SerialPortImpl.GetParity, SerialPortImpl.GetParity_body
    |unfold SerialPortImpl.GetNumOfStopBits,
       SerialPortImpl.GetNumOfStopBits_body
    |unfold SerialPortImpl.GetFlowControl,
       SerialPortImpl.GetFlowControl_body];
    (apply throw_spec_unlisted; [|reflexivity]);
    exact (getter_fetch_fails _ h w Ho F).
Qed.

(** X17.  On an open object each of the five accessors makes one system
    call, the fetch of the settings, whether it goes through or not: the
    world it leaves is the world after that call, so that the settings of
    the device, the bytes sent and the descriptors are as before.  When the
    fetch goes through, [GetCharSize] returns the control flags under
    [CSIZE], and [GetBaudRate] what [cfgetispeed] makes of the settings in
    force: the control flags under [CBAUD], or zero when [IBAUD0] is set
    among the input flags; the field [c_ispeed] is not read. *)
Theorem X17_accessors_only_fetch :
  forall (hdr : SerialPort_h) (h : SerialPortImpl) (w : world),
    mIsOpen h = true ->
    let w' := enter (call_tcgetattr (mFileDescriptor h)) w in
    (world_after (SerialPortImpl.GetBaudRate h w) = w' /\
     world_after (SerialPortImpl.GetCharSize h w) = w' /\
     world_after (SerialPortImpl.GetParity h w) = w' /\
     world_after (SerialPortImpl.GetNumOfStopBits h w) = w' /\
     world_after (SerialPortImpl.GetFlowControl h w) = w') /\
    (w_tty w' = w_tty w /\ w_tx w' = w_tx w /\ w_live w' = w_live w /\
     w_trace w' = w_trace w ++ [call_tcgetattr (mFileDescriptor h)]) /\
    (call_fails (mFileDescriptor h) w 0 = false ->
       outcome (SerialPortImpl.GetCharSize h w)
       = Ret (Z.land (c_cflag (w_tty w)) CSIZE) /\
       outcome (SerialPortImpl.GetBaudRate h w)
       = Ret (if Z.land (c_iflag (w_tty w)) IBAUD0 =? 0
              then Z.land (c_cflag (w_tty w)) CBAUD
              else 0)).
Proof.
  intros hdr h w Ho w'. subst w'.
  split; [|split; [repeat split|]].
  - destruct (call_fails (mFileDescriptor h) w 0) eqn:F.
    + destruct (flag_accessors_fetch_fails h w Ho F) as (Ep & Es & Ef).
      rewrite (GetBaudRate_fetch_fails h w Ho F),
        (GetCharSize_fetch_fails h w Ho F), Ep, Es, Ef.
      repeat split.
    + rewrite (GetBaudRate_runs h w Ho F), (GetCharSize_runs h w Ho F),
        (GetParity_runs h w Ho F), (GetNumOfStopBits_runs h w Ho F),
        (GetFlowControl_runs h w Ho F).
      repeat split.
  - intros F.
    rewrite (GetCharSize_runs h w Ho F), (GetBaudRate_runs h w Ho F).
    split; [reflexivity|].
    unfold outcome, cfgetispeed; cbn [fst].
    change (Z.lor CBAUD CBAUDEX) with CBAUD.
    now destruct (Z.land (c_iflag (w_tty w)) IBAUD0 =? 0).
Qed.

(** The second world has 115200 baud in the field [c_ispeed] of the
    settings in force, and 9600 baud in their control flags. *)
Lemma X17_witness :
  let w := with_tty sample_world_open
             (set_c_ispeed (w_tty sample_world_open) B115200) in
  mIsOpen sample_open = true /\
  outcome (SerialPortImpl.GetBaudRate sample_open sample_world_open) = Ret B9600 /\
  outcome (SerialPortImpl.GetBaudRate sample_open w) = Ret B9600 /\
  w_tty (world_after (@SerialPortImpl.GetParity sample_h sample_open
                        (with_fault sample_world_open (fault_at 5))))
  = w_tty sample_world_open.
Proof.
  intros w.
  destruct (X17_accessors_only_fetch sample_h sample_open sample_world_open
              eq_refl) as (_ & _ & Hok).
  destruct (X17_accessors_only_fetch sample_h sample_open w eq_refl)
    as (_ & _ & Hok').
  destruct (X17_accessors_only_fetch sample_h sample_open
              (with_fault sample_world_open (fault_at 5)) eq_refl)
    as ((_ & _ & Hp & _) & _ & _).
  split; [reflexivity|].
  split; [exact (proj2 (Hok eq_refl))|].
  split; [exact (proj2 (Hok' eq_refl))|].
  now rewrite Hp.
Defined.
